(* ===== verification/_CoqProject ===== *)
-Q . S2P
Prelude.v
CoreTypes.v
Session.v
SessionInv.v
SessionSpec.v
Registry.v
RegistryFacts.v
Scenarios.v
PyStr.v
PyRuntime.v
QuickTest.v
SimpleTest.v
MockSuite.v
TesterScript.v
Chain.v
Summary.v
