(* ===== verification/Prelude.v ===== *)
(** * Bill-Split-Aptos: a verification development

    The repository (Antxnrx/Bill-Split-Aptos) is the tooling around a
    multi-party bill-splitting contract on the Aptos ledger: a merchant
    opens a bill session, a quorum of participants approves the split,
    the participants pay, and the session settles once the collected
    amount reaches the bill total.  The Move contract itself is not part
    of the repository; the repository holds five Python programs that
    drive it:

    - [src/contracts/scripts/test_multiple_signers.py] (class
      [BillSplitterTester]): creates accounts with the [aptos] CLI, parses
      their output, publishes and initialises the contracts and runs the
      bill scenarios (create, confirm, sign, pay) against them;
    - [src/contracts/tests/test_multiple_signers.py] (class
      [BillSplitterTest]): a mock suite that compiles and unit-tests the
      contracts, fabricates five mock accounts and checks the scenario
      parameters (thresholds, group sizes, concurrent session ids);
    - [src/contracts/tests/quick_test.py] and
      [src/contracts/tests/simple_test.py]: small suites running
      [aptos move compile] / [aptos move test] and tallying the results;
    - [src/contracts/script.py]: prints a summary of the project built
      from five literals (a dictionary, a list of dictionaries, three
      lists of strings).

    The development has two halves: the contract the scripts drive,
    modelled from the specification, and the scripts themselves,
    modelled from [src/].

    ** The bill-session core (modelled from the specification)

    The contract is code of the repository that is not under [src/], so
    its definitions follow the specification (sections 3 to 7):
    - [CoreTypes]: session states, the error taxonomy, events,
      participants;
    - [Session] (Module [BillSession]): the session record, the
      participant registry operations ([add_participant],
      [remove_participant], [total_owed]), the threshold-approval tracker
      ([record_approval], [quorum_reached]), the payment ledger
      ([record_payment], [aggregate_paid]), [confirm_session],
      [cancel_session] and lazy expiry; the external value transfer is
      the typeclass [Ledger] (the collaborator interface of section 6);
    - [SessionInv]: the well-formedness invariant [session_wf] (cached
      counters equal their recomputation, identities unique, per-phase
      facts) and its preservation by every operation;
    - [SessionSpec]: the functional specification of [confirm_session],
      [record_approval] and [record_payment] on every branch;
    - [Registry] (Module [SessionRegistry]): the process-wide
      [gmap string BillSession] with the event log and the ledger, the
      command dispatcher [exec] that applies lazy expiry before every
      operation, the step relation [step], reachability and the
      transition relation of section 4.4;
    - [RegistryFacts]: invariants of every reachable system by rule
      induction (every session is well formed and stored under its id,
      settlement iff the target is met, quorum is monotone, each step
      follows the state machine, failed operations change nothing but an
      expiry, terminal sessions reject every mutation);
    - [Scenarios]: a balance ledger instance and the scenarios A to F of
      section 8 evaluated by [vm_compute].  Scenario A shows that the
      specification's example (60 of 90 paid settles) contradicts its own
      definitions (total = sum owed, settle when aggregate >= total).

    ** The Python scripts (modelled from [src/])

    - [PyStr]: the [str] methods the scripts use ([strip], [split],
      [in], [join], [upper], slicing) and the integer formats
      ([f"{n}"], [f"{i:064x}"]), with lemmas on concatenations (split at
      a separator, strip of a stripped text, absence of a substring) and
      the read-back of the hexadecimal format;
    - [PyRuntime]: the effects of the scripts as a state-and-exception
      monad [Py] over a [World]: the working directory ([os.getcwd],
      [os.chdir], [os.path.exists]), the clock, [subprocess.run]
      answered by an environment oracle and recorded in an invocation
      trace, and Python exceptions as values ([try]/[except] is
      [py_try]); console output ([print]) is not modelled, it does not
      influence control flow;
    - [QuickTest], [SimpleTest], [MockSuite] (tests/test_multiple_signers.py)
      and [TesterScript] (scripts/test_multiple_signers.py): one Module
      per script, one definition per function or method, composed as the
      scripts compose them; object fields are a record threaded through
      the methods, and [None] is an [option] with Python's behaviour on it
      ([AttributeError], [TypeError], the text [None]) written out;
    - [Summary] (Module [ScriptSummary], script.py): the literals, a
      dictionary literal as an insertion-ordered association list, the
      output as the list of printed lines in a writer-and-exception monad
      [Out], one definition per block of prints and a [Fixpoint] per
      loop; a subscript of a missing key raises [KeyError].

    ** The bridge: the scripts against the contract

    - [Chain] (Module [Chain]): the [aptos move run] invocations of
      [TesterScript] read as calls of the entry functions
      [create_bill_session], [confirm_participants],
      [sign_bill_agreement] and [submit_payment] ([decode_inv] parses the
      recorded argument vector back), each run as one atomic transaction
      of [SessionRegistry] commands ([exec_all]) signed by the account of
      its private key; [chain_oracle] turns the registry into the CLI
      oracle of [PyRuntime], answering each call with its exit status on
      the registry reached by the calls recorded so far.  The entry
      functions are not in the repository.  The oracle also hands out
      the accounts of [aptos account create] in order and runs the test
      mint [usdc_utils::mint_usdc_for_testing], signed by the publisher,
      as a credit of the ledger.  The split of the total into
      owed amounts ([shares], equal parts with the remainder on the
      first) is a modelling choice, of which the theorems use only that
      the parts are positive and sum to the total.

    ** What the theorems show

    For the core: the functional behaviour of each operation on every
    branch (errors included), preservation of [session_wf], safety of the
    state machine, the settlement property of section 8, monotone quorum,
    and the six scenarios.  For the scripts (the claims of the
    development): which commands are run, in which directory and in
    which order; where the working directory is restored and where it is
    not ([SimpleTest] leaves the process one directory up after a
    timeout, a defect; [MockSuite] restores it on every path); that the
    result tallies report success exactly when every test succeeded; the
    crash of [setup_test_environment] when the admin account cannot be
    created; that [_execute_test_scenario] ignores every answer but the
    creation's and divides by zero for an empty group; the round trip of
    the account-output parser; and the bounds of the mock data and the
    scenario parameters (distinct 66-character addresses, the medium
    group's threshold of [count * 2 // 3] that is zero for one
    participant, the small group's equal shares that cover its total);
    and that [mint_test_tokens] sets the balance of exactly the accounts
    whose mint call exited 0.  For [script.py]: the [enumerate] loops
    against a reference numbering ([print_enumerated_numbered]), the
    contract loop on complete dictionaries and its exact [KeyError]
    behaviour, the title block on a well-typed summary, the lengths of
    the rules [ch * n], and the whole run (no [KeyError], 57 lines, a
    reported file count equal to the number of contracts listed).
    Through [Chain], the scenario of [_execute_test_scenario] run against
    the registry ([scenario_outcome]): with n participants it returns
    True, the merchant receives [total - total mod n], and the session is
    Settled exactly when n divides the total; otherwise it is left
    awaiting payment, a defect of the script's [total // n] payments.
    Two evaluated examples show the script reporting success on sessions
    that did not settle: an uneven total ([scenario_uneven_short]) and
    a participant without funds ([scenario_underfunded_reports_success]).
    A rerun in the same second collides with the session id and changes
    nothing ([scenario_duplicate_id]); [create_test_accounts] returns the
    CLI's accounts in order ([create_test_accounts_chain]).  The whole
    [main] of the tester script terminates against the CLI model
    ([main_settles_small_group]): from an empty history with at least
    four distinct accounts it sets up, creates, publishes, initialises,
    mints and runs the three scenarios without raising, and the small
    group's session ends Settled with its 150 USDC paid; the proof
    composes [main_prefix] (setup to mint, with the minted balances in
    the registry) and [small_group_chain] with the inert calls of the
    medium group and the stress test.

    ** Bounds and fuel

    Amounts are Python [int]s and Move [u64]s; they are kept as [Z]
    (no wrap-around: the scripts' amounts are at most 10^9, far below
    2^64).  [PyStr.py_split] runs on fuel equal to the length of the
    string plus one, which is enough because every step consumes a
    character (lemma [split_go_fuel]).

    ** Not modelled

    The console output of the four test scripts (it does not influence
    their control flow; the output of [script.py], its only behaviour,
    is modelled), the [aptos] CLI beyond what [Chain] answers (account
    creation, the mint and the bill module's calls; every other command
    is one oracle answer), the ledger beyond the [Ledger] interface,
    gas and the faucet's coins (a separate currency from the bill's),
    and cryptographic identities (an account is its address string).

    This file is the prelude: the [result] error monad, the list sums and
    keyed updates the components share, the [bs] hint database and the
    tactics of the development. *)

From stdpp Require Export base list gmap strings.
From Stdlib Require Export ZArith Lia String.

(** [String] exports its own [length]; lists keep the short name, strings
    say [String.length]. *)
Abbreviation length := List.length.

Declare Scope bs_scope.
Delimit Scope bs_scope with bs.
Open Scope Z_scope.

Create HintDb bs discriminated.
Create Rewrite HintDb bs_rw.

(** ** Results: the error monad of the development *)

Inductive result (E A : Type) : Type :=
| Ok (a : A)
| Err (e : E).
Arguments Ok {E A} a.
Arguments Err {E A} e.

#[export] Instance result_ret E : MRet (result E) := λ A a, Ok a.
#[export] Instance result_bind E : MBind (result E) :=
  λ A B f m, match m with Ok a => f a | Err e => Err e end.

Definition is_ok {E A} (r : result E A) : bool :=
  match r with Ok _ => true | Err _ => false end.

Lemma result_bind_Ok {E A B} (m : result E A) (f : A → result E B) b :
  (m ≫= f) = Ok b ↔ ∃ a, m = Ok a ∧ f a = Ok b.
Proof. destruct m; simpl; split; [eauto|by intros (? & [= ->] & ?)|done|naive_solver]. Qed.

Lemma result_bind_Err {E A B} (m : result E A) (f : A → result E B) e :
  m = Err e → (m ≫= f) = Err e.
Proof. by intros ->. Qed.

(** ** Sums and counts over lists *)

Section Sums.
Context {A : Type}.

Definition sumZ (f : A → Z) (l : list A) : Z :=
  fold_right (λ x acc, f x + acc) 0 l.

Definition countZ (p : A → bool) (l : list A) : Z :=
  sumZ (λ x, if p x then 1 else 0) l.

Lemma sumZ_nil f : sumZ f [] = 0.
Proof. reflexivity. Qed.

Lemma sumZ_cons f x l : sumZ f (x :: l) = f x + sumZ f l.
Proof. reflexivity. Qed.

Lemma sumZ_app f l1 l2 : sumZ f (l1 ++ l2) = sumZ f l1 + sumZ f l2.
Proof. induction l1; simpl; [done|]. unfold sumZ in *. simpl. lia. Qed.

Lemma sumZ_ext f g l : (∀ x, x ∈ l → f x = g x) → sumZ f l = sumZ g l.
Proof.
  induction l as [|x l IH]; intros H; [done|].
  rewrite !sumZ_cons. f_equal; [apply H; set_solver|].
  apply IH. intros; apply H; set_solver.
Qed.

Lemma sumZ_nonneg f l : Forall (λ x, 0 ≤ f x) l → 0 ≤ sumZ f l.
Proof. induction 1; rewrite ?sumZ_cons; simpl; lia. Qed.

Lemma sumZ_zero f l : Forall (λ x, f x = 0) l → sumZ f l = 0.
Proof. induction 1; rewrite ?sumZ_cons; simpl; lia. Qed.

Lemma sumZ_pos_length f l :
  Forall (λ x, 0 < f x) l → Z.of_nat (length l) ≤ sumZ f l.
Proof. induction 1; rewrite ?sumZ_cons; simpl; lia. Qed.

Lemma countZ_bounds p l : 0 ≤ countZ p l ≤ Z.of_nat (length l).
Proof.
  unfold countZ. induction l as [|x l IH]; rewrite ?sumZ_cons; simpl; [lia|].
  destruct (p x); lia.
Qed.

Lemma countZ_none p l : Forall (λ x, p x = false) l → countZ p l = 0.
Proof. intros H. apply sumZ_zero. eapply Forall_impl; [done|]. by intros x ->. Qed.

Lemma countZ_app p l1 l2 : countZ p (l1 ++ l2) = countZ p l1 + countZ p l2.
Proof. apply sumZ_app. Qed.
End Sums.

#[export] Hint Resolve sumZ_nonneg countZ_none : bs.
#[export] Hint Rewrite @sumZ_nil @sumZ_cons @sumZ_app @countZ_app : bs_rw.

(** ** Keyed lists: find and update an element by its key

    The participants of a session are a list in insertion order, keyed by
    identity.  [find_by] and [update_by] are the lookup and the in-place
    update of such a list; with unique keys, an update changes a sum by
    exactly the difference at the updated element. *)

Section Keyed.
Context {A K : Type} `{EqDecision K} (key : A → K).

Definition find_by (k : K) (l : list A) : option A :=
  List.find (λ x, bool_decide (key x = k)) l.

Definition update_by (k : K) (f : A → A) (l : list A) : list A :=
  (λ x, if bool_decide (key x = k) then f x else x) <$> l.

Definition remove_by (k : K) (l : list A) : list A :=
  filter (λ x, key x ≠ k) l.

Lemma find_by_Some k l x : find_by k l = Some x → x ∈ l ∧ key x = k.
Proof.
  unfold find_by. intros [Hin Hk]%List.find_some.
  apply bool_decide_eq_true in Hk. split; [by apply list_elem_of_In|done].
Qed.

Lemma find_by_None k l : find_by k l = None ↔ k ∉ key <$> l.
Proof.
  unfold find_by. induction l as [|y l IH]; simpl; [set_solver|].
  case_bool_decide as Hk; [split; [done|]; set_solver|].
  rewrite IH. set_solver.
Qed.

Lemma find_by_elem k l x :
  NoDup (key <$> l) → x ∈ l → key x = k → find_by k l = Some x.
Proof.
  unfold find_by. induction l as [|y l IH]; simpl; [set_solver|].
  intros [Hy Hnd]%NoDup_cons Hx <-. case_bool_decide as Hk.
  - apply elem_of_cons in Hx as [->|Hx]; [done|].
    exfalso. apply Hy. rewrite Hk. by apply list_elem_of_fmap_2.
  - apply elem_of_cons in Hx as [->|Hx]; [done|]. by apply IH.
Qed.

Lemma remove_by_Forall (P : A → Prop) k l : Forall P l → Forall P (remove_by k l).
Proof.
  rewrite !Forall_forall. intros HP x Hx. apply list_elem_of_filter in Hx. naive_solver.
Qed.

Lemma remove_by_length k l : (length (remove_by k l) ≤ length l)%nat.
Proof. apply sublist_length, sublist_filter. Qed.

Lemma remove_by_nodup k l : NoDup (key <$> l) → NoDup (key <$> remove_by k l).
Proof. intros H. eapply sublist_NoDup; [done|]. apply fmap_sublist, sublist_filter. Qed.

Lemma update_by_keys k f l :
  (∀ x, key (f x) = key x) → key <$> (update_by k f l) = key <$> l.
Proof.
  intros Hf. unfold update_by. rewrite map_map.
  apply map_ext. intros x. by case_bool_decide.
Qed.

Lemma update_by_Forall (P : A → Prop) k f l :
  Forall P l → (∀ x, P x → key x = k → P (f x)) → Forall P (update_by k f l).
Proof.
  intros HP Hf. apply Forall_map. eapply Forall_impl; [done|].
  intros x Hx. case_bool_decide; auto.
Qed.

Lemma update_by_absent k f l : k ∉ key <$> l → update_by k f l = l.
Proof.
  intros Hk. unfold update_by. rewrite <-(map_id l) at 2. apply map_ext_in.
  intros x Hx. case_bool_decide as E; [|done]. subst k.
  exfalso. apply Hk. apply list_elem_of_fmap_2. by apply list_elem_of_In.
Qed.

Lemma sumZ_update_by g k f l x :
  NoDup (key <$> l) → find_by k l = Some x →
  sumZ g (update_by k f l) = sumZ g l - g x + g (f x).
Proof.
  unfold find_by, update_by. induction l as [|y l IH]; [done|].
  rewrite fmap_cons. intros [Hy Hnd]%NoDup_cons Hfind. cbn [List.find] in Hfind.
  rewrite fmap_cons, !sumZ_cons. case_bool_decide as Hk.
  - injection Hfind as <-. subst k.
    pose proof (update_by_absent (key y) f l Hy) as E. unfold update_by in E.
    rewrite E. lia.
  - rewrite IH; [lia|done|done].
Qed.

Lemma find_by_update_by_eq k f l x :
  (∀ y, key (f y) = key y) → find_by k l = Some x →
  find_by k (update_by k f l) = Some (f x).
Proof.
  unfold find_by, update_by. intros Hf. induction l as [|y l IH]; [done|].
  rewrite fmap_cons. cbn [List.find]. case_bool_decide as Hk.
  - intros [= <-]. rewrite bool_decide_true; [done|]. by rewrite Hf.
  - intros H. rewrite bool_decide_false; [by apply IH|done].
Qed.

Lemma find_by_update_by_ne k k' f l :
  (∀ y, key (f y) = key y) → k ≠ k' →
  find_by k' (update_by k f l) = find_by k' l.
Proof.
  unfold find_by, update_by. intros Hf Hne.
  induction l as [|y l IH]; [done|].
  rewrite fmap_cons. cbn [List.find]. rewrite IH.
  destruct (decide (key y = k)) as [Hk|Hk].
  - rewrite (bool_decide_true (key y = k)), Hf, Hk by done.
    rewrite !bool_decide_false; congruence.
  - by rewrite (bool_decide_false (key y = k)).
Qed.
End Keyed.

#[export] Hint Resolve update_by_keys update_by_Forall remove_by_Forall remove_by_nodup : bs.

(** ** Tactics *)

(** [inv_ok] turns an equation between results into equations between
    their contents and discards the impossible ones. *)
Ltac inv_ok :=
  repeat match goal with
  | H : Ok _ = Ok _ |- _ => injection H as H
  | H : Err _ = Ok _ |- _ => discriminate H
  | H : Ok _ = Err _ |- _ => discriminate H
  | H : Err _ = Err _ |- _ => injection H as H
  | H : (_, _) = (_, _) |- _ => injection H as H
  end; subst.

(** [unneg] turns the doubly negated guards left by a failed
    [decide (x ≠ y)] back into equations. *)
Ltac unneg :=
  repeat match goal with
  | H : decide _ = _ |- _ => clear H
  | H : ¬ (_ ≠ _) |- _ => apply dec_stable in H
  | H : ¬ ¬ _ |- _ => apply dec_stable in H
  end.

(** [case_guards] splits every boolean test of the goal or the
    hypotheses, introducing the proposition it decides. *)
Ltac case_guards :=
  repeat match goal with
  | |- context [if decide ?P then _ else _] => destruct (decide P)
  | H : context [if decide ?P then _ else _] |- _ => destruct (decide P)
  | |- context [if bool_decide ?P then _ else _] => case_bool_decide
  | H : context [if bool_decide ?P then _ else _] |- _ => case_bool_decide
  | H : ¬ (_ ≠ _) |- _ => apply dec_stable in H
  | H : ¬ ¬ _ |- _ => apply dec_stable in H
  end.
