(* ===== verification/CoreTypes.v ===== *)
(** * The data of the bill-session core

    Session states, the error taxonomy, the events emitted to the
    external synchroniser and the participant record, as section 3,
    section 6 and section 7 of the specification describe them (the Move
    contract that implements them is not part of the repository).
    Identities are address strings, amounts integers in minor currency
    units, timestamps integers. *)

From S2P Require Import Prelude.

(** The life cycle of a session (section 3, "state"). *)
Inductive SessionState :=
| Draft
| AwaitingApproval
| AwaitingPayment
| Settled
| Cancelled
| Expired.

#[export] Instance SessionState_eq_dec : EqDecision SessionState.
Proof. solve_decision. Defined.

(** Settled, Cancelled and Expired are terminal: no operation changes a
    session in them. *)
Definition is_terminal (st : SessionState) : bool :=
  match st with
  | Settled | Cancelled | Expired => true
  | Draft | AwaitingApproval | AwaitingPayment => false
  end.

(** The error taxonomy of section 7: validation, state, not-found and
    collaborator errors.  A collaborator error carries the collaborator's
    message unmodified. *)
Inductive Error :=
(* ValidationErrors *)
| InvalidAmount
| InvalidSignatureThreshold
| InsufficientParticipants
| CapacityExceeded
(* StateErrors *)
| WrongState
| AlreadyConfirmed
| AlreadyApproved
| SessionLocked
| SessionExpired
(* NotFoundErrors *)
| NotFound
| NotAParticipant
(* registry and participant-set conflicts *)
| DuplicateParticipant
| DuplicateSessionId
(* CollaboratorErrors *)
| TransferFailed (msg : string).

#[export] Instance Error_eq_dec : EqDecision Error.
Proof. solve_decision. Defined.

(** The events of section 6; each carries the session id and the
    timestamp, and the delta of the transition. *)
Inductive Event :=
| SessionCreated (sid : string) (ts : Z)
| SessionConfirmed (sid : string) (ts : Z) (total : Z)
| ParticipantApproved (sid : string) (ts : Z) (who : string)
| QuorumReached (sid : string) (ts : Z)
| PaymentRecorded (sid : string) (ts : Z) (who : string) (amount : Z)
| SessionSettled (sid : string) (ts : Z) (total : Z)
| SessionCancelled (sid : string) (ts : Z)
| SessionExpiredEv (sid : string) (ts : Z).

#[export] Instance Event_eq_dec : EqDecision Event.
Proof. solve_decision. Defined.

(** A participant (section 3). *)
Record Participant := mkParticipant {
  identity : string;
  display_name : string;
  owed_amount : Z;
  has_approved : bool;
  paid_amount : Z
}.

#[export] Instance Participant_eq_dec : EqDecision Participant.
Proof. solve_decision. Defined.

(** The two per-participant updates the core performs. *)
Definition mark_approved (p : Participant) : Participant :=
  mkParticipant (identity p) (display_name p) (owed_amount p) true (paid_amount p).

Definition add_paid (amount : Z) (p : Participant) : Participant :=
  mkParticipant (identity p) (display_name p) (owed_amount p) (has_approved p)
    (paid_amount p + amount).

Lemma mark_approved_identity p : identity (mark_approved p) = identity p.
Proof. reflexivity. Qed.

Lemma add_paid_identity a p : identity (add_paid a p) = identity p.
Proof. reflexivity. Qed.

#[export] Hint Resolve mark_approved_identity add_paid_identity : bs.
