(* ===== verification/Session.v ===== *)
(** * The bill session (sections 4.1 to 4.4 of the specification)

    Module [BillSession]: the session record, the participant registry
    (add, remove, total owed), the threshold-approval tracker, the
    payment ledger and the session state machine.  Every operation is a
    function from the session (and, for payments, the external ledger) to
    a [result Error _]; an error carries no new state, so a rejected
    operation leaves the session as it was (section 7).  The checks run
    in the order the specification lists them; where it does not order
    them, the state check comes first (a locked or closed session rejects
    every mutation before its arguments are examined), except for
    approvals, whose duplicate check precedes the state check so that a
    repeated signature is reported as [AlreadyApproved] in every state
    (section 4.4).  Lazy expiry is the pair [is_expired]/[expire], which
    the registry applies before every operation. *)

From S2P Require Import Prelude CoreTypes.

(** The external value-transfer collaborator of section 6: moving
    [amount] from one account to another either succeeds with a new
    ledger state or fails with the collaborator's message. *)
Class Ledger (L : Type) := transfer_value : L → string → string → Z → result string L.

Module BillSession.

(** The configuration bound on the participant count (section 4.1); the
    scripts create enhanced sessions with [max_participants = 100]. *)
Definition MAX_PARTICIPANTS : Z := 100.

Record BillSession := mkSession {
  session_id : string;
  description : string;
  creator : string;
  total_amount : Z;
  participants : list Participant;
  required_signatures : Z;
  state : SessionState;
  created_at : Z;
  expires_at : Z;
  approvals_count : Z;
  payments_total : Z
}.

(** Field updates. *)
Definition set_state (st : SessionState) (s : BillSession) : BillSession :=
  mkSession (session_id s) (description s) (creator s) (total_amount s)
    (participants s) (required_signatures s) st (created_at s) (expires_at s)
    (approvals_count s) (payments_total s).

Definition set_participants (ps : list Participant) (s : BillSession) : BillSession :=
  mkSession (session_id s) (description s) (creator s) (total_amount s)
    ps (required_signatures s) (state s) (created_at s) (expires_at s)
    (approvals_count s) (payments_total s).

(** [create_session]: a new session is a Draft with no participants and
    zero counters. *)
Definition create_session (sid desc creator : string) (required now expires : Z)
  : BillSession :=
  mkSession sid desc creator 0 [] required Draft now expires 0 0.

Definition find_participant (who : string) (s : BillSession) : option Participant :=
  find_by identity who (participants s).

Definition participant_count (s : BillSession) : Z :=
  Z.of_nat (length (participants s)).

(** The recomputed aggregates (sections 4.1 and 4.3). *)
Definition total_owed (s : BillSession) : Z := sumZ owed_amount (participants s).
Definition aggregate_paid (s : BillSession) : Z := sumZ paid_amount (participants s).
Definition approvals (s : BillSession) : Z := countZ has_approved (participants s).

(** [quorum_reached()] of section 4.2. *)
Definition quorum_reached (s : BillSession) : bool :=
  required_signatures s <=? approvals_count s.

(** [add(identity, display_name, owed_amount)] of section 4.1. *)
Definition add_participant (who name : string) (owed : Z) (s : BillSession)
  : result Error BillSession :=
  if decide (state s ≠ Draft) then Err SessionLocked
  else if decide (owed ≤ 0) then Err InvalidAmount
  else match find_participant who s with
  | Some _ => Err DuplicateParticipant
  | None =>
    if decide (MAX_PARTICIPANTS ≤ participant_count s) then Err CapacityExceeded
    else Ok (set_participants (participants s ++ [mkParticipant who name owed false 0]) s)
  end.

(** [remove(identity)] of section 4.1. *)
Definition remove_participant (who : string) (s : BillSession)
  : result Error BillSession :=
  if decide (state s ≠ Draft) then Err SessionLocked
  else match find_participant who s with
  | None => Err NotFound
  | Some _ => Ok (set_participants (remove_by identity who (participants s)) s)
  end.

(** [confirm()] of section 4.4: freezes the participant set and fixes
    [total_amount] to the sum of the owed amounts. *)
Definition confirm_session (now : Z) (s : BillSession)
  : result Error (BillSession * list Event) :=
  if decide (state s ≠ Draft) then Err AlreadyConfirmed
  else if decide (participant_count s < 2) then Err InsufficientParticipants
  else if decide (¬ (1 ≤ required_signatures s ≤ participant_count s))
  then Err InvalidSignatureThreshold
  else
    let total := total_owed s in
    Ok (mkSession (session_id s) (description s) (creator s) total
          (participants s) (required_signatures s) AwaitingApproval
          (created_at s) (expires_at s) (approvals_count s) (payments_total s),
        [SessionConfirmed (session_id s) now total]).

(** [record_approval(identity)] of section 4.2, with the automatic
    AwaitingApproval -> AwaitingPayment transition of section 4.4. *)
Definition record_approval (now : Z) (who : string) (s : BillSession)
  : result Error (BillSession * list Event) :=
  match find_participant who s with
  | None => Err NotAParticipant
  | Some p =>
    if has_approved p then Err AlreadyApproved
    else if decide (state s ≠ AwaitingApproval) then Err WrongState
    else
      let s1 := mkSession (session_id s) (description s) (creator s)
                  (total_amount s) (update_by identity who mark_approved (participants s))
                  (required_signatures s) (state s) (created_at s) (expires_at s)
                  (approvals_count s + 1) (payments_total s) in
      let ev := ParticipantApproved (session_id s) now who in
      if quorum_reached s1
      then Ok (set_state AwaitingPayment s1, [ev; QuorumReached (session_id s) now])
      else Ok (s1, [ev])
  end.

(** The outcome of a payment: the session, the ledger after the
    transfer, the events, and the [OverpaidParticipant] warning flag. *)
Record PaymentOutcome (L : Type) := mkPaymentOutcome {
  po_session : BillSession;
  po_ledger : L;
  po_events : list Event;
  po_overpaid : bool
}.
Arguments mkPaymentOutcome {L}.
Arguments po_session {L}.
Arguments po_ledger {L}.
Arguments po_events {L}.
Arguments po_overpaid {L}.

(** [record_payment(identity, amount)] of section 4.3: the transfer to
    the creator (the merchant) and the internal update are one step, a
    failed transfer fails the payment (section 5); the session settles
    as soon as the aggregate reaches the total (section 4.3). *)
Definition record_payment {L} `{Ledger L} (now : Z) (who : string) (amount : Z)
  (s : BillSession) (ledger : L) : result Error (PaymentOutcome L) :=
  match find_participant who s with
  | None => Err NotAParticipant
  | Some p =>
    if decide (amount ≤ 0) then Err InvalidAmount
    else if decide (state s ≠ AwaitingPayment) then Err WrongState
    else match transfer_value ledger who (creator s) amount with
    | Err msg => Err (TransferFailed msg)
    | Ok ledger' =>
      let s1 := mkSession (session_id s) (description s) (creator s)
                  (total_amount s) (update_by identity who (add_paid amount) (participants s))
                  (required_signatures s) (state s) (created_at s) (expires_at s)
                  (approvals_count s) (payments_total s + amount) in
      let overpaid := owed_amount p <? paid_amount p + amount in
      let ev := PaymentRecorded (session_id s) now who amount in
      if total_amount s1 <=? payments_total s1
      then Ok (mkPaymentOutcome (set_state Settled s1) ledger'
                 [ev; SessionSettled (session_id s) now (total_amount s1)] overpaid)
      else Ok (mkPaymentOutcome s1 ledger' [ev] overpaid)
    end
  end.

(** [cancel()]: by the creator, only in Draft or AwaitingApproval. *)
Definition cancel_session (now : Z) (s : BillSession)
  : result Error (BillSession * list Event) :=
  match state s with
  | Draft | AwaitingApproval =>
    Ok (set_state Cancelled s, [SessionCancelled (session_id s) now])
  | _ => Err WrongState
  end.

(** Lazy expiry (section 4.4): a non-terminal session whose deadline has
    passed is forced to Expired before the operation is rejected. *)
Definition is_expired (now : Z) (s : BillSession) : bool :=
  negb (is_terminal (state s)) && (expires_at s <=? now).

Definition expire (now : Z) (s : BillSession) : BillSession * list Event :=
  (set_state Expired s, [SessionExpiredEv (session_id s) now]).

(** The read model of section 6, every field derived. *)
Record SessionView := mkView {
  view_id : string;
  view_state : SessionState;
  view_total : Z;
  view_paid : Z;
  view_approvals : Z;
  view_required : Z;
  view_participants : list (string * Z * Z * bool)
}.

Definition get_session_view (s : BillSession) : SessionView :=
  mkView (session_id s) (state s) (total_amount s) (aggregate_paid s)
    (approvals s) (required_signatures s)
    ((λ p, (identity p, owed_amount p, paid_amount p, has_approved p)) <$> participants s).

End BillSession.
