(* ===== verification/SessionInv.v ===== *)
(** * The session invariant and its preservation

    [session_wf] is the well-formedness of a bill session: identities
    are unique, owed amounts positive and paid amounts non-negative, the
    cached counters [approvals_count] and [payments_total] equal their
    recomputation from the participants (section 3: "an invariant, not
    two sources of truth"), the participant count stays within the
    configured capacity, and each state carries its phase facts: a Draft
    has no approvals, no payments and no total yet; a confirmed session
    has [total_amount = total_owed], at least two participants and a
    threshold in [1, participant_count]; awaiting approval means below
    quorum and nothing paid; awaiting payment means quorum and less than
    the total paid; settled means quorum and the total paid.  Every
    operation of [Session.BillSession] preserves it. *)

From S2P Require Import Prelude CoreTypes Session.
Import BillSession.

Definition confirmed_facts (s : BillSession) : Prop :=
  total_amount s = total_owed s ∧ 2 ≤ participant_count s ∧
  1 ≤ required_signatures s ≤ participant_count s.

Definition draft_facts (s : BillSession) : Prop :=
  total_amount s = 0 ∧
  Forall (λ p, has_approved p = false ∧ paid_amount p = 0) (participants s).

Definition approval_facts (s : BillSession) : Prop :=
  confirmed_facts s ∧ approvals_count s < required_signatures s ∧
  Forall (λ p, paid_amount p = 0) (participants s).

Definition payment_facts (s : BillSession) : Prop :=
  confirmed_facts s ∧ required_signatures s ≤ approvals_count s ∧
  payments_total s < total_amount s.

Definition settled_facts (s : BillSession) : Prop :=
  confirmed_facts s ∧ required_signatures s ≤ approvals_count s ∧
  total_amount s ≤ payments_total s.

(** Cancelled sessions come from Draft or AwaitingApproval, expired ones
    from any non-terminal state: they keep the facts of where they came
    from. *)
Definition phase_inv (s : BillSession) : Prop :=
  match state s with
  | Draft => draft_facts s
  | AwaitingApproval => approval_facts s
  | AwaitingPayment => payment_facts s
  | Settled => settled_facts s
  | Cancelled => draft_facts s ∨ approval_facts s
  | Expired => draft_facts s ∨ approval_facts s ∨ payment_facts s
  end.

Record session_wf (s : BillSession) : Prop := {
  wf_nodup : NoDup (identity <$> participants s);
  wf_amounts : Forall (λ p, 0 < owed_amount p ∧ 0 ≤ paid_amount p) (participants s);
  wf_approvals : approvals_count s = approvals s;
  wf_payments : payments_total s = aggregate_paid s;
  wf_capacity : participant_count s ≤ MAX_PARTICIPANTS;
  wf_phase : phase_inv s
}.

(** ** Shared facts *)

Lemma total_owed_pos s :
  Forall (λ p, 0 < owed_amount p ∧ 0 ≤ paid_amount p) (participants s) →
  2 ≤ participant_count s → 0 < total_owed s.
Proof.
  intros Ha Hn. unfold total_owed, participant_count in *.
  enough (Z.of_nat (length (participants s)) ≤ sumZ owed_amount (participants s)) by lia.
  apply sumZ_pos_length. eapply Forall_impl; [done|]. naive_solver.
Qed.

Lemma confirmed_total_pos s :
  Forall (λ p, 0 < owed_amount p ∧ 0 ≤ paid_amount p) (participants s) →
  confirmed_facts s → 0 < total_amount s.
Proof. intros Ha (-> & Hn & _). by apply total_owed_pos. Qed.

Lemma draft_counters s :
  session_wf s → draft_facts s → approvals_count s = 0 ∧ payments_total s = 0.
Proof.
  intros Hwf [_ Hd]. rewrite (wf_approvals _ Hwf), (wf_payments _ Hwf).
  split; [apply countZ_none|apply sumZ_zero];
    (eapply Forall_impl; [done|]); naive_solver.
Qed.

Lemma approval_payments s :
  session_wf s → approval_facts s → payments_total s = 0.
Proof.
  intros Hwf (_ & _ & Hp). rewrite (wf_payments _ Hwf). by apply sumZ_zero.
Qed.

(** The participant updates of approvals and payments keep identities
    and owed amounts, so they keep the key list, the total owed and the
    participant count. *)
Lemma update_keeps_owed f who ps :
  (∀ p, owed_amount (f p) = owed_amount p) → (∀ p, identity (f p) = identity p) →
  sumZ owed_amount (update_by identity who f ps) = sumZ owed_amount ps.
Proof.
  intros Ho Hi. unfold update_by. induction ps as [|q ps IH]; [done|].
  rewrite fmap_cons, !sumZ_cons, IH. case_bool_decide; by rewrite ?Ho.
Qed.

Lemma update_keeps_length {A} (key : A → string) f who ps :
  length (update_by key who f ps) = length ps.
Proof. unfold update_by. by rewrite length_fmap. Qed.

Lemma confirmed_update f who s s' :
  (∀ p, owed_amount (f p) = owed_amount p) → (∀ p, identity (f p) = identity p) →
  confirmed_facts s →
  participants s' = update_by identity who f (participants s) →
  total_amount s' = total_amount s →
  required_signatures s' = required_signatures s → confirmed_facts s'.
Proof.
  intros Ho Hi (Ht & Hn & Hr) Hps Htot Hreq.
  unfold confirmed_facts, total_owed, participant_count in *.
  rewrite Hps, Htot, Hreq, update_keeps_owed, update_keeps_length; done.
Qed.

#[export] Hint Resolve total_owed_pos confirmed_total_pos : bs.

(** ** Preservation, one lemma per operation *)

Lemma create_session_wf sid desc who req now exp :
  session_wf (create_session sid desc who req now exp).
Proof.
  constructor; simpl.
  - constructor.
  - constructor.
  - reflexivity.
  - reflexivity.
  - unfold participant_count, MAX_PARTICIPANTS. simpl. lia.
  - split; [done|constructor].
Qed.

Lemma add_participant_wf who name owed s s' :
  session_wf s → add_participant who name owed s = Ok s' → session_wf s'.
Proof.
  intros Hwf H. unfold add_participant in H.
  destruct (find_participant who s) as [q|] eqn:Hf; case_guards; inv_ok.
  apply find_by_None in Hf. destruct Hwf as [Hnd Ham Hap Hpay Hcap Hph].
  assert (state s = Draft) as Hst by done.
  unfold phase_inv in Hph. rewrite Hst in Hph. destruct Hph as [Ht Hd].
  constructor; simpl.
  - rewrite fmap_app. apply NoDup_app. split; [done|]. split; [|apply NoDup_singleton].
    intros x Hx Hin. apply list_elem_of_singleton in Hin. subst. by apply Hf.
  - apply Forall_app. split; [done|]. constructor; [simpl; lia|constructor].
  - unfold approvals in *. simpl. rewrite countZ_app, Hap. cbn. lia.
  - unfold aggregate_paid in *. simpl. rewrite sumZ_app, Hpay. cbn. lia.
  - unfold participant_count in *. simpl. rewrite length_app. simpl. lia.
  - unfold phase_inv. simpl. rewrite Hst. split; [done|].
    apply Forall_app. split; [done|]. by repeat constructor.
Qed.

Lemma remove_participant_wf who s s' :
  session_wf s → remove_participant who s = Ok s' → session_wf s'.
Proof.
  intros Hwf H. unfold remove_participant in H.
  destruct (find_participant who s) as [q|]; case_guards; inv_ok.
  pose proof Hwf as [Hnd Ham Hap Hpay Hcap Hph].
  assert (state s = Draft) as Hst by done.
  unfold phase_inv in Hph. rewrite Hst in Hph.
  destruct (draft_counters s Hwf Hph) as [Ha0 Hp0]. destruct Hph as [Ht Hd].
  assert (Forall (λ p, has_approved p = false ∧ paid_amount p = 0)
            (remove_by identity who (participants s))) as Hd'.
  { by apply remove_by_Forall. }
  constructor; simpl.
  - by apply remove_by_nodup.
  - by apply remove_by_Forall.
  - rewrite Ha0. symmetry. apply countZ_none. eapply Forall_impl; [done|]. naive_solver.
  - rewrite Hp0. symmetry. apply sumZ_zero. eapply Forall_impl; [done|]. naive_solver.
  - unfold participant_count in *. simpl.
    pose proof (remove_by_length identity who (participants s)). lia.
  - unfold phase_inv. simpl. rewrite Hst. done.
Qed.

Lemma confirm_session_wf now s s' evs :
  session_wf s → confirm_session now s = Ok (s', evs) → session_wf s'.
Proof.
  intros Hwf H. unfold confirm_session in H. case_guards; inv_ok.
  pose proof Hwf as [Hnd Ham Hap Hpay Hcap Hph].
  assert (state s = Draft) as Hst by done.
  unfold phase_inv in Hph. rewrite Hst in Hph.
  destruct (draft_counters s Hwf Hph) as [Ha0 Hp0]. destruct Hph as [Ht Hd].
  constructor; simpl; try done.
  unfold phase_inv, approval_facts, confirmed_facts, participant_count in *. simpl.
  split; [split_and!; [done|lia|lia|lia]|split; [lia|]].
  eapply Forall_impl; [done|]. naive_solver.
Qed.

(** The approval and payment updates, with unique identities, change the
    recomputed counters by exactly the updated participant's delta. *)
Lemma approve_counters who ps p :
  NoDup (identity <$> ps) → find_by identity who ps = Some p → has_approved p = false →
  countZ has_approved (update_by identity who mark_approved ps) = countZ has_approved ps + 1 ∧
  sumZ paid_amount (update_by identity who mark_approved ps) = sumZ paid_amount ps.
Proof.
  intros Hnd Hf Hp. unfold countZ.
  rewrite !(sumZ_update_by _ _ _ _ _ p Hnd Hf). simpl. rewrite Hp. lia.
Qed.

Lemma pay_counters who amount ps p :
  NoDup (identity <$> ps) → find_by identity who ps = Some p →
  countZ has_approved (update_by identity who (add_paid amount) ps) = countZ has_approved ps ∧
  sumZ paid_amount (update_by identity who (add_paid amount) ps) = sumZ paid_amount ps + amount.
Proof.
  intros Hnd Hf. unfold countZ.
  rewrite !(sumZ_update_by _ _ _ _ _ p Hnd Hf). simpl. lia.
Qed.

Lemma record_approval_wf now who s s' evs :
  session_wf s → record_approval now who s = Ok (s', evs) → session_wf s'.
Proof.
  intros Hwf H. unfold record_approval in H.
  destruct (find_participant who s) as [p|] eqn:Hf; [|discriminate].
  destruct (has_approved p) eqn:Hp; [discriminate|].
  case_guards; [discriminate|].
  assert (state s = AwaitingApproval) as Hst by done.
  pose proof Hwf as [Hnd Ham Hap Hpay Hcap Hph].
  unfold phase_inv in Hph. rewrite Hst in Hph.
  pose proof (approval_payments s Hwf Hph) as Hp0. destruct Hph as (Hc & Hlt & Hz).
  destruct (approve_counters who (participants s) p Hnd Hf Hp) as [Hca Hsp].
  unfold approvals, aggregate_paid, participant_count in *.
  assert (NoDup (identity <$> update_by identity who mark_approved (participants s))).
  { by rewrite update_by_keys. }
  assert (Forall (λ q, 0 < owed_amount q ∧ 0 ≤ paid_amount q)
            (update_by identity who mark_approved (participants s))).
  { by apply update_by_Forall. }
  assert (Forall (λ q, paid_amount q = 0) (update_by identity who mark_approved (participants s))).
  { by apply update_by_Forall. }
  assert (Hc' : ∀ s1, participants s1 = update_by identity who mark_approved (participants s) →
            total_amount s1 = total_amount s → required_signatures s1 = required_signatures s →
            confirmed_facts s1).
  { intros s1. apply (confirmed_update mark_approved who s); [intros; reflexivity..|done]. }
  destruct (quorum_reached _) eqn:Hq; inv_ok; unfold quorum_reached in Hq; simpl in Hq;
    constructor; unfold approvals, aggregate_paid, participant_count, phase_inv,
      payment_facts, approval_facts, settled_facts, set_state in *; simpl;
    rewrite ?update_keeps_length, ?Hst; try done; try lia.
  - apply Z.leb_le in Hq. split_and!; [by apply Hc'|done|].
    pose proof (confirmed_total_pos s Ham Hc). lia.
  - apply Z.leb_gt in Hq. split_and!; [by apply Hc'|done|done].
Qed.

Lemma record_payment_wf {L} `{Ledger L} now who amount s (l : L) o :
  session_wf s → record_payment now who amount s l = Ok o → session_wf (po_session o).
Proof.
  intros Hwf Hrp. unfold record_payment in Hrp.
  destruct (find_participant who s) as [p|] eqn:Hf; [|discriminate].
  case_guards; try discriminate.
  destruct (transfer_value l who (creator s) amount) as [l'|msg]; [|discriminate].
  pose proof Hwf as [Hnd Ham Hap Hpay Hcap Hph].
  assert (state s = AwaitingPayment) as Hst by done.
  unfold phase_inv in Hph. rewrite Hst in Hph. destruct Hph as (Hc & Hq & Hlt).
  destruct (pay_counters who amount (participants s) p Hnd Hf) as [Hca Hsp].
  unfold approvals, aggregate_paid, participant_count in *.
  assert (NoDup (identity <$> update_by identity who (add_paid amount) (participants s))).
  { by rewrite update_by_keys. }
  assert (Forall (λ q, 0 < owed_amount q ∧ 0 ≤ paid_amount q)
            (update_by identity who (add_paid amount) (participants s))).
  { apply update_by_Forall; [done|]. intros q Hq' _. simpl. lia. }
  assert (Hc' : ∀ s1, participants s1 = update_by identity who (add_paid amount) (participants s) →
            total_amount s1 = total_amount s → required_signatures s1 = required_signatures s →
            confirmed_facts s1).
  { intros s1. apply (confirmed_update (add_paid amount) who s); [intros; reflexivity..|done]. }
  destruct (_ <=? _) eqn:Hset; inv_ok; simpl;
    constructor; unfold approvals, aggregate_paid, participant_count, phase_inv,
      payment_facts, approval_facts, settled_facts, set_state in *; simpl;
    rewrite ?update_keeps_length, ?Hst; try done; try lia.
  - apply Z.leb_le in Hset. simpl in Hset. split_and!; [by apply Hc'|done|lia].
  - apply Z.leb_gt in Hset. simpl in Hset. split_and!; [by apply Hc'|done|lia].
Qed.

Lemma cancel_session_wf now s s' evs :
  session_wf s → cancel_session now s = Ok (s', evs) → session_wf s'.
Proof.
  intros [Hnd Ham Hap Hpay Hcap Hph] H. unfold cancel_session in H.
  unfold phase_inv in Hph.
  destruct (state s) eqn:Hst; inv_ok; constructor; try done;
    unfold phase_inv; simpl; rewrite ?Hst; auto.
Qed.

Lemma expire_wf now s :
  session_wf s → is_terminal (state s) = false → session_wf (expire now s).1.
Proof.
  intros [Hnd Ham Hap Hpay Hcap Hph] Ht. unfold phase_inv in Hph.
  constructor; try done. unfold phase_inv; simpl.
  destruct (state s); try discriminate; auto.
Qed.
