(* ===== verification/SessionSpec.v ===== *)
(** * Functional behaviour of the session operations

    What [record_approval], [record_payment] and [confirm_session] do on
    every branch: the conditions under which each succeeds, the exact
    update it performs, the cascading transition it triggers and the
    events it emits (sections 4.2 to 4.4 and 6). *)

From S2P Require Import Prelude CoreTypes Session SessionInv.
Import BillSession.

(** The lookup of a participant after an update by identity. *)
Lemma find_participant_update who q f ps :
  (∀ p, identity (f p) = identity p) →
  find_by identity q (update_by identity who f ps) =
  if decide (q = who) then f <$> find_by identity q ps else find_by identity q ps.
Proof.
  intros Hf. case_decide as Hq.
  - subst q. destruct (find_by identity who ps) as [p|] eqn:E.
    + by apply find_by_update_by_eq.
    + apply find_by_None in E. by rewrite update_by_absent, (proj2 (find_by_None _ _ _)).
  - by apply find_by_update_by_ne.
Qed.

(** record_approval_spec: a successful [record_approval] requires a
    known participant who has not approved yet and a session awaiting
    approval; it marks exactly that participant as approved, increments
    [approvals_count] by one, emits [ParticipantApproved], and when the
    new count reaches [required_signatures] it moves the session to
    AwaitingPayment and also emits [QuorumReached]; otherwise the session
    stays AwaitingApproval. *)
Theorem record_approval_spec now who s s' evs :
  record_approval now who s = Ok (s', evs) →
  ∃ p, find_participant who s = Some p ∧ has_approved p = false ∧
    state s = AwaitingApproval ∧
    (∀ q, find_participant q s' =
          if decide (q = who) then Some (mark_approved p) else find_participant q s) ∧
    approvals_count s' = approvals_count s + 1 ∧
    required_signatures s' = required_signatures s ∧
    ((required_signatures s ≤ approvals_count s + 1 ∧ state s' = AwaitingPayment ∧
      evs = [ParticipantApproved (session_id s) now who; QuorumReached (session_id s) now]) ∨
     (approvals_count s + 1 < required_signatures s ∧ state s' = AwaitingApproval ∧
      evs = [ParticipantApproved (session_id s) now who])).
Proof.
  unfold record_approval. intros Hra.
  destruct (find_participant who s) as [p|] eqn:Hf; [|discriminate].
  destruct (has_approved p) eqn:Hp; [discriminate|].
  case_guards; [discriminate|].
  assert (Hfind : ∀ q, find_by identity q (update_by identity who mark_approved (participants s)) =
            if decide (q = who) then Some (mark_approved p) else find_participant q s).
  { intros q. rewrite find_participant_update by done. case_decide; subst; [|done].
    unfold find_participant in Hf. by rewrite Hf. }
  exists p. split_and!; try done.
  all: destruct (quorum_reached _) eqn:Hq; unfold quorum_reached in Hq; simpl in Hq; inv_ok;
    simpl; try done.
  - left. apply Z.leb_le in Hq. split_and!; [lia|done|done].
  - right. apply Z.leb_gt in Hq. split_and!; [lia|done|done].
Qed.

(** record_payment_spec: a successful [record_payment] on a
    well-formed session requires a positive amount, a session awaiting
    payment and a successful transfer of exactly that amount from the
    payer to the session's creator; it adds the amount to the payer's
    [paid_amount] only (partial payments accumulate), raises the
    aggregate by the amount, flags an overpayment exactly when the payer's
    total exceeds what they owe, and settles the session exactly when the
    new aggregate reaches the total, whatever the individual balances
    (the aggregate-sufficiency policy of section 4.3). *)
Theorem record_payment_spec {L} `{Ledger L} now who amount s (l : L) o :
  session_wf s → record_payment now who amount s l = Ok o →
  ∃ p, find_participant who s = Some p ∧ 0 < amount ∧ state s = AwaitingPayment ∧
    transfer_value l who (creator s) amount = Ok (po_ledger o) ∧
    (∀ q, find_participant q (po_session o) =
          if decide (q = who) then Some (add_paid amount p) else find_participant q s) ∧
    aggregate_paid (po_session o) = aggregate_paid s + amount ∧
    po_overpaid o = (owed_amount p <? paid_amount p + amount) ∧
    (state (po_session o) = Settled ↔ total_amount s ≤ aggregate_paid s + amount) ∧
    (state (po_session o) = Settled ∨ state (po_session o) = AwaitingPayment).
Proof.
  intros Hwf Hrp. unfold record_payment in Hrp.
  destruct (find_participant who s) as [p|] eqn:Hf; [|discriminate].
  case_guards; try discriminate.
  destruct (transfer_value l who (creator s) amount) as [l'|msg] eqn:Ht; [|discriminate].
  assert (Hfind : ∀ q, find_by identity q (update_by identity who (add_paid amount) (participants s)) =
            if decide (q = who) then Some (add_paid amount p) else find_participant q s).
  { intros q. rewrite find_participant_update by done. case_decide; subst; [|done].
    unfold find_participant in Hf. by rewrite Hf. }
  assert (Hagg : sumZ paid_amount (update_by identity who (add_paid amount) (participants s)) =
                 aggregate_paid s + amount).
  { unfold aggregate_paid. rewrite (sumZ_update_by _ _ _ _ _ p (wf_nodup _ Hwf) Hf).
    simpl. lia. }
  rewrite (wf_payments _ Hwf) in Hrp.
  assert (state s = AwaitingPayment) as Hst by done.
  exists p. destruct (_ <=? _) eqn:Hset; inv_ok; simpl in *.
  all: rewrite ?Hst; apply Z.leb_le in Hset || apply Z.leb_gt in Hset; split_and!; try done; try lia;
    first [by left|by right|split; [done|lia]|naive_solver].
Qed.

(** confirm_session_spec: [confirm_session] succeeds exactly on a
    Draft with at least two participants and a threshold within
    [1, participant_count]; it then freezes the total to the sum of the
    owed amounts, moves the session to AwaitingApproval with the same
    participants, and emits one [SessionConfirmed] event; confirming
    again fails with [AlreadyConfirmed] (the idempotence policy of
    section 8). *)
Theorem confirm_session_spec now now' s :
  is_ok (confirm_session now s) = true ↔
    state s = Draft ∧ 2 ≤ participant_count s ∧
    1 ≤ required_signatures s ≤ participant_count s
  ∧ (∀ s' evs, confirm_session now s = Ok (s', evs) →
       state s' = AwaitingApproval ∧ total_amount s' = total_owed s ∧
       participants s' = participants s ∧
       evs = [SessionConfirmed (session_id s) now (total_owed s)] ∧
       confirm_session now' s' = Err AlreadyConfirmed).
Proof.
  unfold confirm_session. case_guards; simpl; split; try done; try naive_solver; try lia.
  intros _. split_and!; try done; try lia. intros s' evs [= <- <-]. by split_and!.
Qed.
