(* ===== verification/Registry.v ===== *)
(** * The session registry (section 4.5) and the system it drives

    Module [SessionRegistry]: the process-wide store of sessions keyed by
    session id, the external ledger and the event log (the EventEmitter
    sink of section 2), and [exec], the single entry point through which
    every inbound operation of section 6 reaches a session.  [exec] first
    applies lazy expiry (section 4.4), then the session's operation; a
    rejected operation returns the system unchanged, apart from the
    forced expiry.  Operations on one session id are serialised by
    construction: [exec] handles one command to completion, cascading
    transitions included (section 5).  [step] is the transition relation
    of the whole system, one command at any clock value, and
    [reachable] its reflexive-transitive closure from the empty
    registry. *)

From S2P Require Import Prelude CoreTypes Session SessionInv.
Import BillSession.

Module SessionRegistry.

(** The inbound operations of section 6. *)
Inductive Command :=
| CreateSession (sid desc creator : string) (required expires : Z)
| AddParticipant (sid who name : string) (owed : Z)
| RemoveParticipant (sid who : string)
| ConfirmSession (sid : string)
| RecordApproval (sid who : string)
| RecordPayment (sid who : string) (amount : Z)
| CancelSession (sid : string)
| GetSessionView (sid : string).

Definition command_sid (c : Command) : string :=
  match c with
  | CreateSession sid _ _ _ _ | AddParticipant sid _ _ _ | RemoveParticipant sid _
  | ConfirmSession sid | RecordApproval sid _ | RecordPayment sid _ _
  | CancelSession sid | GetSessionView sid => sid
  end.

(** What a successful operation returns to its caller. *)
Inductive Reply :=
| Done
| Paid (overpaid : bool)
| View (v : SessionView).

Section WithLedger.
Context {L : Type} `{Ledger L}.

Record System := mkSystem {
  sessions : gmap string BillSession;
  ledger : L;
  event_log : list Event
}.

Definition init_system (l : L) : System := mkSystem ∅ l [].

(** The operation a command performs on its (existing, unexpired)
    session, with the ledger it may move value on. *)
Definition apply_op (now : Z) (c : Command) (s : BillSession) (l : L)
  : result Error (BillSession * L * list Event * Reply) :=
  match c with
  | CreateSession _ _ _ _ _ => Err DuplicateSessionId
  | AddParticipant _ who name owed =>
    match add_participant who name owed s with
    | Ok s' => Ok (s', l, [], Done) | Err e => Err e end
  | RemoveParticipant _ who =>
    match remove_participant who s with
    | Ok s' => Ok (s', l, [], Done) | Err e => Err e end
  | ConfirmSession _ =>
    match confirm_session now s with
    | Ok (s', evs) => Ok (s', l, evs, Done) | Err e => Err e end
  | RecordApproval _ who =>
    match record_approval now who s with
    | Ok (s', evs) => Ok (s', l, evs, Done) | Err e => Err e end
  | RecordPayment _ who amount =>
    match record_payment now who amount s l with
    | Ok o => Ok (po_session o, po_ledger o, po_events o, Paid (po_overpaid o))
    | Err e => Err e end
  | CancelSession _ =>
    match cancel_session now s with
    | Ok (s', evs) => Ok (s', l, evs, Done) | Err e => Err e end
  | GetSessionView _ => Ok (s, l, [], View (get_session_view s))
  end.

Definition store (sid : string) (s : BillSession) (l : L) (evs : list Event)
  (sys : System) : System :=
  mkSystem (<[sid := s]> (sessions sys)) l (event_log sys ++ evs).

(** Every command but [CreateSession] looks its session up, forces
    expiry if the deadline has passed, and runs the operation. *)
Definition exec_session (now : Z) (c : Command) (sys : System)
  : System * result Error Reply :=
  let sid := command_sid c in
  match sessions sys !! sid with
  | None => (sys, Err NotFound)
  | Some s =>
    if is_expired now s then
      (store sid (expire now s).1 (ledger sys) (expire now s).2 sys, Err SessionExpired)
    else match apply_op now c s (ledger sys) with
    | Ok (s', l', evs, r) => (store sid s' l' evs sys, Ok r)
    | Err e => (sys, Err e)
    end
  end.

(** [CreateSession] rejects any id already in the registry (reuse is
    disallowed by default, section 3). *)
Definition exec (now : Z) (c : Command) (sys : System) : System * result Error Reply :=
  match c with
  | CreateSession sid desc creator required expires =>
    match sessions sys !! sid with
    | Some _ => (sys, Err DuplicateSessionId)
    | None =>
      (store sid (create_session sid desc creator required now expires) (ledger sys)
         [SessionCreated sid now] sys, Ok Done)
    end
  | _ => exec_session now c sys
  end.

(** A run of commands, each at its own clock value. *)
Fixpoint run (cmds : list (Z * Command)) (sys : System) : System * list (result Error Reply) :=
  match cmds with
  | [] => (sys, [])
  | (now, c) :: rest =>
    let '(sys1, r) := exec now c sys in
    let '(sys2, rs) := run rest sys1 in
    (sys2, r :: rs)
  end.

Inductive step : System → System → Prop :=
| step_exec now c sys : step sys (exec now c sys).1.

Definition reachable (l0 : L) (sys : System) : Prop := rtc step (init_system l0) sys.

(** The registry invariant: every stored session is well formed and
    stored under its own id. *)
Definition registry_wf (sys : System) : Prop :=
  map_Forall (λ sid s, session_wf s ∧ session_id s = sid) (sessions sys).

End WithLedger.

(** The transitions of the state machine of section 4.4. *)
Inductive transition : SessionState → SessionState → Prop :=
| tr_confirm : transition Draft AwaitingApproval
| tr_quorum : transition AwaitingApproval AwaitingPayment
| tr_settle : transition AwaitingPayment Settled
| tr_cancel_draft : transition Draft Cancelled
| tr_cancel_approval : transition AwaitingApproval Cancelled
| tr_expire st : is_terminal st = false → transition st Expired.

End SessionRegistry.
