(* ===== verification/RegistryFacts.v ===== *)
(** * Invariants of the session registry

    What every reachable system satisfies, by rule induction on
    [SessionRegistry.step]: every stored session is well formed and kept
    under its own id; cached counters equal their recomputation; a
    session is Settled exactly when it was confirmed and its payments
    reach the total; quorum, once reached, is never lost; only the
    transitions of section 4.4 happen; terminal sessions reject every
    mutation; and a rejected command changes nothing, except that an
    expired session is marked Expired (sections 4.4 and 7). *)

From S2P Require Import Prelude CoreTypes Session SessionInv Registry.
Import BillSession SessionRegistry.

(** [frame s s']: what no operation changes (the id, the creator, the
    threshold), and the approvals, which never decrease. *)
Definition frame (s s' : BillSession) : Prop :=
  session_id s' = session_id s ∧ creator s' = creator s ∧
  required_signatures s' = required_signatures s ∧
  approvals_count s ≤ approvals_count s'.

(** [crush_op] unfolds the session operations in a hypothesis and splits
    every test, leaving one goal per successful branch. *)
Ltac crush_op H :=
  unfold apply_op, add_participant, remove_participant, confirm_session,
    record_approval, record_payment, cancel_session in H;
  repeat case_match; unneg; inv_ok; simpl in *.

Section WithLedger.
Context {L : Type} `{Ledger L}.

Lemma apply_op_frame now c s (l : L) s' l' evs r :
  apply_op now c s l = Ok (s', l', evs, r) → frame s s'.
Proof.
  intros Hop. unfold frame. crush_op Hop; split_and!; done || lia.
Qed.

Lemma apply_op_wf now c s (l : L) s' l' evs r :
  session_wf s → apply_op now c s l = Ok (s', l', evs, r) → session_wf s'.
Proof.
  intros Hwf Hop. destruct c; simpl in Hop; repeat case_match; inv_ok;
    eauto using add_participant_wf, remove_participant_wf, confirm_session_wf,
      record_approval_wf, cancel_session_wf.
  by eapply (record_payment_wf now who amount s l).
Qed.

Lemma apply_op_transition now c s (l : L) s' l' evs r :
  apply_op now c s l = Ok (s', l', evs, r) →
  state s' = state s ∨ transition (state s) (state s').
Proof.
  intros Hop. crush_op Hop;
    repeat match goal with Hs : state s = _ |- _ => rewrite Hs end;
    (left; done) || (right; constructor).
Qed.

(** A terminal session rejects every command but the read. *)
Lemma apply_op_terminal now c s (l : L) :
  is_terminal (state s) = true → (∀ sid, c ≠ GetSessionView sid) →
  ∃ e, apply_op now c s l = Err e.
Proof.
  intros Ht Hc. destruct (apply_op now c s l) as [[[[s' l'] evs] r]|e] eqn:Hop; [|by eauto].
  exfalso. destruct c; [simpl in Hop; discriminate|..|by eapply Hc]; crush_op Hop;
    repeat match goal with Hs : state s = _ |- _ => rewrite Hs in Ht end; discriminate.
Qed.

Lemma expired_not_terminal now s : is_expired now s = true → is_terminal (state s) = false.
Proof. unfold is_expired. intros [Hn _]%andb_prop. by apply negb_true_iff. Qed.

Lemma frame_refl s : frame s s.
Proof. unfold frame. split_and!; done || lia. Qed.

Lemma frame_expire now s : frame s (expire now s).1.
Proof. unfold frame. simpl. split_and!; done || lia. Qed.

Lemma exec_not_create now c (sys : System) :
  (∀ sid d cr r e, c ≠ CreateSession sid d cr r e) → exec now c sys = exec_session now c sys.
Proof. intros Hc. destruct c; try done. exfalso. by eapply Hc. Qed.

Lemma exec_session_wf now c (sys : System) :
  registry_wf sys → registry_wf (exec_session now c sys).1.
Proof.
  intros Hwf. unfold exec_session.
  destruct (sessions sys !! command_sid c) as [s|] eqn:E; [|done].
  destruct (map_Forall_lookup_1 _ _ _ _ Hwf E) as [Hs Hid].
  destruct (is_expired now s) eqn:Hx.
  - apply map_Forall_insert_2; [|done]. split; [|done].
    by apply expire_wf, (expired_not_terminal now).
  - destruct (apply_op now c s (ledger sys)) as [[[[s' l'] evs] r]|e] eqn:Hop; [|done].
    apply map_Forall_insert_2; [|done]. split; [by eapply apply_op_wf|].
    destruct (apply_op_frame _ _ _ _ _ _ _ _ Hop) as [-> _]. done.
Qed.

Lemma exec_wf now c (sys : System) : registry_wf sys → registry_wf (exec now c sys).1.
Proof.
  intros Hwf. destruct c as [sid d cr rq ex| | | | | | |]; try by apply exec_session_wf.
  simpl. destruct (sessions sys !! sid); [done|].
  apply map_Forall_insert_2; [|done]. split; [apply create_session_wf|done].
Qed.

(** A command leaves every session but its own alone. *)
Lemma exec_other now c (sys : System) sid :
  command_sid c ≠ sid → sessions (exec now c sys).1 !! sid = sessions sys !! sid.
Proof.
  intros Hne. destruct c; simpl in Hne; unfold exec, exec_session; simpl;
    repeat case_match; simpl; by rewrite ?lookup_insert_ne.
Qed.

Lemma stay_put o s : o = Some s → ∃ s', o = Some s' ∧ frame s s' ∧
  (state s' = state s ∨ transition (state s) (state s')).
Proof. intros ->. exists s. split_and!; [done|apply frame_refl|by left]. Qed.

Lemma exec_session_evolves now c (sys : System) s :
  sessions sys !! command_sid c = Some s →
  ∃ s', sessions (exec_session now c sys).1 !! command_sid c = Some s' ∧ frame s s' ∧
        (state s' = state s ∨ transition (state s) (state s')).
Proof.
  intros Hs. unfold exec_session. rewrite Hs.
  destruct (is_expired now s) eqn:Hx.
  - simpl. rewrite lookup_insert_eq. eexists; split_and!; [done|apply (frame_expire now)|].
    right. apply tr_expire. by eapply expired_not_terminal.
  - destruct (apply_op now c s (ledger sys)) as [[[[t l'] evs] r]|e] eqn:Hop;
      [|by apply stay_put].
    simpl. rewrite lookup_insert_eq. eexists; split_and!;
      eauto using apply_op_frame, apply_op_transition.
Qed.

(** One command moves a stored session along [frame] and along the
    transitions of section 4.4, and never removes it. *)
Lemma exec_evolves now c (sys : System) sid s :
  sessions sys !! sid = Some s →
  ∃ s', sessions (exec now c sys).1 !! sid = Some s' ∧ frame s s' ∧
        (state s' = state s ∨ transition (state s) (state s')).
Proof.
  intros Hs. destruct (decide (command_sid c = sid)) as [<-|Hc];
    [|rewrite exec_other by done; by apply stay_put].
  destruct c as [sid d cr rq ex| | | | | | |]; try by apply exec_session_evolves.
  simpl in *. rewrite Hs. by apply stay_put.
Qed.

(** At the level of one session, the settlement property of section 8
    follows from the invariant: Settled exactly when the session was
    confirmed (its total is positive) and the payments reach the total. *)
Lemma wf_settled_iff s :
  session_wf s → (state s = Settled ↔ 0 < total_amount s ∧ total_amount s ≤ aggregate_paid s).
Proof.
  intros Hwf. pose proof Hwf as [Hnd Ham Hap Hpay Hcap Hph].
  rewrite <-Hpay. unfold phase_inv in Hph.
  assert (∀ st : SessionState, st ≠ Settled → (st = Settled ↔ False)) as Hf by naive_solver.
  assert (approval_facts s → ¬ (0 < total_amount s ∧ total_amount s ≤ payments_total s))
    by (intros Ha; rewrite (approval_payments s Hwf Ha); lia).
  assert (draft_facts s → ¬ (0 < total_amount s ∧ total_amount s ≤ payments_total s))
    by (intros [-> _]; lia).
  assert (payment_facts s → ¬ (0 < total_amount s ∧ total_amount s ≤ payments_total s))
    by (intros (_ & _ & ?); lia).
  destruct (state s); rewrite ?Hf by done; try naive_solver.
  destruct Hph as (Hc & _ & ?). pose proof (confirmed_total_pos s Ham Hc). naive_solver.
Qed.

(** Every system reachable from the empty registry satisfies
    [registry_wf] (rule induction on [step]). *)
Lemma reachable_registry_wf (l0 : L) sys : reachable l0 sys → registry_wf sys.
Proof.
  unfold reachable. intros Hr. cut (registry_wf (init_system l0)); [|apply map_Forall_empty].
  induction Hr as [|x y z Hxy _ IH]; [done|].
  intros Hx. apply IH. destruct Hxy. by apply exec_wf.
Qed.

Lemma reachable_session_wf (l0 : L) sys sid s :
  reachable l0 sys → sessions sys !! sid = Some s → session_wf s ∧ session_id s = sid.
Proof. intros Hr Hs. exact (map_Forall_lookup_1 _ _ _ _ (reachable_registry_wf l0 sys Hr) Hs). Qed.

(** reachable_cached_counters: in every reachable system, each stored
    session's cached [approvals_count] equals the number of participants
    with [has_approved], its cached [payments_total] equals the
    recomputed [aggregate_paid], identities are unique, the session is
    stored under its own id, and the approvals never exceed the
    participant count. *)
Theorem reachable_cached_counters (l0 : L) sys sid s :
  reachable l0 sys → sessions sys !! sid = Some s →
  approvals_count s = approvals s ∧ payments_total s = aggregate_paid s ∧
  NoDup (identity <$> participants s) ∧ session_id s = sid ∧
  0 ≤ approvals_count s ≤ participant_count s.
Proof.
  intros Hr Hs. destruct (reachable_session_wf l0 sys sid s Hr Hs) as [Hwf Hid].
  rewrite (wf_approvals _ Hwf). split_and!; try done;
    [exact (wf_payments _ Hwf)|exact (wf_nodup _ Hwf)|apply countZ_bounds..].
Qed.

(** reachable_settled_iff: in every reachable system a session is
    Settled if and only if it was confirmed (its total is positive) and
    the recomputed aggregate of payments reaches its total: no
    settlement without sufficient payment, and no confirmed session that
    has collected the total is left unsettled. *)
Theorem reachable_settled_iff (l0 : L) sys sid s :
  reachable l0 sys → sessions sys !! sid = Some s →
  state s = Settled ↔ 0 < total_amount s ∧ total_amount s ≤ aggregate_paid s.
Proof. intros Hr Hs. apply wf_settled_iff, (reachable_session_wf l0 sys sid s Hr Hs). Qed.

(** quorum_monotone: quorum is monotone: once a stored session has
    reached its quorum, after any number of further commands the session
    is still stored and its quorum is still reached. *)
Theorem quorum_monotone (sys sys' : System) sid s :
  rtc step sys sys' → sessions sys !! sid = Some s → quorum_reached s = true →
  ∃ s', sessions sys' !! sid = Some s' ∧ quorum_reached s' = true.
Proof.
  intros Hr. revert s. induction Hr as [x|x y z Hxy _ IH]; intros s Hs Hq; [by eauto|].
  destruct Hxy as [now c x]. destruct (exec_evolves now c x sid s Hs)
    as (s' & Hs' & (_ & _ & Hreq & Hle) & _).
  apply (IH s' Hs'). unfold quorum_reached in *. apply Z.leb_le. apply Z.leb_le in Hq. lia.
Qed.

(** step_follows_state_machine: a step of the system changes the state
    of a stored session only along the transitions of section 4.4
    (confirm, quorum, settle, cancel from Draft or AwaitingApproval,
    expire from a non-terminal state); in particular terminal states
    are never left. *)
Theorem step_follows_state_machine (sys sys' : System) sid s s' :
  step sys sys' → sessions sys !! sid = Some s → sessions sys' !! sid = Some s' →
  state s' = state s ∨ transition (state s) (state s').
Proof.
  intros [now c x] Hs Hs'. destruct (exec_evolves now c x sid s Hs) as (t & Ht & _ & Htr).
  rewrite Hs' in Ht. by injection Ht as ->.
Qed.

Lemma exec_session_rejected now c (sys sys' : System) e :
  exec_session now c sys = (sys', Err e) →
  sys' = sys ∨
  (e = SessionExpired ∧ ∃ s, sessions sys !! command_sid c = Some s ∧
     is_expired now s = true ∧
     sys' = store (command_sid c) (set_state Expired s) (ledger sys)
              [SessionExpiredEv (session_id s) now] sys).
Proof.
  unfold exec_session. intros Hex.
  destruct (sessions sys !! _) as [s|] eqn:Hs; [|inv_ok; by left].
  destruct (is_expired now s) eqn:Hx; [inv_ok; right; eauto|].
  destruct (apply_op _ _ s _) as [[[[t l'] evs] r]|e'] eqn:Hop; inv_ok; by left.
Qed.

(** exec_rejected_unchanged: a rejected command leaves the whole
    system (sessions, ledger, event log) exactly as it was, with one
    exception: a command addressed to a session whose deadline has
    passed forces it to Expired, logs [SessionExpired], and is rejected
    with [SessionExpired]. *)
Theorem exec_rejected_unchanged now c (sys sys' : System) e :
  exec now c sys = (sys', Err e) →
  sys' = sys ∨
  (e = SessionExpired ∧ ∃ s, sessions sys !! command_sid c = Some s ∧
     is_expired now s = true ∧
     sys' = store (command_sid c) (set_state Expired s) (ledger sys)
              [SessionExpiredEv (session_id s) now] sys).
Proof.
  intros Hex. destruct c as [sid d cr rq ex| | | | | | |];
    [simpl in Hex; destruct (sessions sys !! sid); inv_ok; by left|..];
    by apply exec_session_rejected.
Qed.

(** terminal_rejects: a Settled, Cancelled or Expired session rejects
    every mutating command addressed to it, leaving the system
    unchanged (no further mutation is permitted, section 3). *)
Theorem terminal_rejects now c (sys : System) s :
  sessions sys !! command_sid c = Some s → is_terminal (state s) = true →
  (∀ sid, c ≠ GetSessionView sid) → (∀ sid d cr r x, c ≠ CreateSession sid d cr r x) →
  ∃ e, exec now c sys = (sys, Err e).
Proof.
  intros Hs Ht Hv Hc. rewrite exec_not_create by done. unfold exec_session. rewrite Hs.
  assert (is_expired now s = false) as -> by (unfold is_expired; by rewrite Ht).
  destruct (apply_op_terminal now c s (ledger sys) Ht Hv) as [e ->]. by eexists.
Qed.

End WithLedger.
