(* ===== verification/Scenarios.v ===== *)
(** * Error paths of the registry and the scenarios of section 8

    The system-level guarantees of the error taxonomy (duplicate
    approvals, locked sessions, duplicate ids, lazy expiry, failed
    transfers), each with a witness on a concrete system, and the six
    scenarios A to F of the specification run end to end against a
    concrete ledger: [balance_ledger], a map of account balances whose
    transfer fails when the payer's balance is insufficient. *)

From S2P Require Import Prelude CoreTypes Session SessionInv Registry RegistryFacts.
Import BillSession SessionRegistry.

(** A ledger of balances: an instance of the collaborator interface. *)
#[export] Instance balance_ledger : Ledger (gmap string Z) :=
  λ bal from to amount,
    let b := default 0 (bal !! from) in
    if decide (b < amount) then Err "insufficient funds"%string
    else
      let bal1 := <[from := b - amount]> bal in
      Ok (<[to := default 0 (bal1 !! to) + amount]> bal1).

Definition ledger0 : gmap string Z :=
  list_to_map [("alice", 100); ("bob", 100); ("carol", 100); ("dave", 5); ("merchant", 0)].

Abbreviation Sys := (@System (gmap string Z)).

Definition sys0 : Sys := init_system ledger0.

(** The session stored under [sid], or a blank one. *)
Definition session_of (sys : Sys) (sid : string) : BillSession :=
  default (create_session "" "" "" 0 0 0) (sessions sys !! sid).

Definition state_of (sys : Sys) (sid : string) : option SessionState :=
  state <$> sessions sys !! sid.

(** Scenario A: three participants owing 30 each, two signatures
    required. *)
Definition setup_A : list (Z * Command) :=
  [(1, CreateSession "A" "dinner" "merchant" 2 1000);
   (2, AddParticipant "A" "alice" "Alice" 30);
   (3, AddParticipant "A" "bob" "Bob" 30);
   (4, AddParticipant "A" "carol" "Carol" 30);
   (5, ConfirmSession "A")].

Definition run_A : list (Z * Command) :=
  setup_A ++
  [(6, RecordApproval "A" "alice");
   (7, RecordApproval "A" "bob");
   (8, RecordPayment "A" "alice" 30);
   (9, RecordPayment "A" "bob" 30)].

(** The system of scenario A after both approvals. *)
Definition sys_A_approved : Sys :=
  (run (setup_A ++ [(6, RecordApproval "A" "alice"); (7, RecordApproval "A" "bob")]) sys0).1.

(** Scenario B: two participants, both signatures required. *)
Definition setup_B : list (Z * Command) :=
  [(1, CreateSession "B" "coffee" "merchant" 2 1000);
   (2, AddParticipant "B" "alice" "Alice" 20);
   (3, AddParticipant "B" "bob" "Bob" 25);
   (4, ConfirmSession "B");
   (5, RecordApproval "B" "alice")].

Definition sys_B : Sys := (run setup_B sys0).1.

(** Scenario E: a session whose deadline (10) is in the past at 50. *)
Definition sys_E : Sys :=
  (run [(1, CreateSession "E" "bar" "merchant" 2 10);
        (2, AddParticipant "E" "alice" "Alice" 40)] sys0).1.

(** A session awaiting payment in which "dave" cannot pay 40. *)
Definition sys_T : Sys :=
  (run [(1, CreateSession "T" "taxi" "merchant" 1 1000);
        (2, AddParticipant "T" "dave" "Dave" 40);
        (3, AddParticipant "T" "alice" "Alice" 40);
        (4, ConfirmSession "T");
        (5, RecordApproval "T" "dave")] sys0).1.

(** ** The error paths *)

(** duplicate_approval_rejected: a second approval by a participant
    who has already approved is rejected with [AlreadyApproved] in every
    state of an unexpired session, and the system, its approvals count
    included, is unchanged. *)
Theorem duplicate_approval_rejected {L} `{Ledger L} now (sys : System) sid who s p :
  sessions sys !! sid = Some s → is_expired now s = false →
  find_participant who s = Some p → has_approved p = true →
  exec now (RecordApproval sid who) sys = (sys, Err AlreadyApproved).
Proof.
  intros Hs Hx Hf Hp. unfold exec, exec_session. simpl.
  rewrite Hs, Hx. unfold apply_op, record_approval. by rewrite Hf, Hp.
Qed.

Lemma duplicate_approval_rejected_witness :
  exec 8 (RecordApproval "A" "alice") sys_A_approved = (sys_A_approved, Err AlreadyApproved).
Proof.
  apply (duplicate_approval_rejected 8 sys_A_approved "A" "alice"
           (session_of sys_A_approved "A")
           (default (mkParticipant "" "" 0 false 0)
              (find_participant "alice" (session_of sys_A_approved "A"))));
    vm_compute; reflexivity.
Defined.

(** confirmed_session_locked: once a session has left Draft,
    adding or removing a participant is rejected with [SessionLocked]
    and the system is unchanged (the participant set is frozen). *)
Theorem confirmed_session_locked {L} `{Ledger L} now (sys : System) sid s who name owed :
  sessions sys !! sid = Some s → is_expired now s = false → state s ≠ Draft →
  exec now (AddParticipant sid who name owed) sys = (sys, Err SessionLocked) ∧
  exec now (RemoveParticipant sid who) sys = (sys, Err SessionLocked).
Proof.
  intros Hs Hx Hst. unfold exec, exec_session. simpl. rewrite Hs, Hx.
  unfold apply_op, add_participant, remove_participant. by case_guards.
Qed.

Lemma confirmed_session_locked_witness :
  exec 9 (AddParticipant "B" "carol" "Carol" 10) sys_B = (sys_B, Err SessionLocked) ∧
  exec 9 (RemoveParticipant "B" "carol") sys_B = (sys_B, Err SessionLocked).
Proof.
  apply (confirmed_session_locked 9 sys_B "B" (session_of sys_B "B")); vm_compute;
    [reflexivity|reflexivity|discriminate].
Defined.

(** duplicate_session_id_rejected: creating a session under an id
    already in the registry is rejected with [DuplicateSessionId] and the
    system is unchanged. *)
Theorem duplicate_session_id_rejected {L} `{Ledger L} now (sys : System) sid s desc cr req ex :
  sessions sys !! sid = Some s →
  exec now (CreateSession sid desc cr req ex) sys = (sys, Err DuplicateSessionId).
Proof. intros Hs. simpl. by rewrite Hs. Qed.

Lemma duplicate_session_id_rejected_witness :
  exec 9 (CreateSession "B" "again" "merchant" 2 1000) sys_B = (sys_B, Err DuplicateSessionId).
Proof.
  apply (duplicate_session_id_rejected 9 sys_B "B" (session_of sys_B "B")).
  vm_compute. reflexivity.
Defined.

(** expired_session_rejected: any command other than a creation
    addressed to a non-terminal session whose deadline has passed forces
    the session to Expired, logs one [SessionExpired] event, leaves the
    ledger and every other session alone, and is rejected with
    [SessionExpired]. *)
Theorem expired_session_rejected {L} `{Ledger L} now c (sys : System) s :
  sessions sys !! command_sid c = Some s → is_terminal (state s) = false →
  expires_at s ≤ now → (∀ sid d cr r x, c ≠ CreateSession sid d cr r x) →
  exec now c sys =
    (store (command_sid c) (set_state Expired s) (ledger sys)
       [SessionExpiredEv (session_id s) now] sys, Err SessionExpired).
Proof.
  intros Hs Ht Hle Hc. rewrite exec_not_create by done. unfold exec_session. rewrite Hs.
  unfold is_expired. rewrite Ht. simpl. by rewrite (proj2 (Z.leb_le _ _) Hle).
Qed.

Lemma expired_session_rejected_witness :
  exec 50 (AddParticipant "E" "bob" "Bob" 40) sys_E =
    (store "E" (set_state Expired (session_of sys_E "E")) (ledger sys_E)
       [SessionExpiredEv "E" 50] sys_E, Err SessionExpired).
Proof.
  apply (expired_session_rejected 50 (AddParticipant "E" "bob" "Bob" 40) sys_E
           (session_of sys_E "E"));
    [vm_compute; reflexivity|vm_compute; reflexivity|vm_compute; discriminate|].
  intros; discriminate.
Defined.

(** failed_transfer_atomic: when the external transfer of a payment
    fails, [record_payment] fails with the collaborator's error and
    nothing changes: no participant is credited, the ledger and the event
    log are untouched (no partial credit on external failure, section
    5). *)
Theorem failed_transfer_atomic {L} `{Ledger L} now (sys : System) sid who amount s p msg :
  sessions sys !! sid = Some s → is_expired now s = false →
  find_participant who s = Some p → 0 < amount → state s = AwaitingPayment →
  transfer_value (ledger sys) who (creator s) amount = Err msg →
  exec now (RecordPayment sid who amount) sys = (sys, Err (TransferFailed msg)).
Proof.
  intros Hs Hx Hf Ha Hst Ht. unfold exec, exec_session. simpl. rewrite Hs, Hx.
  unfold apply_op, record_payment. rewrite Hf. case_guards; try lia; try done.
  by rewrite Ht.
Qed.

Lemma failed_transfer_atomic_witness :
  exec 6 (RecordPayment "T" "dave" 40) sys_T = (sys_T, Err (TransferFailed "insufficient funds")).
Proof.
  apply (failed_transfer_atomic 6 sys_T "T" "dave" 40 (session_of sys_T "T")
           (default (mkParticipant "" "" 0 false 0)
              (find_participant "dave" (session_of sys_T "T"))));
    vm_compute; try reflexivity; lia.
Defined.

(** ** The scenarios of section 8 *)

(** scenario_A: scenario A, three participants owed 30 each with
    two required signatures: two approvals move the session to
    AwaitingPayment; after payments of 30 and 30 the session is still
    AwaitingPayment, because its total is the sum of the owed amounts
    (90) and 60 does not reach it; the third payment settles it, and the
    ledger has moved exactly the 90 paid to the merchant.  (Section 8
    expects settlement after 60; sections 3 and 4.3 define the total as
    the sum owed and settlement as reaching it.) *)
Example scenario_A :
  let '(sys, rs) := run run_A sys0 in
  state_of (run (setup_A ++ [(6, RecordApproval "A" "alice");
                             (7, RecordApproval "A" "bob")]) sys0).1 "A" = Some AwaitingPayment ∧
  state_of sys "A" = Some AwaitingPayment ∧
  aggregate_paid (session_of sys "A") = 60 ∧
  rs = [Ok Done; Ok Done; Ok Done; Ok Done; Ok Done; Ok Done; Ok Done;
        Ok (Paid false); Ok (Paid false)] ∧
  state_of (run [(10, RecordPayment "A" "carol" 30)] sys).1 "A" = Some Settled ∧
  ledger (run [(10, RecordPayment "A" "carol" 30)] sys).1 !! "merchant" = Some 90.
Proof. vm_compute. split_and!; reflexivity. Qed.

(** scenario_B: scenario B, two participants and two required
    signatures: after one approval the session stays AwaitingApproval,
    and a payment in that state is rejected with [WrongState] and changes
    nothing. *)
Example scenario_B :
  state_of sys_B "B" = Some AwaitingApproval ∧
  exec 6 (RecordPayment "B" "alice" 20) sys_B = (sys_B, Err WrongState).
Proof. vm_compute. split; reflexivity. Qed.

(** scenario_C_D: scenario C, adding a participant after
    confirmation is rejected with [SessionLocked] and the session and
    its participant set are unchanged; scenario D, a duplicate approval
    is rejected with [AlreadyApproved] and [approvals_count] is
    unchanged. *)
Example scenario_C_D :
  let '(sysC, rC) := exec 6 (AddParticipant "B" "carol" "Carol" 10) sys_B in
  let '(sysD, rD) := exec 6 (RecordApproval "B" "alice") sys_B in
  rC = Err SessionLocked ∧ session_of sysC "B" = session_of sys_B "B" ∧
  rD = Err AlreadyApproved ∧
  approvals_count (session_of sysD "B") = approvals_count (session_of sys_B "B") ∧
  approvals_count (session_of sysD "B") = 1.
Proof. vm_compute. split_and!; reflexivity. Qed.

(** scenario_E: scenario E, a session whose deadline has passed:
    the next operation forces it to Expired, logs [SessionExpired] and
    is rejected with [SessionExpired]; the session is then terminal and
    rejects further operations. *)
Example scenario_E :
  let '(sys1, r1) := exec 50 (ConfirmSession "E") sys_E in
  r1 = Err SessionExpired ∧ state_of sys1 "E" = Some Expired ∧
  last (event_log sys1) = Some (SessionExpiredEv "E" 50) ∧
  (exec 60 (CancelSession "E") sys1).2 = Err WrongState.
Proof. vm_compute. split_and!; reflexivity. Qed.

(** scenario_F: scenario F, creating a second session with the id of
    a session still awaiting approval is rejected with
    [DuplicateSessionId], while a session under a fresh id is created
    independently. *)
Example scenario_F :
  exec 7 (CreateSession "B" "other" "merchant" 2 1000) sys_B = (sys_B, Err DuplicateSessionId) ∧
  state_of (exec 7 (CreateSession "C" "other" "merchant" 2 1000) sys_B).1 "C" = Some Draft ∧
  state_of (exec 7 (CreateSession "C" "other" "merchant" 2 1000) sys_B).1 "B" = Some AwaitingApproval.
Proof. vm_compute. split_and!; reflexivity. Qed.
