(* ===== verification/PyStr.v ===== *)
(** * The Python string operations the scripts use

    Python [str] values are modelled as [string] (the scripts only
    handle ASCII: CLI output, addresses, profile names).  The methods
    are those of CPython 3 restricted to ASCII: [s.strip()] removes the
    characters [str.isspace] accepts (space, \t, \n, \v, \f, \r and the
    separators \x1c to \x1f), [s.split(sep)] splits on the
    non-overlapping occurrences of a non-empty [sep] from the left,
    [sub in s] is substring search, [sep.join(l)], [s.upper()],
    [s[:n]], and the formats [f"{n}"] and [f"{i:0<w>x}"].  [py_split]
    runs on fuel [length s + 1], which [split_go_fuel] shows is enough:
    each step consumes a character. *)

From S2P Require Import Prelude.
From Stdlib Require Import Ascii DecimalString HexadecimalString Hexadecimal HexadecimalN.

Open Scope string_scope.

Module PyStr.

(** [str.isspace] on one ASCII character. *)
Definition is_py_space (c : ascii) : bool :=
  let n := nat_of_ascii c in
  ((9 <=? n) && (n <=? 13))%nat || ((28 <=? n) && (n <=? 32))%nat.

Fixpoint drop_space (l : list ascii) : list ascii :=
  match l with
  | [] => []
  | c :: r => if is_py_space c then drop_space r else l
  end.

(** [s.strip()]. *)
Definition py_strip (s : string) : string :=
  string_of_list_ascii
    (List.rev (drop_space (List.rev (drop_space (list_ascii_of_string s))))).

(** [sub in s]: [sub] occurs in [s]. *)
Fixpoint py_in (sub s : string) : bool :=
  String.prefix sub s ||
  match s with
  | EmptyString => false
  | String _ r => py_in sub r
  end.

(** [sep] is a prefix of [s]. *)
Fixpoint prefixb (sep s : list ascii) : bool :=
  match sep, s with
  | [], _ => true
  | c :: sep', d :: s' => bool_decide (c = d) && prefixb sep' s'
  | _ :: _, [] => false
  end.

(** [s.split(sep)]: [cur] is the piece being read, kept reversed. *)
Fixpoint split_go (fuel : nat) (sep : list ascii) (cur s : list ascii) : list (list ascii) :=
  match fuel with
  | O => [(List.rev cur ++ s)%list]
  | S f =>
    match s with
    | [] => [List.rev cur]
    | c :: r =>
      if prefixb sep s then List.rev cur :: split_go f sep [] (drop (length sep) s)
      else split_go f sep (c :: cur) r
    end
  end.

Definition py_split (s sep : string) : list string :=
  let l := list_ascii_of_string s in
  string_of_list_ascii <$> split_go (S (length l)) (list_ascii_of_string sep) [] l.

(** [sep.join(items)]. *)
Fixpoint py_join (sep : string) (items : list string) : string :=
  match items with
  | [] => ""
  | [x] => x
  | x :: rest => x ++ sep ++ py_join sep rest
  end.

(** [s.upper()] on ASCII. *)
Definition upper_char (c : ascii) : ascii :=
  let n := nat_of_ascii c in
  if ((97 <=? n) && (n <=? 122))%nat then ascii_of_nat (n - 32) else c.

Definition py_upper (s : string) : string :=
  string_of_list_ascii (upper_char <$> list_ascii_of_string s).

(** [s[:n]] for [0 <= n]. *)
Definition py_prefix (s : string) (n : nat) : string := substring 0 n s.

(** [f"{n}"] and [str(n)] for an [int]. *)
Definition py_str_int (z : Z) : string :=
  let digits := DecimalString.NilEmpty.string_of_uint (N.to_uint (Z.to_N (Z.abs z))) in
  if decide (z < 0) then "-" ++ digits else digits.

Fixpoint zeros (k : nat) : string :=
  match k with O => "" | S k => String "0" (zeros k) end.

(** [f"{i:0<width>x}"]: lowercase hexadecimal, zero-padded on the left to
    [width] characters, the sign counting in the width. *)
Definition py_format_hex (width : nat) (z : Z) : string :=
  let digits := HexadecimalString.NilEmpty.string_of_uint (N.to_hex_uint (Z.to_N (Z.abs z))) in
  if decide (z < 0)
  then "-" ++ zeros (width - 1 - String.length digits) ++ digits
  else zeros (width - String.length digits) ++ digits.

(** Reading a hexadecimal string back, leading zeros allowed. *)
Definition parse_hex (s : string) : option N :=
  N.of_hex_uint <$> HexadecimalString.NilEmpty.uint_of_string s.

(** [sub] occurs in the character list [l]. *)
Fixpoint inb (sub l : list ascii) : bool :=
  prefixb sub l || match l with [] => false | _ :: r => inb sub r end.

(** ** Lemmas *)

Lemma prefix_prefixb a b :
  String.prefix a b = prefixb (list_ascii_of_string a) (list_ascii_of_string b).
Proof.
  revert b. induction a as [|c a IH]; intros [|d b]; simpl; try done.
  rewrite IH. by destruct (ascii_dec c d); case_bool_decide.
Qed.

Lemma py_in_inb sub s : py_in sub s = inb (list_ascii_of_string sub) (list_ascii_of_string s).
Proof.
  induction s as [|c s IH]; cbn [py_in inb list_ascii_of_string];
    rewrite prefix_prefixb; [done|by rewrite IH].
Qed.

Lemma prefixb_nil_r sep : sep ≠ [] → prefixb sep [] = false.
Proof. by destruct sep. Qed.

Lemma prefixb_length sep s : prefixb sep s = true → (length sep ≤ length s)%nat.
Proof.
  revert s. induction sep as [|c sep IH]; intros [|d s]; simpl; try done; [lia|].
  intros [_ H]%andb_prop. specialize (IH s H). lia.
Qed.

(** Fuel beyond the length of the input does not change [split_go]. *)
Lemma split_go_fuel f1 f2 sep cur s :
  sep ≠ [] → (length s < f1)%nat → (length s < f2)%nat →
  split_go f1 sep cur s = split_go f2 sep cur s.
Proof.
  intros Hsep. revert f2 cur s.
  induction f1 as [|f1 IH]; intros [|f2] cur s H1 H2; try lia.
  destruct s as [|c r]; simpl; [done|].
  destruct (prefixb sep (c :: r)) eqn:Hp.
  - f_equal. apply IH; rewrite length_drop; destruct sep; simpl in *; try done; lia.
  - apply IH; simpl in *; lia.
Qed.

Lemma split_go_nonempty f sep cur s : split_go f sep cur s ≠ [].
Proof.
  revert cur s. induction f as [|f IH]; intros cur [|c r]; simpl; try done.
  case_match; [done|apply IH].
Qed.

(** [s.split(sep)] is never empty, so [s.split(sep)[-1]] never raises. *)
Lemma py_split_nonempty s sep : py_split s sep ≠ [].
Proof.
  unfold py_split. intros H. apply fmap_nil_inv in H. by eapply split_go_nonempty.
Qed.

Lemma split_go_two f sep cur s :
  sep ≠ [] → (length s < f)%nat → inb sep s = true →
  (2 ≤ length (split_go f sep cur s))%nat.
Proof.
  intros Hsep. revert cur s. induction f as [|f IH]; intros cur [|c r] Hf Hin; try lia.
  - simpl in Hin. by rewrite prefixb_nil_r in Hin.
  - simpl in *. destruct (prefixb sep (c :: r)) eqn:Hp.
    + simpl. destruct (split_go f sep [] (drop (length sep) (c :: r))) eqn:E;
        [by apply split_go_nonempty in E|simpl; lia].
    + apply IH; [lia|]. by rewrite orb_false_l in Hin.
Qed.

(** When [sep] occurs in [s], [s.split(sep)] has at least two pieces, so
    [s.split(sep)[1]] does not raise. *)
Lemma py_split_two s sep :
  sep ≠ "" → py_in sep s = true → (2 ≤ length (py_split s sep))%nat.
Proof.
  intros Hsep Hin. unfold py_split. rewrite length_fmap. apply split_go_two.
  - by destruct sep.
  - lia.
  - by rewrite <-py_in_inb.
Qed.

(** With a separator that does not occur in [s], [s.split(sep)] is [[s]]. *)
Lemma split_go_absent f sep cur s :
  sep ≠ [] → inb sep s = false → split_go f sep cur s = [(List.rev cur ++ s)%list].
Proof.
  intros Hsep. revert cur s. induction f as [|f IH]; intros cur [|c r] Hin; simpl in *;
    [done|done|by rewrite app_nil_r|].
  apply orb_false_iff in Hin as [-> Hin]. rewrite IH by done. simpl.
  by rewrite <-app_assoc.
Qed.

(** Reading back [f"{i:0<w>x}"] gives [i], for every natural [i] and width. *)
Lemma of_hex_uint_D0 d : N.of_hex_uint (D0 d) = N.of_hex_uint d.
Proof. by rewrite <-(Unsigned.of_uint_norm (D0 d)), <-(Unsigned.of_uint_norm d). Qed.

Fixpoint pad_uint (k : nat) (d : uint) : uint :=
  match k with O => d | S k => D0 (pad_uint k d) end.

Lemma zeros_pad k d :
  zeros k ++ HexadecimalString.NilEmpty.string_of_uint d =
  HexadecimalString.NilEmpty.string_of_uint (pad_uint k d).
Proof.
  induction k as [|k IH]; [done|]. simpl.
  change (String "0" (zeros k) ++ HexadecimalString.NilEmpty.string_of_uint d)
    with (String "0" (zeros k ++ HexadecimalString.NilEmpty.string_of_uint d)).
  by rewrite IH.
Qed.

Lemma of_hex_pad k d : N.of_hex_uint (pad_uint k d) = N.of_hex_uint d.
Proof. induction k as [|k IH]; cbn [pad_uint]; [done|by rewrite of_hex_uint_D0]. Qed.

(** ** Strings built by concatenation *)

Lemma list_ascii_app x y :
  list_ascii_of_string (x ++ y) = (list_ascii_of_string x ++ list_ascii_of_string y)%list.
Proof.
  induction x as [|c x IH]; [done|].
  change (String c x ++ y) with (String c (x ++ y)). simpl. by rewrite IH.
Qed.

Lemma drop_space_suffix l : ∃ p, l = (p ++ drop_space l)%list.
Proof.
  induction l as [|c l [p IH]]; simpl; [by exists []|].
  destruct (is_py_space c); [exists (c :: p); simpl; by f_equal|by exists []].
Qed.

Lemma drop_space_length l : (length (drop_space l) ≤ length l)%nat.
Proof. destruct (drop_space_suffix l) as [p Hp]. rewrite Hp at 2. rewrite length_app. lia. Qed.

Lemma drop_space_app l1 l2 :
  drop_space l1 ≠ [] → drop_space (l1 ++ l2) = (drop_space l1 ++ l2)%list.
Proof.
  induction l1 as [|c l1 IH]; simpl; [done|]. by destruct (is_py_space c).
Qed.

(** A string equal to its [strip()] has no space to drop at either end. *)
Lemma strip_fixed s :
  py_strip s = s →
  drop_space (list_ascii_of_string s) = list_ascii_of_string s ∧
  drop_space (List.rev (list_ascii_of_string s)) = List.rev (list_ascii_of_string s).
Proof.
  unfold py_strip. intros H. apply (f_equal list_ascii_of_string) in H.
  rewrite list_ascii_of_string_of_list_ascii in H.
  set (l := list_ascii_of_string s) in *. set (D := drop_space l) in *.
  assert (length D = length l) as Hlen.
  { pose proof (drop_space_length l) as H1. fold D in H1. pose proof (drop_space_length (List.rev D)).
    apply (f_equal length) in H. rewrite ?length_rev in *. lia. }
  assert (D = l) as HD.
  { destruct (drop_space_suffix l) as [p Hp]. fold D in Hp.
    assert (p = []) as ->; [|done].
    apply (f_equal length) in Hp. rewrite length_app in Hp. destruct p; simpl in *; [done|lia]. }
  split; [done|]. rewrite HD in H. apply (f_equal (@List.rev ascii)) in H.
  by rewrite rev_involutive in H.
Qed.

(** [(x + m + y).strip()] is [x + m + y] when [x] and [y] are non-empty
    and equal to their [strip()]. *)
Lemma py_strip_app x m y :
  x ≠ "" → y ≠ "" → py_strip x = x → py_strip y = y → py_strip (x ++ m ++ y) = x ++ m ++ y.
Proof.
  intros Hx Hy [Hx1 _]%strip_fixed [_ Hy2]%strip_fixed.
  unfold py_strip. rewrite !list_ascii_app, drop_space_app, Hx1
    by (rewrite Hx1; by destruct x).
  rewrite !rev_app_distr, <-app_assoc, drop_space_app, Hy2
    by (rewrite Hy2; destruct y; [done|]; intros Hr%(f_equal length);
        rewrite length_rev in Hr; simpl in Hr; lia).
  rewrite <-!rev_app_distr, rev_involutive, <-app_assoc, <-!list_ascii_app.
  apply string_of_list_ascii_of_string.
Qed.

(** [" " + s] strips to what [s] strips to. *)
Lemma py_strip_space s : py_strip (String " " s) = py_strip s.
Proof. done. Qed.

Lemma prefixb_elem sub s c : prefixb sub s = true → c ∈ sub → c ∈ s.
Proof.
  revert s. induction sub as [|d sub IH]; intros [|e s] Hp Hc; simpl in *;
    try done; [by apply elem_of_nil in Hc|].
  apply andb_prop in Hp as [He Hp]. apply bool_decide_eq_true in He as ->.
  apply elem_of_cons in Hc as [->|Hc]; [by left|right; by apply (IH s)].
Qed.

(** A character of [sub] that does not occur in [s] keeps [sub] out of
    [s]. *)
Lemma inb_absent sub s c : c ∈ sub → c ∉ s → inb sub s = false.
Proof.
  intros Hc. induction s as [|e s IH]; intros Hs; simpl.
  - destruct sub; [by apply elem_of_nil in Hc|done].
  - apply orb_false_iff. split.
    + destruct (prefixb sub (e :: s)) eqn:Hp; [|done]. by destruct Hs; apply (prefixb_elem sub).
    + apply IH. intros H. apply Hs. by right.
Qed.

(** [c not in s], for a one-character [c]. *)
Lemma py_in_char c s : py_in (String c "") s = false ↔ c ∉ list_ascii_of_string s.
Proof.
  rewrite py_in_inb. simpl. induction (list_ascii_of_string s) as [|e l IH]; simpl.
  - split; [intros _; apply not_elem_of_nil|done].
  - rewrite elem_of_cons, orb_false_iff, IH. case_bool_decide; simpl; naive_solver.
Qed.

(** Splitting at the first occurrence of a one-character separator. *)
Lemma split_go_char f c cur x y :
  c ∉ x → (length x < f)%nat →
  split_go f [c] cur (x ++ c :: y)%list = (List.rev cur ++ x)%list :: split_go (f - S (length x)) [c] [] y.
Proof.
  revert f cur. induction x as [|d x IH]; intros [|f] cur Hx Hf; simpl in *; try lia.
  - rewrite bool_decide_true by done. simpl. by rewrite app_nil_r, Nat.sub_0_r.
  - apply not_elem_of_cons in Hx as [Hd Hx]. rewrite bool_decide_false by done. simpl.
    rewrite IH by (done || lia). simpl. by rewrite <-app_assoc.
Qed.

Lemma py_split_char c x y :
  c ∉ list_ascii_of_string x →
  py_split (x ++ String c y) (String c "") = x :: py_split y (String c "").
Proof.
  intros Hx. unfold py_split. rewrite list_ascii_app.
  change (list_ascii_of_string (String c y)) with (c :: list_ascii_of_string y).
  change (list_ascii_of_string (String c "")) with [c].
  rewrite split_go_char by (done || (rewrite length_app; simpl; lia)).
  rewrite fmap_cons. cbn [List.rev]. rewrite app_nil_l, string_of_list_ascii_of_string. f_equal. f_equal.
  apply split_go_fuel; [done|..]; rewrite ?length_app; simpl; lia.
Qed.

Lemma py_split_absent c y :
  c ∉ list_ascii_of_string y → py_split y (String c "") = [y].
Proof.
  intros Hy. unfold py_split. change (list_ascii_of_string (String c "")) with [c].
  rewrite split_go_absent; [|done|].
  - cbn [List.rev fmap list_fmap]. by rewrite app_nil_l, string_of_list_ascii_of_string.
  - apply (inb_absent _ _ c); [by left|done].
Qed.

Lemma string_app_assoc x y z : (x ++ y) ++ z = x ++ y ++ z.
Proof.
  induction x as [|c x IH]; [done|].
  change ((String c x ++ y) ++ z) with (String c ((x ++ y) ++ z)). by rewrite IH.
Qed.

Lemma prefixb_app l r : prefixb l (l ++ r) = true.
Proof. induction l as [|c l IH]; simpl; [done|]. by rewrite bool_decide_true. Qed.

(** [p in p + s]. *)
Lemma py_in_prefix p s : py_in p (p ++ s) = true.
Proof.
  rewrite py_in_inb, list_ascii_app. destruct (list_ascii_of_string p) as [|c l].
  - by destruct (list_ascii_of_string s).
  - pose proof (prefixb_app (c :: l) (list_ascii_of_string s)) as H. simpl in H |- *. by rewrite H.
Qed.

(** The format reads back. *)
Lemma format_hex_read (width : nat) (z : Z) :
  (0 ≤ z)%Z → parse_hex (py_format_hex width z) = Some (Z.to_N z).
Proof.
  intros Hz. unfold py_format_hex. case_guards; [lia|].
  rewrite zeros_pad. unfold parse_hex. rewrite HexadecimalString.NilEmpty.usu. simpl.
  rewrite of_hex_pad, Unsigned.of_to. f_equal. f_equal. lia.
Qed.

(** parse_format_hex: the zero-padded lowercase hexadecimal format
    [f"{i:0<width>x}"] of a non-negative integer reads back as that
    integer, whatever the width: the format is injective on the naturals,
    padding included. *)
Theorem parse_format_hex (width : nat) (z : Z) :
  (0 ≤ z)%Z → parse_hex (py_format_hex width z) = Some (Z.to_N z).
Proof. apply format_hex_read. Qed.


Lemma string_length_app x y : String.length (x ++ y) = (String.length x + String.length y)%nat.
Proof.
  induction x as [|c x IH]; [done|].
  change (String c x ++ y) with (String c (x ++ y)). simpl. by rewrite IH.
Qed.

End PyStr.
