(* ===== verification/PyRuntime.v ===== *)
(** * The effects of the Python scripts

    The scripts under [src/contracts] interact with the process
    environment only through [os.getcwd], [os.chdir], [os.path.exists],
    [time.time] and [subprocess.run], and signal failure with Python
    exceptions.  [Py A] is a state-and-exception monad over a [World]:
    the current directory, the files that exist, the clock, the trace of
    every [subprocess.run] invocation (command, directory, timeout) and an
    oracle that answers each invocation from the history so far (the
    [aptos] CLI and the operating system are not modelled: any behaviour
    of theirs is one oracle).  An exception is a value of [PyExc]; the
    state reached when it is raised is kept, as in Python, so that a
    [chdir] done before a failing call persists.  [py_try m h] is
    [try: m except ...: h], [h] dispatching on the exception class.
    Directories are lists of path components, innermost first, and
    [".."] is their parent. *)

From S2P Require Import Prelude PyStr.

Open Scope string_scope.

Module PyRuntime.

(** The exception classes the scripts raise or catch. *)
Inductive PyExc :=
| TimeoutExpired
| FileNotFoundError (msg : string)
| ZeroDivisionError
| IndexError
| KeyError (key : string)
| AttributeError (msg : string)
| TypeError (msg : string)
| OSError (msg : string).

#[export] Instance PyExc_eq_dec : EqDecision PyExc.
Proof. solve_decision. Defined.

(** [str(e)] for the exceptions whose text the scripts report. *)
Definition exc_str (e : PyExc) : string :=
  match e with
  | TimeoutExpired => "timed out"
  | FileNotFoundError m | AttributeError m | TypeError m | OSError m => m
  | ZeroDivisionError => "integer division or modulo by zero"
  | IndexError => "list index out of range"
  | KeyError k => "'" ++ k ++ "'"
  end.

(** A command: an argument vector, or a line for the shell
    ([shell=True]). *)
Inductive Cmd :=
| Argv (args : list string)
| Shell (line : string).

(** [subprocess.CompletedProcess] with [capture_output=True, text=True]. *)
Record Completed := mkCompleted {
  returncode : Z;
  stdout : string;
  stderr : string
}.

Record Invocation := mkInvocation {
  inv_cmd : Cmd;
  inv_cwd : list string;
  inv_timeout : option Z
}.

Record World := mkWorld {
  cwd : list string;
  files : list (list string);
  clock : Z;
  trace : list Invocation;
  oracle : list Invocation → Invocation → result PyExc Completed
}.

Definition Py (A : Type) : Type := World → result PyExc A * World.

#[export] Instance py_ret : MRet Py := λ A a w, (Ok a, w).
#[export] Instance py_bind : MBind Py :=
  λ A B f m w, match m w with (Ok a, w') => f a w' | (Err e, w') => (Err e, w') end.

Definition py_raise {A} (e : PyExc) : Py A := λ w, (Err e, w).

(** [try: m except <class>: h(e)]: the handler sees the exception and
    the state at the point of the raise. *)
Definition py_try {A} (m : Py A) (h : PyExc → Py A) : Py A :=
  λ w, match m w with (Err e, w') => h e w' | r => r end.

Definition set_cwd (p : list string) (w : World) : World :=
  mkWorld p (files w) (clock w) (trace w) (oracle w).

(** [os.getcwd()]. *)
Definition getcwd : Py (list string) := λ w, (Ok (cwd w), w).

(** [os.chdir(path)] to a directory obtained from [getcwd]. *)
Definition chdir (p : list string) : Py unit := λ w, (Ok tt, set_cwd p w).

Definition parent (p : list string) : list string := tail p.

(** [os.chdir("..")]: at the root it stays at the root. *)
Definition chdir_parent : Py unit := λ w, (Ok tt, set_cwd (parent (cwd w)) w).

(** [os.path.basename(os.getcwd())]. *)
Definition basename (p : list string) : string := default "" (head p).

(** [os.path.exists(name)] for a name relative to the current directory. *)
Definition path_exists (name : string) : Py bool :=
  λ w, (Ok (bool_decide ((name :: cwd w) ∈ files w)), w).

(** [int(time.time())]. *)
Definition time_time : Py Z := λ w, (Ok (clock w), w).

(** [subprocess.run(cmd, cwd=..., timeout=...)]: the invocation is
    recorded, then answered by the oracle (which may raise, e.g.
    [TimeoutExpired] or [FileNotFoundError]). *)
Definition subprocess_run (c : Cmd) (dir : option (list string)) (timeout : option Z)
  : Py Completed :=
  λ w,
    let inv := mkInvocation c (default (cwd w) dir) timeout in
    (oracle w (trace w) inv,
     mkWorld (cwd w) (files w) (clock w) (trace w ++ [inv]) (oracle w)).

(** [l[i]] for [0 <= i]. *)
Definition py_index {A} (l : list A) (i : nat) : Py A :=
  match l !! i with Some x => mret x | None => py_raise IndexError end.

(** [results[name] = value] on a [dict] of insertion-ordered entries:
    an existing key keeps its place. *)
Fixpoint dict_set {A} (k : string) (v : A) (d : list (string * A)) : list (string * A) :=
  match d with
  | [] => [(k, v)]
  | (k', v') :: rest => if String.eqb k k' then (k, v) :: rest else (k', v') :: dict_set k v rest
  end.

(** The loop shared by the suites' [main]:
    [for name, func in tests: try: results[name] = func()
     except Exception: results[name] = False]. *)
Fixpoint run_tests (tests : list (string * Py bool)) (results : list (string * bool))
  : Py (list (string * bool)) :=
  match tests with
  | [] => mret results
  | (name, func) :: rest =>
    r ← py_try func (λ _, mret false);
    run_tests rest (dict_set name r results)
  end.

(** [sum(1 for result in results.values() if result)]. *)
Definition passed_count (results : list (string * bool)) : nat :=
  length (filter (λ r : string * bool, r.2 = true) results).

(** Running a computation from a world. *)
Definition run_py {A} (m : Py A) (w : World) : result PyExc A * World := m w.

(** The outcome the suite records for one command: success exactly when
    the command ran and exited with status 0. *)
Definition exit_ok (o : result PyExc Completed) : bool :=
  match o with Ok c => bool_decide (returncode c = 0) | Err _ => false end.

Definition after_run (w : World) (inv : Invocation) : World :=
  mkWorld (cwd w) (files w) (clock w) (trace w ++ [inv]) (oracle w).

(** The world after a sequence of completed invocations. *)
Definition after_runs (w : World) (invs : list Invocation) : World :=
  mkWorld (cwd w) (files w) (clock w) (trace w ++ invs) (oracle w).

Lemma after_runs_cons w inv invs : after_runs (after_run w inv) invs = after_runs w (inv :: invs).
Proof. unfold after_runs, after_run. simpl. by rewrite <-app_assoc. Qed.

Lemma after_runs_app w l1 l2 : after_runs (after_runs w l1) l2 = after_runs w (l1 ++ l2).
Proof. unfold after_runs. simpl. by rewrite <-app_assoc. Qed.

Lemma after_run_runs w inv : after_run w inv = after_runs w [inv].
Proof. done. Qed.

Lemma after_runs_nil w : after_runs w [] = w.
Proof. destruct w. unfold after_runs. simpl. by rewrite app_nil_r. Qed.

Lemma py_bind_ok {A B} (m : Py A) (f : A → Py B) w a w' :
  m w = (Ok a, w') → (m ≫= f) w = f a w'.
Proof. intros H. cbv [mbind py_bind]. by rewrite H. Qed.

Lemma py_run_ok {A} (m : Py A) w a : (m w).1 = Ok a → m w = (Ok a, (m w).2).
Proof. destruct (m w). cbn. by intros ->. Qed.

(** [py_simpl] unfolds the monad and the primitives and reduces. *)
Ltac py_simpl :=
  cbv [mbind mret py_bind py_ret py_try py_raise getcwd chdir chdir_parent
       subprocess_run path_exists time_time set_cwd py_index] in *; simpl in *.

End PyRuntime.
