(* ===== verification/QuickTest.v ===== *)
(** * [src/contracts/tests/quick_test.py]

    Module [QuickTest]: one definition per function of the script.
    [run_command] runs a shell command in the parent of the script's
    directory ([cwd=os.path.dirname(os.path.abspath(__file__)) + "/.."],
    given here as [tests_dir], the directory holding the script) and
    never raises; the tests compile and unit-test the contracts;
    [main] checks for [Move.toml] in the current directory, runs the
    tests and reports whether all passed.  Printing is not modelled; the
    one printed expression that could raise
    ([stdout.split('Total tests:')[1]...]) is evaluated. *)

From S2P Require Import Prelude PyStr PyRuntime.
Import PyStr PyRuntime.

Open Scope string_scope.

Module QuickTest.

(** [run_command(command, timeout=30)] (lines 9-24). *)
Definition run_command (tests_dir : list string) (command : string) (timeout : Z)
  : Py (bool * string * string) :=
  py_try
    (result ← subprocess_run (Shell command) (Some (parent tests_dir)) (Some timeout);
     mret (bool_decide (returncode result = 0), stdout result, stderr result))
    (λ e, match e with
          | TimeoutExpired => mret (false, "", "Command timed out")
          | _ => mret (false, "", exc_str e)
          end).

(** [test_compilation()] (lines 26-41). *)
Definition test_compilation (tests_dir : list string) : Py bool :=
  r ← run_command tests_dir "aptos move compile --dev" 30;
  let '(success, _, _) := r in
  mret success.

(** The count printed by [test_move_tests] (line 52):
    [stdout.split('Total tests:')[1].split(';')[0].strip()]. *)
Definition tests_found (out : string) : Py string :=
  after ← py_index (py_split out "Total tests:") 1;
  count ← py_index (py_split after ";") 0;
  mret (py_strip count).

(** [test_move_tests()] (lines 43-58). *)
Definition test_move_tests (tests_dir : list string) : Py bool :=
  r ← run_command tests_dir "aptos move test --dev" 30;
  let '(success, out, _) := (r : bool * string * string) in
  if success then
    (if py_in "Total tests:" out then tests_found out ≫= λ _, mret true else mret true)
  else mret false.

(** [test_specific_functions()] (lines 60-76): prints a fixed list. *)
Definition test_specific_functions : Py bool := mret true.

(** [main()] (lines 78-128). *)
Definition main (tests_dir : list string) : Py bool :=
  found ← path_exists "Move.toml";
  if negb found then mret false
  else
    results ← run_tests [("Contract Compilation", test_compilation tests_dir);
                         ("Move Unit Tests", test_move_tests tests_dir);
                         ("Function Logic", test_specific_functions)] [];
    mret (bool_decide (passed_count results = length results)).

(** [sys.exit(0 if success else 1)] (lines 130-132). *)
Definition script (tests_dir : list string) : Py Z :=
  success ← main tests_dir; mret (if (success : bool) then 0 else 1).

(** C15 run_command_spec: [run_command] never raises: it records exactly
    one shell invocation, in the parent of the script's directory with
    the given timeout, leaves the current directory alone, and returns
    [(returncode == 0, stdout, stderr)] when the command completes,
    [(False, "", "Command timed out")] on a timeout and
    [(False, "", str(e))] on any other exception. *)
Theorem run_command_spec tests_dir cmd t w :
  let inv := mkInvocation (Shell cmd) (parent tests_dir) (Some t) in
  run_command tests_dir cmd t w =
  (Ok (match oracle w (trace w) inv with
       | Ok r => (bool_decide (returncode r = 0), stdout r, stderr r)
       | Err TimeoutExpired => (false, "", "Command timed out")
       | Err e => (false, "", exc_str e)
       end), after_run w inv).
Proof.
  unfold run_command, after_run. py_simpl.
  destruct (oracle w (trace w) _) as [r|[]]; reflexivity.
Qed.

Lemma tests_found_safe out : py_in "Total tests:" out = true → ∃ x, ∀ w, tests_found out w = (Ok x, w).
Proof.
  intros Hin. pose proof (py_split_two out "Total tests:" ltac:(done) Hin) as H2.
  unfold tests_found. py_simpl.
  destruct (py_split out "Total tests:" !! 1%nat) as [after|] eqn:E1;
    [|apply lookup_ge_None in E1; lia].
  destruct (py_split after ";") as [|first rest] eqn:E2; [by apply py_split_nonempty in E2|].
  simpl. by eexists.
Qed.

(** C14 test_move_tests_total: [test_move_tests] never raises, whatever
    the command prints: the guard ["Total tests:" in stdout] makes
    [stdout.split('Total tests:')[1]] safe; it passes exactly when the
    command exits with status 0. *)
Theorem test_move_tests_total tests_dir w :
  test_move_tests tests_dir w =
  (Ok (exit_ok (oracle w (trace w) (mkInvocation (Shell "aptos move test --dev")
                                       (parent tests_dir) (Some 30)))),
   after_run w (mkInvocation (Shell "aptos move test --dev") (parent tests_dir) (Some 30))).
Proof.
  unfold test_move_tests, run_command. py_simpl.
  destruct (oracle w (trace w) _) as [r|[]]; simpl; try reflexivity.
  case_bool_decide; simpl; [|reflexivity].
  destruct (py_in "Total tests:" (stdout r)) eqn:Hin; [|reflexivity].
  destruct (tests_found_safe (stdout r) Hin) as [x Hx]. by rewrite Hx.
Qed.

Lemma test_compilation_total tests_dir w :
  test_compilation tests_dir w =
  (Ok (exit_ok (oracle w (trace w) (mkInvocation (Shell "aptos move compile --dev")
                                       (parent tests_dir) (Some 30)))),
   after_run w (mkInvocation (Shell "aptos move compile --dev") (parent tests_dir) (Some 30))).
Proof.
  unfold test_compilation, run_command. py_simpl.
  by destruct (oracle w (trace w) _) as [r|[]].
Qed.

(** C13 quick_main_spec: [main] of quick_test.py returns False without
    running anything when [Move.toml] is not in the current directory;
    otherwise it runs exactly [aptos move compile --dev] and then
    [aptos move test --dev], both in the parent of the script's
    directory with a 30 second timeout, and returns True exactly when
    both exit with status 0. *)
Theorem quick_main_spec tests_dir w :
  let inv1 := mkInvocation (Shell "aptos move compile --dev") (parent tests_dir) (Some 30) in
  let inv2 := mkInvocation (Shell "aptos move test --dev") (parent tests_dir) (Some 30) in
  main tests_dir w =
  if bool_decide (("Move.toml" :: cwd w) ∈ files w)
  then (Ok (exit_ok (oracle w (trace w) inv1) && exit_ok (oracle w (trace w ++ [inv1]) inv2)),
        after_run (after_run w inv1) inv2)
  else (Ok false, w).
Proof.
  intros inv1 inv2. unfold main. cbv [mbind mret py_bind py_ret path_exists].
  case_bool_decide; [|done]. cbn [negb run_tests].
  cbv [mbind mret py_bind py_ret py_try]. rewrite test_compilation_total.
  cbn [dict_set]. rewrite test_move_tests_total.
  unfold test_specific_functions, after_run. simpl.
  destruct (exit_ok _), (exit_ok _); reflexivity.
Qed.

End QuickTest.
