(* ===== verification/SimpleTest.v ===== *)
(** * [src/contracts/tests/simple_test.py]

    Module [SimpleTest]: one definition per function of the script.
    [compile_contracts] and [test_move_syntax] step up to the parent
    directory with [os.chdir("..")], run the [aptos] command there and
    step back with [os.chdir(original_dir)]; the step back is in the
    [try] block only, so when the command raises (a timeout, a missing
    executable) the process stays one directory up.  [simple_main_spec]
    shows the consequence: after a timeout of the compilation the unit
    tests run two directories above the start. *)

From S2P Require Import Prelude PyStr PyRuntime.
Import PyStr PyRuntime.

Open Scope string_scope.

Module SimpleTest.

(** [check_aptos_cli()] (lines 10-28). *)
Definition check_aptos_cli : Py bool :=
  py_try
    (result ← subprocess_run (Argv ["aptos"; "--version"]) None (Some 5);
     mret (bool_decide (returncode result = 0)))
    (λ e, match e with
          | TimeoutExpired => mret false
          | FileNotFoundError _ => mret false
          | _ => mret false
          end).

(** The body shared by [compile_contracts] (lines 30-58) and
    [test_move_syntax] (lines 60-90): the two differ in the command and
    the timeout only. *)
Definition run_in_parent (args : list string) (timeout : Z) : Py bool :=
  py_try
    (original_dir ← getcwd;
     chdir_parent ≫= λ _,
     result ← subprocess_run (Argv args) None (Some timeout);
     chdir original_dir ≫= λ _,
     mret (bool_decide (returncode result = 0)))
    (λ e, match e with
          | TimeoutExpired => mret false
          | _ => mret false
          end).

(** [compile_contracts()] (lines 30-58). *)
Definition compile_contracts : Py bool :=
  run_in_parent ["aptos"; "move"; "compile"; "--dev"] 30.

(** [test_move_syntax()] (lines 60-90). *)
Definition test_move_syntax : Py bool :=
  run_in_parent ["aptos"; "move"; "test"; "--dev"] 45.

(** [test_basic_functionality()] (lines 92-108). *)
Definition test_basic_functionality : Py bool := mret true.

(** [main()] (lines 110-152). *)
Definition main : Py bool :=
  results ← run_tests [("Aptos CLI Check", check_aptos_cli);
                       ("Contract Compilation", compile_contracts);
                       ("Move Syntax Tests", test_move_syntax);
                       ("Basic Functionality", test_basic_functionality)] [];
  mret (bool_decide (passed_count results = length results)).

(** [sys.exit(0 if success else 1)] (lines 154-156). *)
Definition script : Py Z :=
  success ← main; mret (if (success : bool) then 0 else 1).

(** The effect of [run_in_parent] for every answer of the command. *)
Lemma run_in_parent_eq args t w :
  let inv := mkInvocation (Argv args) (parent (cwd w)) (Some t) in
  run_in_parent args t w =
  (Ok (exit_ok (oracle w (trace w) inv)),
   set_cwd (if is_ok (oracle w (trace w) inv) then cwd w else parent (cwd w))
     (after_run w inv)).
Proof.
  intros inv. unfold run_in_parent, after_run. py_simpl.
  by destruct (oracle w (trace w) _) as [r|[]].
Qed.

(** C1 run_in_parent_cwd: [compile_contracts] and [test_move_syntax]
    never raise and report success exactly when their command exits with
    status 0; they run it in the parent directory and restore the current
    directory when the command completes, but when the command raises (a
    timeout, a missing [aptos]) the process is left in the parent
    directory: the [except] branches do not change back. *)
Theorem run_in_parent_cwd args t w :
  let inv := mkInvocation (Argv args) (parent (cwd w)) (Some t) in
  (run_in_parent args t w).1 = Ok (exit_ok (oracle w (trace w) inv)) ∧
  trace (run_in_parent args t w).2 = (trace w ++ [inv])%list ∧
  cwd (run_in_parent args t w).2 =
    (if is_ok (oracle w (trace w) inv) then cwd w else parent (cwd w)).
Proof. intros inv. by rewrite run_in_parent_eq. Qed.

Lemma check_aptos_cli_total w :
  let inv := mkInvocation (Argv ["aptos"; "--version"]) (cwd w) (Some 5) in
  check_aptos_cli w = (Ok (exit_ok (oracle w (trace w) inv)), after_run w inv).
Proof. intros inv. unfold check_aptos_cli, after_run. py_simpl. by destruct (oracle w _ _) as [r|[]]. Qed.

(** C6 simple_main_spec: [main] of simple_test.py runs
    [aptos --version] in the starting directory, then the compilation in
    its parent, then the unit tests in the parent of wherever the
    compilation left the process: the parent again when the compilation
    completed, but the grandparent of the start when it raised; main
    returns True exactly when the three commands exit with status 0,
    and the process ends one or two levels up when a command raised. *)
Theorem simple_main_spec w :
  let inv1 := mkInvocation (Argv ["aptos"; "--version"]) (cwd w) (Some 5) in
  let inv2 := mkInvocation (Argv ["aptos"; "move"; "compile"; "--dev"]) (parent (cwd w)) (Some 30) in
  let o2 := oracle w (trace w ++ [inv1]) inv2 in
  let c2 := if is_ok o2 then cwd w else parent (cwd w) in
  let inv3 := mkInvocation (Argv ["aptos"; "move"; "test"; "--dev"]) (parent c2) (Some 45) in
  let o3 := oracle w (trace w ++ [inv1; inv2]) inv3 in
  main w =
  (Ok (exit_ok (oracle w (trace w) inv1) && exit_ok o2 && exit_ok o3),
   mkWorld (if is_ok o3 then c2 else parent c2) (files w) (clock w)
     (trace w ++ [inv1; inv2; inv3]) (oracle w)).
Proof.
  intros inv1 inv2 o2 c2 inv3 o3. unfold main.
  cbv [mbind mret py_bind py_ret]. cbn [run_tests].
  cbv [mbind mret py_bind py_ret py_try]. rewrite check_aptos_cli_total. cbn [dict_set].
  unfold compile_contracts. rewrite run_in_parent_eq. cbn [dict_set].
  unfold test_move_syntax. rewrite run_in_parent_eq. cbn [dict_set].
  unfold test_basic_functionality, after_run, set_cwd. simpl.
  rewrite <-!app_assoc. simpl. subst inv1 inv2 o2 c2 inv3 o3.
  repeat match goal with |- context [exit_ok ?o] => destruct (exit_ok o) end; reflexivity.
Qed.

End SimpleTest.
