(* ===== verification/MockSuite.v ===== *)
(** * [src/contracts/tests/test_multiple_signers.py]

    Module [MockSuite]: the class [BillSplitterTest] and [main].  The
    object's fields ([aptos_cli], [test_accounts], [deployed_address])
    are the record [Tester]; a method that assigns a field returns the
    updated record beside its result, and [run_all_tests] threads it
    through the calls in the order of the source.  The two methods that
    call the CLI ([test_compilation], [test_move_unit_tests]) step up
    from a directory named [tests] and, unlike simple_test.py, change
    back to the original directory on every path, the [except] branches
    included: [in_contracts_dir_restores].  The mock phase (accounts, funding,
    deployment) and the scenario methods do not call out at all; their
    values are computed here, the formatting of [f"0x{i:064x}"] by
    [PyStr.py_format_hex].  Printing is not modelled. *)

From S2P Require Import Prelude PyStr PyRuntime.
Import PyStr PyRuntime.

Open Scope string_scope.

Module MockSuite.

(** The dictionaries [{"profile": ..., "address": ...}] of
    [setup_test_accounts]. *)
Record Account := mkAccount {
  profile : string;
  address : string
}.

(** The fields of a [BillSplitterTest] object. *)
Record Tester := mkTester {
  aptos_cli : string;
  test_accounts : list Account;
  deployed_address : option string
}.

(** [BillSplitterTest.__init__(aptos_cli_path="aptos")] (lines 14-17). *)
Definition new_tester (aptos_cli_path : string) : Tester := mkTester aptos_cli_path [] None.

(** The body shared by [test_compilation] (lines 19-49) and
    [test_move_unit_tests] (lines 51-92): remember the directory, step
    up when it is called [tests], run the command with a 60 second
    timeout, step back, and judge the result with [judge]; every
    [except] branch steps back too and returns False.  [os.getcwd()] is
    the first statement of the [try] block; it does not raise, so it is
    bound before the [try] here, which lets the handlers see
    [original_dir] as the Python handlers do. *)
Definition in_contracts_dir (cmd : list string) (judge : Completed → bool) : Py bool :=
  original_dir ← getcwd;
  py_try
    ((if bool_decide (basename original_dir = "tests") then chdir_parent else mret tt) ≫= λ _,
     result ← subprocess_run (Argv cmd) None (Some 60);
     chdir original_dir ≫= λ _,
     mret (judge result))
    (λ e, match e with
          | TimeoutExpired => chdir original_dir ≫= λ _, mret false
          | _ => chdir original_dir ≫= λ _, mret false
          end).

(** [test_compilation()] (lines 19-49). *)
Definition test_compilation (t : Tester) : Py bool :=
  in_contracts_dir [aptos_cli t; "move"; "compile"; "--dev"]
    (λ result, bool_decide (returncode result = 0)).

(** [test_move_unit_tests()] (lines 51-92): a zero exit status passes
    only with ["Test result: OK"] in the output; the loop over the lines
    that follows only prints. *)
Definition test_move_unit_tests (t : Tester) : Py bool :=
  in_contracts_dir [aptos_cli t; "move"; "test"; "--dev"]
    (λ result, bool_decide (returncode result = 0) && py_in "Test result: OK" (stdout result)).

(** One mock account of [setup_test_accounts] (lines 101-108). *)
Definition mock_address (i : nat) : string := "0x" ++ py_format_hex 64 (Z.of_nat i).

Definition mock_account (i : nat) : Account :=
  mkAccount ("test_account_" ++ py_str_int (Z.of_nat i)) (mock_address i).

(** [setup_test_accounts(num_accounts)] (lines 94-113): [range] of a
    negative bound is empty. *)
Definition setup_test_accounts (num_accounts : Z) (t : Tester) : list Account * Tester :=
  let accounts := mock_account <$> seq 0 (Z.to_nat (Z.min num_accounts 5)) in
  (accounts, mkTester (aptos_cli t) accounts (deployed_address t)).

(** [fund_accounts(amount)] (lines 115-126): every mock funding counts
    as a success. *)
Definition fund_accounts (amount : Z) (t : Tester) : bool :=
  let success_count := foldl (λ c _, S c) 0%nat (test_accounts t) in
  bool_decide (length (test_accounts t) `div` 2 ≤ success_count)%nat.

(** [deploy_contracts()] (lines 128-139). *)
Definition deploy_contracts (t : Tester) : bool * Tester :=
  match test_accounts t with
  | [] => (false, t)
  | _ => (true, mkTester (aptos_cli t) (test_accounts t) (Some "0x42"))
  end.

(** [self.test_accounts[1:4]] (line 149). *)
Definition small_group_participants (accounts : list Account) : list Account :=
  take 3 (drop 1 accounts).

(** [test_small_group_scenario()] (lines 141-167): [merchant] is read
    before the [try]. *)
Definition test_small_group_scenario (t : Tester) : Py bool :=
  if bool_decide (length (test_accounts t) < 3)%nat then mret false
  else
    let participants := small_group_participants (test_accounts t) in
    merchant ← py_index (test_accounts t) 0;
    py_try
      (let participant_addresses := address <$> participants in
       mret true)
      (λ _, mret false).

(** [test_medium_group_scenario()] (lines 169-181),
    [test_signature_thresholds()] (lines 183-197) and
    [test_concurrent_sessions()] (lines 199-213) only print constants
    (the divisors are the non-zero literals 10, 3, 5 and 7). *)
Definition test_medium_group_scenario : Py bool := mret true.
Definition test_signature_thresholds : Py bool := mret true.
Definition test_concurrent_sessions : Py bool := mret true.

(** [run_all_tests()] (lines 215-282). *)
Definition run_all_tests (t : Tester) : Py (list (string * bool) * Tester) :=
  c ← test_compilation t;
  let results := dict_set "compilation" c [] in
  m ← test_move_unit_tests t;
  let results := dict_set "move_tests" m results in
  let '(accounts, t) := setup_test_accounts 5 t in
  if bool_decide (accounts = []) then mret ([("setup", false)], t) else
  if bool_decide (length (test_accounts t) = 0)%nat then mret ([("setup", false)], t) else
  if negb (fund_accounts 100000 t) then mret ([("funding", false)], t) else
  let '(deployed, t) := deploy_contracts t in
  if negb deployed then mret ([("deployment", false)], t) else
  s ← test_small_group_scenario t;
  let results := dict_set "small_group" s results in
  md ← test_medium_group_scenario;
  let results := dict_set "medium_group" md results in
  th ← test_signature_thresholds;
  let results := dict_set "signature_thresholds" th results in
  cs ← test_concurrent_sessions;
  let results := dict_set "concurrent_sessions" cs results in
  mret (results, t).

(** [main()] (lines 284-291): the exit status. *)
Definition main : Py Z :=
  r ← run_all_tests (new_tester "aptos");
  let results := r.1 in
  let all_passed := match results with [] => false | _ => forallb snd results end in
  mret (if all_passed then 0 else 1).

(** The directory the CLI commands run in: the parent of a directory
    named [tests], the current directory otherwise. *)
Definition contracts_dir (w : World) : list string :=
  if bool_decide (basename (cwd w) = "tests") then parent (cwd w) else cwd w.


(** The judgement of [test_move_unit_tests] on a command's outcome. *)
Definition move_tests_ok (o : result PyExc Completed) : bool :=
  match o with
  | Ok r => bool_decide (returncode r = 0) && py_in "Test result: OK" (stdout r)
  | Err _ => false
  end.

(** ** Theorems *)

(** The effect of [in_contracts_dir] for every answer of the command. *)
Lemma in_contracts_dir_eq cmd judge w :
  let inv := mkInvocation (Argv cmd) (contracts_dir w) (Some 60) in
  in_contracts_dir cmd judge w =
  (Ok (match oracle w (trace w) inv with Ok r => judge r | Err _ => false end),
   after_run w inv).
Proof.
  intros inv. subst inv. unfold in_contracts_dir, contracts_dir, after_run. py_simpl.
  case_bool_decide; py_simpl; by destruct (oracle w (trace w) _) as [r|[]].
Qed.

(** C4 in_contracts_dir_restores: the CLI methods of
    test_multiple_signers.py ([test_compilation], [test_move_unit_tests])
    never raise and always leave the current directory as they found it,
    whether the command completes, times out or fails to start (unlike
    simple_test.py, C24); they run exactly one command, in the parent of a
    [tests] directory (the current directory otherwise) with a 60 second
    timeout, and pass exactly when the command completes and its result
    is judged good. *)
Theorem in_contracts_dir_restores cmd judge w :
  let inv := mkInvocation (Argv cmd) (contracts_dir w) (Some 60) in
  cwd (in_contracts_dir cmd judge w).2 = cwd w ∧
  trace (in_contracts_dir cmd judge w).2 = (trace w ++ [inv])%list ∧
  (in_contracts_dir cmd judge w).1 =
    Ok (match oracle w (trace w) inv with Ok r => judge r | Err _ => false end).
Proof. intros inv. by rewrite in_contracts_dir_eq. Qed.

(** [f"0x{i:064x}"] determines [i]. *)
Lemma mock_address_inj i j : mock_address i = mock_address j → i = j.
Proof.
  unfold mock_address. intros H. apply (inj (String.append "0x")) in H.
  apply (f_equal parse_hex) in H. rewrite !format_hex_read in H by lia.
  injection H as H. apply (f_equal Z.of_N) in H. rewrite !Z2N.id in H; lia.
Qed.

(** Below 16 the hexadecimal digits are one character, so the address
    has its 66 characters. *)
Lemma mock_address_length i : (i < 16)%nat → String.length (mock_address i) = 66%nat.
Proof. intros Hi. do 16 (destruct i as [|i]; [reflexivity|]). lia. Qed.

(** C12 setup_test_accounts_spec: [setup_test_accounts(n)] creates
    [min(n, 5)] accounts (none for a negative [n]), stores exactly them in
    [self.test_accounts], leaves the other fields alone, and gives them
    pairwise distinct addresses of 66 characters ([0x] and 64 hexadecimal
    digits), whose digits read back as the account's index. *)
Theorem setup_test_accounts_spec n t :
  let '(accounts, t') := setup_test_accounts n t in
  length accounts = Z.to_nat (Z.min n 5) ∧
  t' = mkTester (aptos_cli t) accounts (deployed_address t) ∧
  NoDup (address <$> accounts) ∧
  (∀ i a, accounts !! i = Some a →
     String.length (address a) = 66%nat ∧
     address a = "0x" ++ py_format_hex 64 (Z.of_nat i)).
Proof.
  unfold setup_test_accounts. split_and!.
  - by rewrite length_fmap, length_seq.
  - done.
  - rewrite <-list_fmap_compose. apply NoDup_fmap_2; [|apply NoDup_seq].
    intros i j. apply mock_address_inj.
  - intros i a Hi. apply list_lookup_fmap_Some in Hi as (k & -> & Hk).
    apply lookup_seq in Hk as [-> Hk]. split; [|done].
    apply mock_address_length. lia.
Qed.

Lemma contracts_dir_after_run w inv : contracts_dir (after_run w inv) = contracts_dir w.
Proof. done. Qed.

(** The effect of [run_all_tests]. *)
Lemma run_all_tests_eq t w :
  let inv1 := mkInvocation (Argv [aptos_cli t; "move"; "compile"; "--dev"]) (contracts_dir w) (Some 60) in
  let inv2 := mkInvocation (Argv [aptos_cli t; "move"; "test"; "--dev"]) (contracts_dir w) (Some 60) in
  run_all_tests t w =
  (Ok ([("compilation", exit_ok (oracle w (trace w) inv1));
        ("move_tests", move_tests_ok (oracle w (trace w ++ [inv1]) inv2));
        ("small_group", true); ("medium_group", true);
        ("signature_thresholds", true); ("concurrent_sessions", true)],
       mkTester (aptos_cli t) (mock_account <$> seq 0 5) (Some "0x42")),
   after_run (after_run w inv1) inv2).
Proof.
  intros inv1 inv2. unfold run_all_tests. cbv [mbind py_bind].
  unfold test_compilation. rewrite in_contracts_dir_eq.
  unfold test_move_unit_tests. rewrite in_contracts_dir_eq, contracts_dir_after_run.
  fold inv1 inv2. cbn [dict_set].
  replace (match oracle w (trace w) inv1 with Ok r => bool_decide (returncode r = 0) | Err _ => false end)
    with (exit_ok (oracle w (trace w) inv1)) by (by destruct (oracle w (trace w) inv1)).
  fold (move_tests_ok (oracle (after_run w inv1) (trace (after_run w inv1)) inv2)).
  simpl.
  reflexivity.
Qed.

(** C10 run_all_tests_spec: [run_all_tests] of a fresh or used tester
    runs exactly the compilation and then the unit tests, both from the
    contracts directory, and comes back to the starting directory; the
    setup phase always succeeds (five mock accounts, funding, deployment
    to [0x42]), so none of its early returns is taken, and the results are
    the two command outcomes followed by four scenario entries that are
    always True. *)
Theorem run_all_tests_spec t w :
  let inv1 := mkInvocation (Argv [aptos_cli t; "move"; "compile"; "--dev"]) (contracts_dir w) (Some 60) in
  let inv2 := mkInvocation (Argv [aptos_cli t; "move"; "test"; "--dev"]) (contracts_dir w) (Some 60) in
  run_all_tests t w =
  (Ok ([("compilation", exit_ok (oracle w (trace w) inv1));
        ("move_tests", move_tests_ok (oracle w (trace w ++ [inv1]) inv2));
        ("small_group", true); ("medium_group", true);
        ("signature_thresholds", true); ("concurrent_sessions", true)],
       mkTester (aptos_cli t) (mock_account <$> seq 0 5) (Some "0x42")),
   after_run (after_run w inv1) inv2).
Proof. exact (run_all_tests_eq t w). Qed.


(** C11 mock_main_spec: [main] of test_multiple_signers.py exits with
    status 0 exactly when [aptos move compile --dev] exits with status 0
    and [aptos move test --dev] exits with status 0 and prints
    ["Test result: OK"]; it runs nothing else and ends in the directory it
    started in. *)
Theorem mock_main_spec w :
  let inv1 := mkInvocation (Argv ["aptos"; "move"; "compile"; "--dev"]) (contracts_dir w) (Some 60) in
  let inv2 := mkInvocation (Argv ["aptos"; "move"; "test"; "--dev"]) (contracts_dir w) (Some 60) in
  main w =
  (Ok (if exit_ok (oracle w (trace w) inv1) && move_tests_ok (oracle w (trace w ++ [inv1]) inv2)
       then 0 else 1),
   after_run (after_run w inv1) inv2).
Proof.
  intros inv1 inv2. unfold main. cbv [mbind py_bind mret py_ret].
  rewrite run_all_tests_eq. simpl.
  by destruct (exit_ok _), (move_tests_ok _).
Qed.

(** C9 small_group_scenario_spec: [test_small_group_scenario] passes
    exactly when there are at least three test accounts and touches
    nothing; its participants ([test_accounts[1:4]]) number
    [min(3, len - 1)], so the guard [len < 3] admits three accounts with
    only two participants, short of the "3 participants" the comment and
    the docstring promise. *)
Theorem small_group_scenario_spec t w :
  test_small_group_scenario t w = (Ok (bool_decide (3 ≤ length (test_accounts t))%nat), w) ∧
  length (small_group_participants (test_accounts t)) = Nat.min 3 (length (test_accounts t) - 1).
Proof.
  split.
  - unfold test_small_group_scenario. case_bool_decide; case_bool_decide; try lia; [done|].
    destruct (test_accounts t) as [|a l]; simpl in *; [lia|]. done.
  - unfold small_group_participants. by rewrite length_take, length_drop.
Qed.

End MockSuite.
