(* ===== verification/TesterScript.v ===== *)
(** * [src/contracts/scripts/test_multiple_signers.py]

    Module [TesterScript]: the dataclasses [TestAccount] and
    [TestScenario], the class [BillSplitterTester] and [main].  Every
    method shells out to the [aptos] CLI through [subprocess.run] (no
    timeout, no [cwd]); the contract behind the CLI is the oracle of
    [PyRuntime] (the file [Chain.v] provides one built from the session
    model).  The object's fields are the record [Tester]; the methods
    that assign one return the new record beside their result.

    The Python values that may be [None] are kept as [option]: the
    accounts of a [Tester] start as [None] and stay so when the CLI
    fails, and a [TestAccount] parsed from CLI output lacks the fields
    the output does not mention.  What Python does with [None] is written
    out: [self.admin_account.address] raises [AttributeError],
    [f"{None}"] is the text [None], [','.join] of a [None] raises
    [TypeError], and so does [subprocess.run] given [None] in its
    argument vector, after the whole vector has been built, left to
    right.  Printing is not modelled, except the printed slices
    [address[:10]] ([_fund_from_faucet], [create_test_accounts],
    [mint_test_tokens]); only the one of [mint_test_tokens] can raise,
    since the others follow a call that has already rejected [None].

    The theorems give the account-output parser's round trip, the crash
    of [setup_test_environment] without an admin account, the calls of
    [_execute_test_scenario] and of [mint_test_tokens] in order with
    their results, and the bounds of the scenario parameters. *)

From S2P Require Import Prelude PyStr PyRuntime.
From Stdlib Require Import Ascii.
Import PyStr PyRuntime.

Open Scope string_scope.

Module TesterScript.

(** [@dataclass TestAccount] (lines 13-17). *)
Record TestAccount := mkTestAccount {
  address : option string;
  private_key : option string;
  balance : Z
}.

(** [@dataclass TestScenario] (lines 19-25). *)
Record TestScenario := mkTestScenario {
  sc_name : string;
  sc_participants : list TestAccount;
  sc_total_amount : Z;
  sc_required_signatures : Z;
  sc_description : string
}.

(** The fields of a [BillSplitterTester] object. *)
Record Tester := mkTester {
  network : string;
  base_url : string;
  admin_account : option TestAccount;
  merchant_account : option TestAccount;
  test_accounts : list TestAccount
}.

(** [BillSplitterTester.__init__(network)] (lines 28-33). *)
Definition new_tester (network : string) : Tester :=
  mkTester network ("https://fullnode." ++ network ++ ".aptoslabs.com") None None [].

(** ** Python's handling of [None] *)

(** [obj.name] on an object that may be [None]. *)
Definition get_attr {A B} (o : option A) (f : A → B) (name : string) : Py B :=
  match o with
  | Some a => mret (f a)
  | None => py_raise (AttributeError ("'NoneType' object has no attribute '" ++ name ++ "'"))
  end.

(** [f"{x}"] of a [str] or [None]. *)
Definition fstr (o : option string) : string :=
  match o with Some s => s | None => "None" end.

(** [sep.join(items)]: an item [None] raises [TypeError]. *)
Definition join_opt (sep : string) (items : list (option string)) : Py string :=
  match mapM (M:=option) id items with
  | Some l => mret (py_join sep l)
  | None => py_raise (TypeError "sequence item: expected str instance, NoneType found")
  end.

(** [subprocess.run(args, capture_output=True, text=True)]: an argument
    [None] raises [TypeError] before anything runs. *)
Definition run_args (args : list (option string)) : Py Completed :=
  match mapM (M:=option) id args with
  | Some l => subprocess_run (Argv l) None None
  | None => py_raise (TypeError "expected str, bytes or os.PathLike object, not NoneType")
  end.

(** [s[:10]] of a [str] or [None]. *)
Definition slice10 (o : option string) : Py string :=
  match o with
  | Some s => mret (py_prefix s 10)
  | None => py_raise (TypeError "'NoneType' object is not subscriptable")
  end.

Definition succeeded (r : Completed) : bool := bool_decide (returncode r = 0).

(** ** Parsing the CLI's account output *)

Definition newline : string := String (ascii_of_nat 10) EmptyString.

(** [line.split(':')[-1].strip()]: the split is never empty
    ([py_split_nonempty]), so [[-1]] does not raise. *)
Definition last_field (line : string) : string :=
  py_strip (List.last (py_split line ":") "").

(** One turn of the loop of [_parse_account_output] (lines 288-292). *)
Definition parse_line (acc : option string * option string) (line : string)
  : option string * option string :=
  if py_in "Account address:" line then (Some (last_field line), acc.2)
  else if py_in "Private key:" line then (acc.1, Some (last_field line))
  else acc.

(** [_parse_account_output(output)] (lines 282-294). *)
Definition _parse_account_output (output : string) : TestAccount :=
  let lines := py_split (py_strip output) newline in
  let '(addr, key) := foldl parse_line (None, None) lines in
  mkTestAccount addr key 0.

(** ** Methods *)

(** [_fund_from_faucet(address)] (lines 296-305): the success message
    prints [address[:10]]. *)
Definition _fund_from_faucet (t : Tester) (addr : option string) : Py unit :=
  result ← run_args [Some "aptos"; Some "account"; Some "fund-with-faucet";
                     Some "--account"; addr; Some "--network"; Some (network t)];
  if succeeded result then slice10 addr ≫= λ _, mret tt else mret tt.

(** The command of lines 40-43, 50-53 and 69-72. *)
Definition create_account (t : Tester) : Py Completed :=
  run_args [Some "aptos"; Some "account"; Some "create"; Some "--network"; Some (network t)].

(** [setup_test_environment()] (lines 35-61). *)
Definition setup_test_environment (t : Tester) : Py Tester :=
  result ← create_account t;
  let t := if succeeded result
           then mkTester (network t) (base_url t) (Some (_parse_account_output (stdout result)))
                  (merchant_account t) (test_accounts t)
           else t in
  result ← create_account t;
  let t := if succeeded result
           then mkTester (network t) (base_url t) (admin_account t)
                  (Some (_parse_account_output (stdout result))) (test_accounts t)
           else t in
  admin_address ← get_attr (admin_account t) address "address";
  _fund_from_faucet t admin_address ≫= λ _,
  merchant_address ← get_attr (merchant_account t) address "address";
  _fund_from_faucet t merchant_address ≫= λ _,
  mret t.

(** The loop of [create_test_accounts] (lines 68-78), [i] counting up. *)
Fixpoint create_loop (t : Tester) (n : nat) (acc : list TestAccount) : Py (list TestAccount) :=
  match n with
  | O => mret acc
  | S n =>
    result ← create_account t;
    if succeeded result then
      let account := _parse_account_output (stdout result) in
      _fund_from_faucet t (address account) ≫= λ _,
      slice10 (address account) ≫= λ _,
      create_loop t n (acc ++ [account])
    else create_loop t n acc
  end.

(** [create_test_accounts(count)] (lines 63-81). *)
Definition create_test_accounts (count : Z) (t : Tester) : Py (list TestAccount * Tester) :=
  test_accounts ← create_loop t (Z.to_nat count) [];
  mret (test_accounts,
        mkTester (network t) (base_url t) (admin_account t) (merchant_account t) test_accounts).

(** [deploy_contracts()] (lines 83-98). *)
Definition deploy_contracts (t : Tester) : Py bool :=
  key ← get_attr (admin_account t) private_key "private_key";
  result ← run_args [Some "aptos"; Some "move"; Some "publish"; Some "--network"; Some (network t);
                     Some "--private-key"; key];
  mret (succeeded result).

(** [f"{self.admin_account.address}::<module>::<function>"]. *)
Definition function_id (t : Tester) (fn : string) : Py string :=
  addr ← get_attr (admin_account t) address "address";
  mret (fstr addr ++ "::" ++ fn).

(** [aptos move run --function-id <f> <args> --private-key <key>
    --network <network>], with the [--args] part when there is one. *)
Definition move_run (t : Tester) (fid : string) (args : list string) (key : option string)
  : Py Completed :=
  run_args ([Some "aptos"; Some "move"; Some "run"; Some "--function-id"; Some fid] ++ (Some <$> args) ++
            [Some "--private-key"; key; Some "--network"; Some (network t)])%list.

(** [initialize_system()] (lines 100-124). *)
Definition initialize_system (t : Tester) : Py unit :=
  fid ← function_id t "bill_splitter::initialize";
  key ← get_attr (admin_account t) private_key "private_key";
  result ← move_run t fid [] key;
  fid ← function_id t "usdc_utils::initialize_usdc";
  key ← get_attr (admin_account t) private_key "private_key";
  result ← move_run t fid [] key;
  mret tt.

(** [a // b] on [int]s: floor division, [ZeroDivisionError] for [b = 0]. *)
Definition py_floordiv (a b : Z) : Py Z :=
  if decide (b = 0) then py_raise ZeroDivisionError else mret (a `div` b).

(** [mint_test_tokens(accounts, amount_per_account)] (lines 126-141):
    the [balance] of each account whose mint succeeded is set (the
    objects are shared with the caller's list, so the updated list is
    returned), then its address is sliced for printing. *)
Fixpoint mint_test_tokens (t : Tester) (accounts : list TestAccount) (amount_per_account : Z)
  : Py (list TestAccount) :=
  match accounts with
  | [] => mret []
  | account :: rest =>
    fid ← function_id t "usdc_utils::mint_usdc_for_testing";
    key ← get_attr (admin_account t) private_key "private_key";
    result ← move_run t fid ["--args"; ("address:" ++ fstr (address account));
                             ("u64:" ++ py_str_int amount_per_account)] key;
    if succeeded result then
      let account := mkTestAccount (address account) (private_key account) amount_per_account in
      slice10 (address account) ≫= λ _,
      rest ← mint_test_tokens t rest amount_per_account;
      mret (account :: rest)
    else
      rest ← mint_test_tokens t rest amount_per_account;
      mret (account :: rest)
  end.

(** [[f"<prefix>{i}" for i in range(n)]]. *)
Definition numbered (prefix : string) (n : nat) : list string :=
  (λ i, prefix ++ py_str_int (Z.of_nat i)) <$> seq 0 n.

(** The arguments of [create_bill_session] (lines 204-210), with
    [extra] appended (the [max_participants] of the enhanced call). *)
Definition create_args (sc : TestScenario) (session_id addrs : string) (names : list string)
  (extra : list string) : list string :=
  app ["--args"; ("string:" ++ session_id);
    ("u64:" ++ py_str_int (sc_total_amount sc));
    ("string:" ++ sc_description sc);
    ("vector<address>:" ++ addrs);
    ("vector<string>:" ++ py_join "," names);
    ("u64:" ++ py_str_int (sc_required_signatures sc))] extra.

(** The loop of lines 229-236: every participant signs. *)
Fixpoint sign_all (t : Tester) (session_id : string) (ps : list TestAccount) : Py unit :=
  match ps with
  | [] => mret tt
  | p :: rest =>
    fid ← function_id t "bill_splitter::sign_bill_agreement";
    result ← move_run t fid ["--args"; ("string:" ++ session_id)] (private_key p);
    sign_all t session_id rest
  end.

(** The loop of lines 240-247: every participant pays [amount]. *)
Fixpoint pay_all (t : Tester) (session_id : string) (amount : Z) (ps : list TestAccount) : Py unit :=
  match ps with
  | [] => mret tt
  | p :: rest =>
    fid ← function_id t "bill_splitter::submit_payment";
    result ← move_run t fid ["--args"; ("string:" ++ session_id);
                             ("u64:" ++ py_str_int amount)] (private_key p);
    pay_all t session_id amount rest
  end.

(** [_execute_test_scenario(scenario)] (lines 192-250): only the
    creation's exit status is looked at. *)
Definition _execute_test_scenario (t : Tester) (sc : TestScenario) : Py bool :=
  now ← time_time;
  let session_id := "TEST_" ++ py_upper (sc_name sc) ++ "_" ++ py_str_int now in
  let addresses := address <$> sc_participants sc in
  let names := numbered "Participant_" (length (sc_participants sc)) in
  fid ← function_id t "bill_splitter::create_bill_session";
  addrs ← join_opt "," addresses;
  key ← get_attr (merchant_account t) private_key "private_key";
  result ← move_run t fid (create_args sc session_id addrs names []) key;
  if negb (succeeded result) then mret false else
  fid ← function_id t "bill_splitter::confirm_participants";
  key ← get_attr (merchant_account t) private_key "private_key";
  result ← move_run t fid ["--args"; ("string:" ++ session_id)] key;
  sign_all t session_id (sc_participants sc) ≫= λ _,
  individual_amount ← py_floordiv (sc_total_amount sc) (Z.of_nat (length (sc_participants sc)));
  pay_all t session_id individual_amount (sc_participants sc) ≫= λ _,
  mret true.

(** [_execute_enhanced_test_scenario(scenario)] (lines 252-280). *)
Definition _execute_enhanced_test_scenario (t : Tester) (sc : TestScenario) : Py bool :=
  now ← time_time;
  let session_id := "ENHANCED_TEST_" ++ py_upper (sc_name sc) ++ "_" ++ py_str_int now in
  let addresses := address <$> sc_participants sc in
  let names := numbered "Enhanced_Participant_" (length (sc_participants sc)) in
  fid ← function_id t "enhanced_bill_splitter::create_enhanced_bill_session";
  addrs ← join_opt "," addresses;
  key ← get_attr (merchant_account t) private_key "private_key";
  result ← move_run t fid (create_args sc session_id addrs names ["u64:100"]) key;
  mret (succeeded result).

(** The scenario of [run_small_group_test] (lines 147-153). *)
Definition small_group_scenario (participants : list TestAccount) : TestScenario :=
  mkTestScenario "small_group_test" (take 5 participants) 150000000
    (Z.of_nat (length (take 5 participants))) "Small Group Restaurant Bill".

(** [run_small_group_test(participants)] (lines 143-155). *)
Definition run_small_group_test (t : Tester) (participants : list TestAccount) : Py bool :=
  _execute_test_scenario t (small_group_scenario participants).

(** The scenario of [run_medium_group_test] (lines 161-168). *)
Definition medium_group_scenario (participants : list TestAccount) : TestScenario :=
  let participant_count := Nat.min 15 (length participants) in
  mkTestScenario "medium_group_test" (take participant_count participants) 500000000
    ((Z.of_nat participant_count * 2) `div` 3) "Medium Group Event Bill".

(** [run_medium_group_test(participants)] (lines 157-170). *)
Definition run_medium_group_test (t : Tester) (participants : list TestAccount) : Py bool :=
  _execute_enhanced_test_scenario t (medium_group_scenario participants).

(** [run_large_group_stress_test(num_participants)] (lines 172-190). *)
Definition run_large_group_stress_test (t : Tester) (num_participants : Z) : Py bool :=
  fid ← function_id t "test_suite::test_large_group_stress_test";
  key ← get_attr (admin_account t) private_key "private_key";
  result ← move_run t fid ["--args"; ("u64:" ++ py_str_int num_participants)] key;
  mret (succeeded result).

(** [main()] (lines 307-344). *)
Definition main : Py unit :=
  let tester := new_tester "testnet" in
  tester ← setup_test_environment tester;
  r ← create_test_accounts 20 tester;
  let '(test_accounts, tester) := (r : list TestAccount * Tester) in
  deployed ← deploy_contracts tester;
  if negb deployed then mret tt else
  initialize_system tester ≫= λ _,
  test_accounts ← mint_test_tokens tester test_accounts 1000000000;
  run_small_group_test tester test_accounts ≫= λ _,
  run_medium_group_test tester test_accounts ≫= λ _,
  run_large_group_stress_test tester 100 ≫= λ _,
  mret tt.

(** The text of [aptos account create] that [_parse_account_output]
    expects: two lines naming the address and the private key. *)
Definition account_output (addr key : string) : string :=
  "Account address: " ++ addr ++ newline ++ "Private key: " ++ key.

(** A completed [aptos move run] call, as the trace records it. *)
Definition move_inv (t : Tester) (dir : list string) (fid : string) (args : list string) (key : string)
  : Invocation :=
  mkInvocation (Argv (["aptos"; "move"; "run"; "--function-id"; fid] ++ args ++
                      ["--private-key"; key; "--network"; network t])%list) dir None.

(** The invocation of [aptos account create] on [network]. *)
Definition create_inv (network : string) (w : World) : Invocation :=
  mkInvocation (Argv ["aptos"; "account"; "create"; "--network"; network]) (cwd w) None.

(** An account the parser reads back from [account_output]: address
    and key without colon or line break, equal to their [strip()], the
    key non-empty. *)
Definition readable_account (a k : string) : Prop :=
  k ≠ "" ∧ py_strip a = a ∧ py_strip k = k ∧ py_in ":" a = false ∧ py_in ":" k = false ∧
  py_in newline a = false ∧ py_in newline k = false.

(** The [mint_usdc_for_testing] call of [mint_test_tokens] for [a],
    signed by [key] with the module at [base]. *)
Definition mint_inv (t : Tester) (dir : list string) (base : string) (amount : Z) (key : string)
  (a : TestAccount) : Invocation :=
  move_inv t dir (base ++ "::" ++ "usdc_utils::mint_usdc_for_testing")
    ["--args"; "address:" ++ fstr (address a); "u64:" ++ py_str_int amount] key.

(** A CLI that always completes with status [rc] and no output. *)
Definition const_world (rc : Z) : World :=
  mkWorld [] [] 1700000000 [] (λ _ _, Ok (mkCompleted rc "" "")).

(** ** Theorems *)

(** A character of a concrete string. *)
Ltac char_in := apply list_elem_of_In; vm_compute; repeat (first [by left | right]).

(** A character not in a concrete string. *)
Ltac char_out :=
  let H := fresh in
  intros H; apply list_elem_of_In in H; vm_compute in H;
  repeat (destruct H as [H|H]; [discriminate H|]); destruct H.

(** A character absent from both parts is absent from their
    concatenation. *)
Lemma char_absent_app c x y :
  c ∉ list_ascii_of_string x → py_in (String c "") y = false →
  c ∉ list_ascii_of_string (x ++ y).
Proof.
  intros Hx Hy%py_in_char. rewrite list_ascii_app, elem_of_app. naive_solver.
Qed.

(** [(key + ": " + v).split(':')[-1].strip()] is [v] when neither [key]
    nor [v] has a colon and [v] is stripped. *)
Lemma last_field_kv key v :
  py_in ":" key = false → py_in ":" v = false → py_strip v = v →
  last_field (key ++ ": " ++ v) = v.
Proof.
  intros Hk Hv Hs. unfold last_field.
  change (": " ++ v) with (String ":" (String " " v)).
  rewrite py_split_char by (by apply py_in_char).
  rewrite py_split_absent; [cbn [List.last]; by rewrite py_strip_space|].
  apply not_elem_of_cons. split; [done|]. by apply py_in_char.
Qed.

(** The key line never passes the address test. *)
Lemma key_line_not_address k :
  py_in ":" k = false → py_in "Account address:" ("Private key: " ++ k) = false.
Proof.
  intros Hk%py_in_char. rewrite py_in_inb, list_ascii_app. simpl.
  apply (inb_absent _ _ ":"%char); [char_in|done].
Qed.

Lemma account_output_strip a k :
  k ≠ "" → py_strip k = k → py_strip (account_output a k) = account_output a k.
Proof.
  intros Hk Hs. unfold account_output.
  change ("Account address: " ++ a ++ newline ++ "Private key: " ++ k)
    with ("A" ++ ("ccount address: " ++ a ++ newline ++ "Private key: " ++ k)).
  assert ("ccount address: " ++ a ++ newline ++ "Private key: " ++ k =
          ("ccount address: " ++ a ++ newline ++ "Private key: ") ++ k) as ->
    by (by rewrite !string_app_assoc).
  by apply py_strip_app.
Qed.

(** Parsing the output of a readable account gives it back. *)
Lemma parse_account_output_eq a k :
  readable_account a k → _parse_account_output (account_output a k) = mkTestAccount (Some a) (Some k) 0.
Proof.
  intros (Hk & Hsa & Hsk & Hca & Hck & Hna & Hnk). unfold _parse_account_output.
  rewrite account_output_strip by done. unfold account_output.
  rewrite <-(string_app_assoc "Account address: " a).
  change (newline ++ "Private key: " ++ k) with (String (ascii_of_nat 10) ("Private key: " ++ k)).
  rewrite py_split_char, py_split_absent.
  - cbn [foldl]. unfold parse_line.
    change ("Account address: " ++ a) with ("Account address:" ++ " " ++ a).
    rewrite py_in_prefix. cbn [fst snd].
    change ("Account address:" ++ " " ++ a) with ("Account address" ++ ": " ++ a).
    rewrite last_field_kv by done.
    rewrite key_line_not_address by done.
    change ("Private key: " ++ k) with ("Private key:" ++ " " ++ k).
    rewrite py_in_prefix. cbn [fst snd].
    change ("Private key:" ++ " " ++ k) with ("Private key" ++ ": " ++ k).
    by rewrite last_field_kv.
  - apply char_absent_app; [char_out|done].
  - apply char_absent_app; [char_out|done].
Qed.


(** C2 setup_admin_failure: when [aptos account create] completes with a
    non-zero status for the admin (and the merchant's creation completes),
    [setup_test_environment] raises [AttributeError] at
    [self.admin_account.address] after the two creations, without calling
    the faucet: the failed creation leaves [admin_account] at [None] and
    the method dereferences it unchecked. *)
Theorem setup_admin_failure w r1 r2 :
  oracle w (trace w) (create_inv "testnet" w) = Ok r1 → returncode r1 ≠ 0 →
  oracle w (trace w ++ [create_inv "testnet" w]) (create_inv "testnet" w) = Ok r2 →
  setup_test_environment (new_tester "testnet") w =
  (Err (AttributeError "'NoneType' object has no attribute 'address'"),
   after_run (after_run w (create_inv "testnet" w)) (create_inv "testnet" w)).
Proof.
  intros H1 Hrc H2. unfold setup_test_environment, create_account, run_args, get_attr, create_inv in *.
  py_simpl. rewrite H1. unfold succeeded. rewrite bool_decide_false by done.
  simpl. rewrite H2. simpl. by destruct (bool_decide _).
Qed.

Lemma mapM_Some (l : list string) : mapM (M:=option) id (Some <$> l) = Some l.
Proof. by apply mapM_fmap_Some. Qed.

Lemma move_run_eq t fid args key w :
  move_run t fid args (Some key) w =
  (oracle w (trace w) (move_inv t (cwd w) fid args key), after_run w (move_inv t (cwd w) fid args key)).
Proof.
  unfold move_run, run_args, move_inv.
  assert (([Some "aptos"; Some "move"; Some "run"; Some "--function-id"; Some fid] ++
           (Some <$> args) ++ [Some "--private-key"; Some key; Some "--network"; Some (network t)])%list
          = Some <$> (["aptos"; "move"; "run"; "--function-id"; fid] ++ args ++
                      ["--private-key"; key; "--network"; network t])%list) as ->
    by (by rewrite !fmap_app).
  by rewrite mapM_Some.
Qed.

Lemma function_id_eq t adm fn w :
  admin_account t = Some adm → function_id t fn w = (Ok (fstr (address adm) ++ "::" ++ fn), w).
Proof. intros Ha. unfold function_id, get_attr. rewrite Ha. done. Qed.

Section Loops.
Context (t : Tester) (adm : TestAccount) (Hadm : admin_account t = Some adm).

(** The loops issue one call per participant, in order, whatever the
    calls answer, as long as the CLI runs. *)
Lemma sign_all_eq sid ps ks w :
  private_key <$> ps = Some <$> ks → (∀ h i, is_ok (oracle w h i) = true) →
  sign_all t sid ps w =
  (Ok tt, after_runs w ((λ k, move_inv t (cwd w) (fstr (address adm) ++ "::bill_splitter::sign_bill_agreement")
                                ["--args"; "string:" ++ sid] k) <$> ks)).
Proof.
  revert ks w. induction ps as [|p ps IH]; intros [|k ks] w Hk Hok; try discriminate Hk.
  - simpl. by rewrite after_runs_nil.
  - injection Hk as Hk Hks. cbn [sign_all]. cbv [mbind py_bind].
    rewrite (function_id_eq t adm) by done. rewrite Hk, move_run_eq.
    pose proof (Hok (trace w) (move_inv t (cwd w) (fstr (address adm) ++ "::bill_splitter::sign_bill_agreement")
                                ["--args"; "string:" ++ sid] k)) as Hi.
    destruct (oracle w _ _); [|done]. rewrite (IH ks) by done. by rewrite after_runs_cons.
Qed.

Lemma pay_all_eq sid amount ps ks w :
  private_key <$> ps = Some <$> ks → (∀ h i, is_ok (oracle w h i) = true) →
  pay_all t sid amount ps w =
  (Ok tt, after_runs w ((λ k, move_inv t (cwd w) (fstr (address adm) ++ "::bill_splitter::submit_payment")
                                ["--args"; "string:" ++ sid; "u64:" ++ py_str_int amount] k) <$> ks)).
Proof.
  revert ks w. induction ps as [|p ps IH]; intros [|k ks] w Hk Hok; try discriminate Hk.
  - simpl. by rewrite after_runs_nil.
  - injection Hk as Hk Hks. cbn [pay_all]. cbv [mbind py_bind].
    rewrite (function_id_eq t adm) by done. rewrite Hk, move_run_eq.
    pose proof (Hok (trace w) (move_inv t (cwd w) (fstr (address adm) ++ "::bill_splitter::submit_payment")
                                ["--args"; "string:" ++ sid; "u64:" ++ py_str_int amount] k)) as Hi.
    destruct (oracle w _ _); [|done]. rewrite (IH ks) by done. by rewrite after_runs_cons.
Qed.

End Loops.

(** The trace and result of [_execute_test_scenario] when every
    invocation runs. *)
Lemma execute_scenario_eq t sc w adm m mk addrs ks :
  admin_account t = Some adm → merchant_account t = Some m → private_key m = Some mk →
  address <$> sc_participants sc = Some <$> addrs →
  private_key <$> sc_participants sc = Some <$> ks →
  (∀ h i, is_ok (oracle w h i) = true) →
  let sid := "TEST_" ++ py_upper (sc_name sc) ++ "_" ++ py_str_int (clock w) in
  let n := length (sc_participants sc) in
  let create := move_inv t (cwd w) (fstr (address adm) ++ "::" ++ "bill_splitter::create_bill_session")
                  (create_args sc sid (py_join "," addrs) (numbered "Participant_" n) []) mk in
  let confirm := move_inv t (cwd w) (fstr (address adm) ++ "::" ++ "bill_splitter::confirm_participants")
                   ["--args"; "string:" ++ sid] mk in
  let sign k := move_inv t (cwd w) (fstr (address adm) ++ "::" ++ "bill_splitter::sign_bill_agreement")
                  ["--args"; "string:" ++ sid] k in
  let pay k := move_inv t (cwd w) (fstr (address adm) ++ "::" ++ "bill_splitter::submit_payment")
                 ["--args"; "string:" ++ sid;
                  "u64:" ++ py_str_int (sc_total_amount sc `div` Z.of_nat n)] k in
  _execute_test_scenario t sc w =
  if exit_ok (oracle w (trace w) create) then
    if decide (n = 0%nat) then (Err ZeroDivisionError, after_runs w [create; confirm])
    else (Ok true, after_runs w ([create; confirm] ++ (sign <$> ks) ++ (pay <$> ks))%list)
  else (Ok false, after_runs w [create]).
Proof.
  intros Hadm Hm Hmk Haddr Hks Hok sid n create confirm sign pay.
  unfold _execute_test_scenario. cbv [mbind py_bind time_time].
  rewrite (function_id_eq t adm) by done. unfold join_opt. rewrite Haddr, mapM_Some.
  cbv [mret py_ret get_attr]. rewrite Hm, Hmk, move_run_eq. fold sid n. fold create.
  pose proof (Hok (trace w) create) as Hc.
  destruct (oracle w (trace w) create) as [r|] eqn:Hr; [|done]. cbv beta iota.
  unfold exit_ok, succeeded. case_bool_decide as Hrc; cbn [negb]; [|done].
  rewrite (function_id_eq t adm) by done. cbv beta iota. rewrite move_run_eq.
  change (cwd (after_run w create)) with (cwd w). fold confirm.
  pose proof (Hok (trace (after_run w create)) confirm) as Hf.
  destruct (oracle _ (trace (after_run w create)) confirm) as [r'|]; [|done]. cbv beta iota.
  rewrite (sign_all_eq t adm Hadm sid _ ks) by done. cbv beta iota.
  unfold py_floordiv. cbv [mret py_ret py_raise].
  destruct (decide (n = 0%nat)) as [Hn|Hn].
  - rewrite decide_True by lia. apply nil_length_inv in Hn. rewrite Hn in Hks.
    destruct ks; [|discriminate]. cbn [fmap list_fmap].
    by rewrite after_runs_nil, !after_run_runs, after_runs_app.
  - rewrite decide_False by lia. cbv beta iota.
    rewrite (pay_all_eq t adm Hadm sid _ _ ks) by done.
    rewrite !after_run_runs, !after_runs_app. reflexivity.
Qed.

(** The scenario only adds calls to the trace. *)
Lemma execute_scenario_world t sc w adm m mk addrs ks :
  admin_account t = Some adm → merchant_account t = Some m → private_key m = Some mk →
  address <$> sc_participants sc = Some <$> addrs →
  private_key <$> sc_participants sc = Some <$> ks →
  (∀ h i, is_ok (oracle w h i) = true) →
  ∃ invs, (_execute_test_scenario t sc w).2 = after_runs w invs.
Proof.
  intros Hadm Hm Hmk Haddr Hks Hok. pose proof (execute_scenario_eq t sc w adm m mk addrs ks Hadm Hm Hmk Haddr Hks Hok) as He.
  cbv zeta in He. rewrite He. repeat case_match; eexists; reflexivity.
Qed.

(** C3 execute_scenario_spec: with the admin and merchant accounts set,
    every participant's address and key known and a CLI that always runs,
    [_execute_test_scenario] issues [create_bill_session]; when it exits
    non-zero it returns False; otherwise it issues
    [confirm_participants], one [sign_bill_agreement] per participant and
    one [submit_payment] of [total // n] per participant, in this order,
    and returns True whatever those calls answer, or raises
    [ZeroDivisionError] after the confirmation when the scenario has no
    participant. *)
Theorem execute_scenario_spec t sc w adm m mk addrs ks :
  admin_account t = Some adm → merchant_account t = Some m → private_key m = Some mk →
  address <$> sc_participants sc = Some <$> addrs →
  private_key <$> sc_participants sc = Some <$> ks →
  (∀ h i, is_ok (oracle w h i) = true) →
  let sid := "TEST_" ++ py_upper (sc_name sc) ++ "_" ++ py_str_int (clock w) in
  let n := length (sc_participants sc) in
  let create := move_inv t (cwd w) (fstr (address adm) ++ "::" ++ "bill_splitter::create_bill_session")
                  (create_args sc sid (py_join "," addrs) (numbered "Participant_" n) []) mk in
  let confirm := move_inv t (cwd w) (fstr (address adm) ++ "::" ++ "bill_splitter::confirm_participants")
                   ["--args"; "string:" ++ sid] mk in
  let sign k := move_inv t (cwd w) (fstr (address adm) ++ "::" ++ "bill_splitter::sign_bill_agreement")
                  ["--args"; "string:" ++ sid] k in
  let pay k := move_inv t (cwd w) (fstr (address adm) ++ "::" ++ "bill_splitter::submit_payment")
                 ["--args"; "string:" ++ sid;
                  "u64:" ++ py_str_int (sc_total_amount sc `div` Z.of_nat n)] k in
  _execute_test_scenario t sc w =
  if exit_ok (oracle w (trace w) create) then
    if decide (n = 0%nat) then (Err ZeroDivisionError, after_runs w [create; confirm])
    else (Ok true, after_runs w ([create; confirm] ++ (sign <$> ks) ++ (pay <$> ks))%list)
  else (Ok false, after_runs w [create]).
Proof. exact (execute_scenario_eq t sc w adm m mk addrs ks). Qed.

(** C17 mint_test_tokens_spec: with the admin account and its key set,
    every account's address known and a CLI that always runs,
    [mint_test_tokens] issues one [mint_usdc_for_testing] call per
    account, in order, and returns the accounts in order with their
    address and key, the i-th one with balance [amount_per_account]
    exactly when the i-th call exits 0 and its old balance otherwise. *)
Theorem mint_test_tokens_spec t adm ak accs amount w :
  admin_account t = Some adm → private_key adm = Some ak →
  Forall (λ a, is_Some (address a)) accs → (∀ h i, is_ok (oracle w h i) = true) →
  ∃ accs', mint_test_tokens t accs amount w =
             (Ok accs', after_runs w (mint_inv t (cwd w) (fstr (address adm)) amount ak <$> accs)) ∧
    length accs' = length accs ∧
    ∀ i a a', accs !! i = Some a → accs' !! i = Some a' →
      address a' = address a ∧ private_key a' = private_key a ∧
      balance a' = (if exit_ok (oracle w (trace w ++ (mint_inv t (cwd w) (fstr (address adm)) amount ak <$> take i accs))
                                  (mint_inv t (cwd w) (fstr (address adm)) amount ak a))
                    then amount else balance a).
Proof.
  intros Hadm Hak. revert w. induction accs as [|a accs IH]; intros w Hs Hok.
  { exists []. split; [by rewrite after_runs_nil|]. split; [done|]. by intros i ? ? []. }
  apply Forall_cons in Hs as [[addr Ha] Hs].
  cbn [mint_test_tokens]. cbv [mbind py_bind]. rewrite (function_id_eq t adm) by done.
  cbv [get_attr]. rewrite Hadm, Hak. cbv [mret py_ret]. rewrite move_run_eq. fold (mint_inv t (cwd w) (fstr (address adm)) amount ak a).
  set (x := mint_inv t (cwd w) (fstr (address adm)) amount ak a).
  pose proof (Hok (trace w) x) as Hx. destruct (oracle w (trace w) x) as [r|] eqn:Hr; [|done].
  destruct (IH (after_run w x) Hs Hok) as (rest' & Heq & Hlen & Hix). cbn [cwd after_run] in Heq, Hix.
  assert (∀ i b b', (a :: accs) !! S i = Some b → (b :: rest') !! S i = Some b' →
    address b' = address b ∧ private_key b' = private_key b ∧
    balance b' = (if exit_ok (oracle w (trace w ++ (mint_inv t (cwd w) (fstr (address adm)) amount ak <$> take (S i) (a :: accs)))
                               (mint_inv t (cwd w) (fstr (address adm)) amount ak b)) then amount else balance b))
    as Htail.
  { intros i b b' Hb Hb'. pose proof (Hix i b b' Hb Hb') as H. cbn [after_run trace oracle] in H.
    rewrite <-app_assoc in H. exact H. }
  cbv beta iota. destruct (succeeded r) eqn:Hsucc; rewrite ?Ha; cbn [slice10 address]; cbv [mret py_ret]; rewrite Heq;
    rewrite after_runs_cons.
  - eexists. split; [done|]. split; [simpl; lia|]. intros [|i] b b' Hb Hb'; [|by apply (Htail i b b' Hb Hb')].
    injection Hb as <-. injection Hb' as <-. cbn [take fmap list_fmap address private_key balance].
    rewrite app_nil_r. fold x. rewrite Hr. unfold exit_ok. by fold (succeeded r); rewrite Hsucc.
  - eexists. split; [done|]. split; [simpl; lia|]. intros [|i] b b' Hb Hb'; [|by apply (Htail i b b' Hb Hb')].
    injection Hb as <-. injection Hb' as <-. cbn [take fmap list_fmap address private_key balance].
    rewrite app_nil_r. fold x. rewrite Hr. unfold exit_ok. by fold (succeeded r); rewrite Hsucc.
Qed.

Lemma mint_test_tokens_spec_witness :
  let adm := mkTestAccount (Some "0xa") (Some "ka") 0 in
  let accs := [mkTestAccount (Some "0x1") (Some "k1") 0; mkTestAccount (Some "0x2") (Some "k2") 5] in
  ∃ accs', (mint_test_tokens (mkTester "testnet" "" (Some adm) None accs) accs 7 (const_world 0)).1 = Ok accs' ∧
    balance <$> accs' = [7; 7].
Proof.
  intros adm accs.
  destruct (mint_test_tokens_spec (mkTester "testnet" "" (Some adm) None accs) adm "ka" accs 7 (const_world 0))
    as (accs' & Heq & Hlen & Hix); [reflexivity|reflexivity|repeat constructor; eexists; reflexivity|done|].
  exists accs'. rewrite Heq. split; [reflexivity|].
  destruct accs' as [|b1 [|b2 [|]]]; try discriminate Hlen. cbn [fmap list_fmap].
  destruct (Hix 0%nat _ b1 eq_refl eq_refl) as (_ & _ & ->). destruct (Hix 1%nat _ b2 eq_refl eq_refl) as (_ & _ & ->).
  reflexivity.
Defined.

(** C8 medium_group_threshold: the medium-group scenario takes
    [min(15, len)] participants and requires [count * 2 // 3] signatures:
    zero exactly when there are at most one account (outside the range
    [1 <= required] of the contract), and otherwise at least one and
    strictly fewer than the participants. *)
Theorem medium_group_threshold ps :
  let sc := medium_group_scenario ps in
  length (sc_participants sc) = Nat.min 15 (length ps) ∧
  (sc_required_signatures sc = 0 ↔ (length ps ≤ 1)%nat) ∧
  ((2 ≤ length ps)%nat →
     1 ≤ sc_required_signatures sc < Z.of_nat (length (sc_participants sc))).
Proof.
  intros sc. subst sc. unfold medium_group_scenario. cbn [sc_participants sc_required_signatures].
  rewrite length_take.
  assert (Nat.min (Nat.min 15 (length ps)) (length ps) = Nat.min 15 (length ps)) as -> by lia.
  split_and!; [done|..].
  - split; [|intros Hle; rewrite Nat.min_r by lia;
              assert (length ps = 0 ∨ length ps = 1)%nat as [-> | ->] by lia; reflexivity].
    intros H. apply Z.div_small_iff in H; lia.
  - intros H. split; [apply Z.div_le_lower_bound|apply Z.div_lt_upper_bound]; lia.
Qed.

(** C16 small_group_payments_cover: in the small-group scenario with at
    least one participant, there are at most five participants, all must
    sign, and the equal shares [150_000_000 // n] that
    [_execute_test_scenario] pays add up exactly to the total: the
    remainder [total % n] that the payment loop drops is zero for every
    possible [n]. *)
Theorem small_group_payments_cover ps :
  let sc := small_group_scenario ps in
  let n := Z.of_nat (length (sc_participants sc)) in
  (1 ≤ n)%Z →
  (n ≤ 5 ∧ sc_required_signatures sc = n ∧ n * (sc_total_amount sc `div` n) = sc_total_amount sc)%Z.
Proof.
  intros sc n Hn. subst sc n. unfold small_group_scenario in *. cbn [sc_participants sc_required_signatures sc_total_amount] in *.
  rewrite length_take in *. split_and!; [lia|done|].
  assert (Nat.min 5 (length ps) ≤ 5)%nat as Hle by lia. revert Hn Hle.
  generalize (Nat.min 5 (length ps)) as k. intros k Hn Hle.
  destruct k as [|[|[|[|[|[|k]]]]]]; try lia; reflexivity.
Qed.

(** ** Witnesses *)

Lemma setup_admin_failure_witness :
  setup_test_environment (new_tester "testnet") (const_world 1) =
  (Err (AttributeError "'NoneType' object has no attribute 'address'"),
   after_run (after_run (const_world 1) (create_inv "testnet" (const_world 1)))
     (create_inv "testnet" (const_world 1))).
Proof.
  apply (setup_admin_failure (const_world 1) (mkCompleted 1 "" "") (mkCompleted 1 "" ""));
    [reflexivity|discriminate|reflexivity].
Defined.

Lemma execute_scenario_spec_witness :
  let adm := mkTestAccount (Some "0xa") (Some "ka") 0 in
  let m := mkTestAccount (Some "0xm") (Some "km") 0 in
  let ps := [mkTestAccount (Some "0x1") (Some "k1") 0; mkTestAccount (Some "0x2") (Some "k2") 0] in
  (_execute_test_scenario (mkTester "testnet" "" (Some adm) (Some m) ps)
     (small_group_scenario ps) (const_world 0)).1 = Ok true.
Proof.
  intros adm m ps.
  rewrite (execute_scenario_spec (mkTester "testnet" "" (Some adm) (Some m) ps)
             (small_group_scenario ps) (const_world 0) adm m "km" ["0x1"; "0x2"] ["k1"; "k2"] eq_refl eq_refl eq_refl
             eq_refl eq_refl (λ _ _, eq_refl)).
  vm_compute. reflexivity.
Defined.


Lemma small_group_payments_cover_witness :
  let sc := small_group_scenario [mkTestAccount None None 0; mkTestAccount None None 0;
                                  mkTestAccount None None 0] in
  let n := Z.of_nat (length (sc_participants sc)) in
  (n ≤ 5 ∧ sc_required_signatures sc = n ∧ n * (sc_total_amount sc `div` n) = sc_total_amount sc)%Z.
Proof. apply small_group_payments_cover. simpl. lia. Defined.

End TesterScript.
