(* ===== verification/Chain.v ===== *)
(** * The contract behind the CLI: the scripts' calls on the session model

    [scripts/test_multiple_signers.py] drives the bill contract through
    [aptos move run --function-id <module>::bill_splitter::<function>
    --args ... --private-key <key> --network <network>].  This file
    gives the [PyRuntime] oracle for those calls, built from the
    registry of [Registry] (the contract is not in the repository; its
    entry points are read from the script's calls and mapped onto the
    inbound operations of section 6 of the specification):

    - [create_bill_session(id, total, description, addresses, names,
      required)] creates the session (its creator is the signer, its
      deadline [cfg_lifetime] after the chain clock) and adds one
      participant per address, owing an equal share of the total (the
      first one also owes the remainder, so that the shares add up to
      the total, section 3);
    - [confirm_participants(id)] confirms the session;
    - [sign_bill_agreement(id)] records the signer's approval;
    - [submit_payment(id, amount)] records the signer's payment.

    The signer of a call is the account of its private key
    ([cfg_keys]).  A call is a transaction: its commands run in order
    and the first rejected one aborts it, leaving the registry as it was
    and exiting with status 1; a call that completes exits with status 0.
    [usdc_utils::mint_usdc_for_testing(address, amount)], signed by the
    publisher, credits the ledger ([credit]).  [aptos account create]
    hands out the next account of [cfg_keys] and prints it the way
    [_parse_account_output] reads it, and exits with status 1 once they
    are all handed out.  Other calls and commands (the faucet,
    publishing, initialisation, the enhanced module, the stress test) do
    not touch the registry and exit with status 0.

    The lemmas read each call of [_execute_test_scenario] back
    ([decode_create] to [decode_pay]), run the creation and the
    confirmation ([create_call], [confirm_call]) and the signature and
    payment loops ([sign_loop], [pay_loop], [sign_then_pay]);
    [scenario_outcome] composes them with [TesterScript]'s equation of
    the scenario.  Section [Accounts] runs the creation loop against the
    oracle ([create_test_accounts_chain]); Section [Main] runs each phase
    of [main] ([setup_chain] to [large_chain]), and
    [main_settles_small_group] composes them into the whole run. *)

From S2P Require Import Prelude CoreTypes Session SessionInv Registry RegistryFacts Scenarios PyStr PyRuntime TesterScript.
From Stdlib Require Import Ascii DecimalString DecimalN.
Import BillSession SessionRegistry PyStr PyRuntime TesterScript.

Open Scope string_scope.

Module Chain.

Record ChainConfig := mkChainConfig {
  cfg_module : string;                 (* the address the package is published at *)
  cfg_keys : list (string * string);   (* private key, account address *)
  cfg_now : Z;                         (* the chain clock during the run *)
  cfg_lifetime : Z                     (* how long a new session stays open *)
}.

(** A call of the bill contract's entry functions. *)
Inductive Call :=
| CallCreate (sid : string) (total : Z) (desc : string) (addrs names : list string) (required : Z)
| CallConfirm (sid : string)
| CallSign (sid : string)
| CallPay (sid : string) (amount : Z)
| CallMint (addr : string) (amount : Z).

(** [s] without the prefix [p], if [s] starts with it. *)
Definition strip_prefix (p s : string) : option string :=
  if String.prefix p s
  then Some (substring (String.length p) (String.length s - String.length p) s)
  else None.

(** A [u64:] argument. *)
Definition parse_u64 (s : string) : option Z :=
  (λ d, Z.of_N (N.of_uint d)) <$> DecimalString.NilEmpty.uint_of_string s.

(** A [vector<...>:] argument: comma-separated, empty for no element. *)
Definition parse_list (s : string) : list string :=
  if decide (s = "") then [] else py_split s ",".

(** The entry functions of the published package the scripts call and
    the model runs, by their path in the package. *)
Definition entry_functions : list string :=
  ["bill_splitter::create_bill_session"; "bill_splitter::confirm_participants";
   "bill_splitter::sign_bill_agreement"; "bill_splitter::submit_payment";
   "usdc_utils::mint_usdc_for_testing"].

(** The entry function named by a function id [<package>::<path>]. *)
Definition bill_function (cfg : ChainConfig) (fid : string) : option string :=
  List.find (λ fn, bool_decide (fid = cfg_module cfg ++ "::" ++ fn)) entry_functions.

(** The arguments of an entry function, after [--args]. *)
Definition decode_args (fn : string) (vals : list string) : option Call :=
  match vals with
  | [a1; a2; a3; a4; a5; a6] =>
    if decide (fn = "bill_splitter::create_bill_session") then
      sid ← strip_prefix "string:" a1;
      total ← strip_prefix "u64:" a2 ≫= parse_u64;
      desc ← strip_prefix "string:" a3;
      addrs ← strip_prefix "vector<address>:" a4;
      names ← strip_prefix "vector<string>:" a5;
      required ← strip_prefix "u64:" a6 ≫= parse_u64;
      Some (CallCreate sid total desc (parse_list addrs) (parse_list names) required)
    else None
  | [a1] =>
    sid ← strip_prefix "string:" a1;
    if decide (fn = "bill_splitter::confirm_participants") then Some (CallConfirm sid)
    else if decide (fn = "bill_splitter::sign_bill_agreement") then Some (CallSign sid)
    else None
  | [a1; a2] =>
    if decide (fn = "bill_splitter::submit_payment") then
      sid ← strip_prefix "string:" a1;
      amount ← strip_prefix "u64:" a2 ≫= parse_u64;
      Some (CallPay sid amount)
    else if decide (fn = "usdc_utils::mint_usdc_for_testing") then
      addr ← strip_prefix "address:" a1;
      amount ← strip_prefix "u64:" a2 ≫= parse_u64;
      Some (CallMint addr amount)
    else None
  | _ => None
  end.

(** An invocation [aptos move run --function-id <fid> --args <vals>
    --private-key <key> --network <network>] of the bill module: the call
    and the key that signs it. *)
Definition decode_inv (cfg : ChainConfig) (inv : Invocation) : option (Call * string) :=
  match inv_cmd inv with
  | Argv (a1 :: a2 :: a3 :: a4 :: fid :: rest) =>
    if decide ([a1; a2; a3; a4] = ["aptos"; "move"; "run"; "--function-id"]) then
      match List.rev rest with
      | _ :: flag2 :: key :: flag1 :: rvals =>
        if decide (flag1 = "--private-key" ∧ flag2 = "--network") then
          match List.rev rvals with
          | flag :: vals =>
            if decide (flag = "--args") then
              fn ← bill_function cfg fid;
              c ← decode_args fn vals;
              Some (c, key)
            else None
          | [] => None
          end
        else None
      | _ => None
      end
    else None
  | _ => None
  end.

(** The account of a private key. *)
Definition signer_of (cfg : ChainConfig) (key : string) : option string :=
  snd <$> List.find (λ kv, bool_decide (kv.1 = key)) (cfg_keys cfg).

(** The owed amounts of [n] participants: equal shares of the total,
    the first one also owing the remainder. *)
Definition shares (total : Z) (n : nat) : list Z :=
  match n with
  | O => []
  | S m => (total `div` Z.of_nat n + total `mod` Z.of_nat n) :: replicate m (total `div` Z.of_nat n)
  end.

(** One [AddParticipant] per address, with the name at the same position
    (empty when the names run out) and the owed amount. *)
Fixpoint add_commands (sid : string) (addrs names : list string) (owed : list Z) : list Command :=
  match addrs, owed with
  | a :: addrs', o :: owed' =>
    AddParticipant sid a (default "" (head names)) o :: add_commands sid addrs' (tail names) owed'
  | _, _ => []
  end.

(** The registry commands a call performs, signed by [signer]. *)
Definition call_commands (cfg : ChainConfig) (signer : string) (c : Call) : list Command :=
  match c with
  | CallCreate sid total desc addrs names required =>
    CreateSession sid desc signer required (cfg_now cfg + cfg_lifetime cfg) ::
    add_commands sid addrs names (shares total (length addrs))
  | CallConfirm sid => [ConfirmSession sid]
  | CallSign sid => [RecordApproval sid signer]
  | CallPay sid amount => [RecordPayment sid signer amount]
  | CallMint _ _ => []
  end.

(** A transaction: every command succeeds, or nothing happens. *)
Fixpoint exec_all (now : Z) (cs : list Command) (sys : Sys) : option Sys :=
  match cs with
  | [] => Some sys
  | c :: rest =>
    match exec now c sys with
    | (sys', Ok _) => exec_all now rest sys'
    | (_, Err _) => None
    end
  end.

(** [amount] test coins minted to [addr]. *)
Definition credit (addr : string) (amount : Z) (sys : Sys) : Sys :=
  mkSystem (sessions sys) (<[addr := default 0 (ledger sys !! addr) + amount]> (ledger sys)) (event_log sys).

(** The transaction of a call signed by [signer]: the registry commands
    of a bill call, or the mint, which only the publisher may sign. *)
Definition run_call (cfg : ChainConfig) (signer : string) (c : Call) (sys : Sys) : option Sys :=
  match c with
  | CallMint addr amount =>
    if decide (signer = cfg_module cfg) then Some (credit addr amount sys) else None
  | _ => exec_all (cfg_now cfg) (call_commands cfg signer c) sys
  end.

(** One CLI invocation against the registry: the new registry and the
    exit status. *)
Definition chain_step (cfg : ChainConfig) (sys : Sys) (inv : Invocation) : Sys * Z :=
  match decode_inv cfg inv with
  | Some (c, key) =>
    match signer_of cfg key with
    | Some signer =>
      match run_call cfg signer c sys with
      | Some sys' => (sys', 0)
      | None => (sys, 1)
      end
    | None => (sys, 1)
    end
  | None => (sys, 0)
  end.

(** The registry after a history of invocations. *)
Definition chain_state (cfg : ChainConfig) (sys0 : Sys) (hist : list Invocation) : Sys :=
  foldl (λ sys inv, (chain_step cfg sys inv).1) sys0 hist.

(** [aptos account create ...]. *)
Definition is_account_create (inv : Invocation) : bool :=
  match inv_cmd inv with
  | Argv (a1 :: a2 :: a3 :: _) => String.eqb a1 "aptos" && String.eqb a2 "account" && String.eqb a3 "create"
  | _ => false
  end.

(** The number of accounts created so far. *)
Definition created (hist : list Invocation) : nat := length (List.filter is_account_create hist).

(** The CLI as an oracle of [PyRuntime]: it always runs.  An account
    creation hands out the next account of [cfg_keys] and prints it the
    way [aptos account create] does, or fails once they are all handed
    out; every other call answers with its exit status on the registry
    reached by the calls so far. *)
Definition chain_oracle (cfg : ChainConfig) (sys0 : Sys)
  : list Invocation → Invocation → result PyExc Completed :=
  λ hist inv,
    if is_account_create inv then
      match cfg_keys cfg !! created hist with
      | Some (key, addr) => Ok (mkCompleted 0 (account_output addr key) "")
      | None => Ok (mkCompleted 1 "" "")
      end
    else Ok (mkCompleted (chain_step cfg (chain_state cfg sys0 hist) inv).2 "" "").

(** The participants [add_commands] adds, in order. *)
Fixpoint new_participants (addrs names : list string) (owed : list Z) : list Participant :=
  match addrs, owed with
  | a :: addrs', o :: owed' =>
    mkParticipant a (default "" (head names)) o false 0 :: new_participants addrs' (tail names) owed'
  | _, _ => []
  end.

(** [aptos account create --network <network>], from [dir]. *)
Definition account_create_inv (t : Tester) (dir : list string) : Invocation :=
  mkInvocation (Argv ["aptos"; "account"; "create"; "--network"; network t]) dir None.

(** [aptos account fund-with-faucet --account <a> --network <network>]. *)
Definition faucet_inv (t : Tester) (dir : list string) (a : string) : Invocation :=
  mkInvocation (Argv ["aptos"; "account"; "fund-with-faucet"; "--account"; a; "--network"; network t]) dir None.

(** [aptos move publish --network <network> --private-key <key>]. *)
Definition publish_inv (t : Tester) (dir : list string) (key : string) : Invocation :=
  mkInvocation (Argv ["aptos"; "move"; "publish"; "--network"; network t; "--private-key"; key]) dir None.

(** An account after a successful mint of [amount]. *)
Definition minted (amount : Z) (a : TestAccount) : TestAccount :=
  mkTestAccount (address a) (private_key a) amount.

(** The [TestAccount] of a configured (key, address) pair. *)
Definition account_of (ka : string * string) : TestAccount := mkTestAccount (Some ka.2) (Some ka.1) 0.

(** The calls of [n] turns of the creation loop that receive the
    accounts [kas]: a creation and a faucet call for each of them, then
    the creations that fail. *)
Definition creation_calls (t : Tester) (dir : list string) (kas : list (string * string)) (n : nat)
  : list Invocation :=
  (List.concat ((λ ka, [account_create_inv t dir; faucet_inv t dir ka.2]) <$> kas) ++
   replicate (n - length kas) (account_create_inv t dir))%list.

(** ** Decoding the script's calls *)

Lemma prefix_app p x : String.prefix p (p ++ x) = true.
Proof.
  induction p as [|c p IH]; [by destruct x|].
  change (String c p ++ x) with (String c (p ++ x)). simpl. by destruct (ascii_dec c c).
Qed.

Lemma substring_all x : substring 0 (String.length x) x = x.
Proof. induction x as [|c x IH]; [done|]. simpl. by rewrite IH. Qed.

Lemma strip_prefix_app p x : strip_prefix p (p ++ x) = Some x.
Proof.
  unfold strip_prefix. rewrite prefix_app. f_equal.
  rewrite string_length_app. replace (String.length p + String.length x - String.length p)%nat
    with (String.length x) by lia.
  induction p as [|c p IH]; [apply substring_all|].
  change (String c p ++ x) with (String c (p ++ x)). exact IH.
Qed.

(** [f"{n}"] reads back as [n] for [n >= 0]. *)
Lemma parse_u64_str z : (0 ≤ z)%Z → parse_u64 (py_str_int z) = Some z.
Proof.
  intros Hz. unfold py_str_int, parse_u64. rewrite decide_False by lia.
  rewrite DecimalString.NilEmpty.usu. simpl. rewrite DecimalN.Unsigned.of_to. f_equal. lia.
Qed.

(** Splitting a comma-joined list gives the list back. *)
Lemma py_split_join l :
  l ≠ [] → Forall (λ a, py_in "," a = false) l → py_split (py_join "," l) "," = l.
Proof.
  intros Hl Hc. induction l as [|a [|b l] IH]; [done| |].
  - apply Forall_cons in Hc as [Ha _]. simpl. apply py_split_absent. by apply py_in_char.
  - apply Forall_cons in Hc as [Ha Hc].
    change (py_join "," (a :: b :: l)) with (a ++ String "," (py_join "," (b :: l))).
    rewrite py_split_char by (by apply py_in_char). by rewrite IH.
Qed.

Lemma py_join_nonempty l : l ≠ [] → Forall (λ a, a ≠ "") l → py_join "," l ≠ "".
Proof.
  intros Hl Hne. destruct l as [|a [|b l]]; [done| |].
  - by apply Forall_cons in Hne as [Ha _].
  - apply Forall_cons in Hne as [Ha _]. change (py_join "," (a :: b :: l)) with (a ++ "," ++ py_join "," (b :: l)).
    destruct a; [done|discriminate].
Qed.

Lemma parse_list_join l :
  l ≠ [] → Forall (λ a, a ≠ "" ∧ py_in "," a = false) l → parse_list (py_join "," l) = l.
Proof.
  intros Hl Hf. unfold parse_list. rewrite decide_False.
  - apply py_split_join; [done|]. eapply Forall_impl; [done|]. naive_solver.
  - apply py_join_nonempty; [done|]. eapply Forall_impl; [done|]. naive_solver.
Qed.

Lemma bool_decide_app_l m x y : bool_decide (m ++ x = m ++ y) = bool_decide (x = y).
Proof. apply bool_decide_ext. split; [apply (inj _)|by intros ->]. Qed.

(** An invocation built by [move_run] decodes to its function and
    arguments. *)
Lemma decode_move_inv cfg t dir fid vals key :
  decode_inv cfg (move_inv t dir fid ("--args" :: vals) key) =
  (fn ← bill_function cfg fid; c ← decode_args fn vals; Some (c, key)).
Proof.
  unfold decode_inv, move_inv. cbn [inv_cmd app]. rewrite decide_True by done.
  assert (List.rev ("--args" :: (vals ++ ["--private-key"; key; "--network"; network t])%list) =
          ([network t; "--network"; key; "--private-key"] ++ List.rev ("--args" :: vals))%list) as ->
    by (rewrite app_comm_cons, rev_app_distr; reflexivity).
  cbn [app]. rewrite decide_True by done. rewrite rev_involutive. by rewrite decide_True.
Qed.

Lemma bill_function_app cfg x :
  bill_function cfg (cfg_module cfg ++ "::" ++ x) = List.find (λ fn, bool_decide (x = fn)) entry_functions.
Proof. unfold bill_function, entry_functions. simpl. by rewrite !bool_decide_app_l. Qed.

(** The four calls of [_execute_test_scenario], as the registry reads
    them. *)
Lemma decode_create cfg t dir sc sid addrs names key :
  (0 ≤ sc_total_amount sc)%Z → (0 ≤ sc_required_signatures sc)%Z →
  addrs ≠ [] → Forall (λ a, a ≠ "" ∧ py_in "," a = false) addrs →
  decode_inv cfg (move_inv t dir (cfg_module cfg ++ "::" ++ "bill_splitter::create_bill_session")
                    (create_args sc sid (py_join "," addrs) names []) key) =
  Some (CallCreate sid (sc_total_amount sc) (sc_description sc) addrs
          (parse_list (py_join "," names)) (sc_required_signatures sc), key).
Proof.
  intros Ht Hr Hne Ha. unfold create_args. cbn [app]. rewrite decode_move_inv, bill_function_app.
  cbn -[strip_prefix parse_u64 parse_list py_join]. rewrite !strip_prefix_app. cbn [mbind option_bind].
  rewrite !parse_u64_str by done. cbn. by rewrite parse_list_join.
Qed.

Lemma decode_confirm cfg t dir sid key :
  decode_inv cfg (move_inv t dir (cfg_module cfg ++ "::" ++ "bill_splitter::confirm_participants")
                    ["--args"; "string:" ++ sid] key) = Some (CallConfirm sid, key).
Proof.
  rewrite decode_move_inv, bill_function_app. cbn -[strip_prefix]. by rewrite strip_prefix_app.
Qed.

Lemma decode_sign cfg t dir sid key :
  decode_inv cfg (move_inv t dir (cfg_module cfg ++ "::" ++ "bill_splitter::sign_bill_agreement")
                    ["--args"; "string:" ++ sid] key) = Some (CallSign sid, key).
Proof.
  rewrite decode_move_inv, bill_function_app. cbn -[strip_prefix]. by rewrite strip_prefix_app.
Qed.

Lemma decode_pay cfg t dir sid amount key :
  (0 ≤ amount)%Z →
  decode_inv cfg (move_inv t dir (cfg_module cfg ++ "::" ++ "bill_splitter::submit_payment")
                    ["--args"; "string:" ++ sid; "u64:" ++ py_str_int amount] key) =
  Some (CallPay sid amount, key).
Proof.
  intros Ha. rewrite decode_move_inv, bill_function_app. cbn -[strip_prefix parse_u64].
  rewrite !strip_prefix_app. cbn [mbind option_bind]. by rewrite parse_u64_str.
Qed.

Lemma decode_mint cfg t dir amount key a :
  (0 ≤ amount)%Z →
  decode_inv cfg (mint_inv t dir (cfg_module cfg) amount key a) = Some (CallMint (fstr (address a)) amount, key).
Proof.
  intros Ha. unfold mint_inv. rewrite decode_move_inv, bill_function_app. cbn -[strip_prefix parse_u64].
  rewrite !strip_prefix_app. cbn [mbind option_bind]. by rewrite parse_u64_str.
Qed.

(** ** The registry side of a call *)

Open Scope Z_scope.

Lemma chain_state_app cfg sys0 h l :
  chain_state cfg sys0 (h ++ l) = foldl (λ sys inv, (chain_step cfg sys inv).1) (chain_state cfg sys0 h) l.
Proof. unfold chain_state. by rewrite foldl_app. Qed.

(** The modelled CLI always runs. *)
Lemma chain_oracle_ok cfg sys0 h inv : is_ok (chain_oracle cfg sys0 h inv) = true.
Proof.
  unfold chain_oracle. destruct (is_account_create inv); [|done].
  by destruct (cfg_keys cfg !! created h) as [[]|].
Qed.

Lemma move_inv_not_create t dir fid args key : is_account_create (move_inv t dir fid args key) = false.
Proof. reflexivity. Qed.

(** A call other than an account creation answers with its exit status
    on the registry reached so far. *)
Lemma chain_oracle_run cfg sys0 h inv :
  is_account_create inv = false →
  chain_oracle cfg sys0 h inv = Ok (mkCompleted (chain_step cfg (chain_state cfg sys0 h) inv).2 "" "").
Proof. intros Hc. unfold chain_oracle. by rewrite Hc. Qed.

Lemma chain_step_call cfg sys inv c key signer :
  decode_inv cfg inv = Some (c, key) → signer_of cfg key = Some signer →
  chain_step cfg sys inv =
  match run_call cfg signer c sys with
  | Some sys' => (sys', 0) | None => (sys, 1) end.
Proof. intros Hd Hs. unfold chain_step. by rewrite Hd, Hs. Qed.

(** A command other than a creation, on a stored session whose deadline
    has not passed, runs the session's operation. *)
Lemma exec_on now c (sys : Sys) s :
  (∀ x d cr r e, c ≠ CreateSession x d cr r e) →
  sessions sys !! command_sid c = Some s → is_expired now s = false →
  exec now c sys =
  match apply_op now c s (ledger sys) with
  | Ok (s', l', evs, r) => (store (command_sid c) s' l' evs sys, Ok r)
  | Err e => (sys, Err e)
  end.
Proof. intros Hc Hs He. rewrite exec_not_create by done. unfold exec_session. by rewrite Hs, He. Qed.

Lemma not_expired now s : state s ≠ Settled → now < expires_at s → is_expired now s = false.
Proof.
  intros _ Hlt. unfold is_expired. apply andb_false_iff. right. apply Z.leb_gt. lia.
Qed.

Lemma set_participants_twice ps qs s :
  set_participants ps (set_participants qs s) = set_participants ps s.
Proof. by destruct s. Qed.

(** A transfer the payer can afford moves [amount] from the payer to the
    payee and leaves every other balance alone. *)
Lemma balance_transfer (bal : gmap string Z) from to amount :
  from ≠ to → amount ≤ default 0 (bal !! from) →
  ∃ bal', transfer_value bal from to amount = Ok bal' ∧
    default 0 (bal' !! to) = default 0 (bal !! to) + amount ∧
    (∀ x, x ≠ from → x ≠ to → bal' !! x = bal !! x).
Proof.
  intros Hne Hle. unfold transfer_value, balance_ledger. rewrite decide_False by lia.
  eexists. split; [reflexivity|]. split.
  - by rewrite lookup_insert_eq, lookup_insert_ne by done.
  - intros x H1 H2. by rewrite !lookup_insert_ne by done.
Qed.

Section AddLoop.
Context (now : Z) (sid : string).

(** Adding fresh participants to a draft session, one command each. *)
Lemma add_loop (sys : Sys) s addrs names owed :
  sessions sys !! sid = Some s → state s = Draft → now < expires_at s → session_wf s →
  NoDup ((identity <$> participants s) ++ addrs) → Forall (λ o, 0 < o) owed →
  length addrs = length owed → (length (participants s) + length addrs ≤ 100)%nat →
  ∃ sys', exec_all now (add_commands sid addrs names owed) sys = Some sys' ∧ ledger sys' = ledger sys ∧
    sessions sys' !! sid = Some (set_participants (participants s ++ new_participants addrs names owed) s) ∧
    session_wf (set_participants (participants s ++ new_participants addrs names owed) s).
Proof.
  revert sys s names owed.
  induction addrs as [|a addrs IH]; intros sys s names [|o owed] Hs Hst Hexp Hwf Hnd Ho Hlen Hcap;
    try discriminate Hlen.
  - exists sys. simpl. rewrite app_nil_r. destruct s. by split_and!.
  - apply Forall_cons in Ho as [Ho1 Ho]. injection Hlen as Hlen.
    assert (find_participant a s = None) as Hf.
    { apply find_by_None. intros Hin. apply NoDup_app in Hnd as (_ & Hd & _). apply (Hd a); [done|by left]. }
    set (s1 := set_participants (participants s ++ [mkParticipant a (default "" (head names)) o false 0]) s).
    assert (add_participant a (default "" (head names)) o s = Ok s1) as Hadd.
    { unfold add_participant. rewrite decide_False by congruence. rewrite decide_False by lia.
      rewrite Hf. rewrite decide_False; [done|]. unfold participant_count, MAX_PARTICIPANTS. simpl in Hcap. lia. }
    cbn [add_commands exec_all]. rewrite (exec_on now _ _ s) by (done || by apply not_expired; [rewrite Hst|]).
    cbn [apply_op]. rewrite Hadd. cbv iota beta.
    assert (sessions (store sid s1 (ledger sys) [] sys) !! sid = Some s1) as Hs1
      by (unfold store; simpl; by rewrite lookup_insert_eq).
    assert (session_wf s1) as Hwf1 by (by eapply add_participant_wf).
    assert (NoDup ((identity <$> participants s1) ++ addrs)) as Hnd1.
    { subst s1. cbn [participants set_participants]. rewrite fmap_app, <-app_assoc. simpl.
      done. }
    assert ((length (participants s1) + length addrs ≤ 100)%nat) as Hcap1.
    { subst s1. cbn [participants set_participants]. rewrite length_app. simpl in *. lia. }
    destruct (IH (store sid s1 (ledger sys) [] sys) s1 (tail names) owed Hs1 Hst Hexp Hwf1 Hnd1 Ho Hlen Hcap1)
      as (sys' & Hex & Hl & Hs' & Hwf').
    exists sys'. cbn [command_sid]. rewrite Hex. subst s1. rewrite set_participants_twice in Hs', Hwf'.
    cbn [participants set_participants] in Hs', Hwf'. rewrite <-app_assoc in Hs', Hwf'. by split_and!.
Qed.

End AddLoop.

(** The effect of an approval that the session accepts. *)
Lemma approval_effect now a s p :
  find_participant a s = Some p → has_approved p = false → state s = AwaitingApproval →
  ∃ s1 evs, record_approval now a s = Ok (s1, evs) ∧
    participants s1 = update_by identity a mark_approved (participants s) ∧
    approvals_count s1 = approvals_count s + 1 ∧
    state s1 = (if decide (required_signatures s ≤ approvals_count s + 1)
                then AwaitingPayment else AwaitingApproval) ∧
    total_amount s1 = total_amount s ∧ creator s1 = creator s ∧ expires_at s1 = expires_at s ∧
    required_signatures s1 = required_signatures s.
Proof.
  intros Hf Hp Hst. unfold record_approval. rewrite Hf, Hp, decide_False by congruence.
  unfold quorum_reached. cbn [required_signatures approvals_count].
  destruct (Z.leb_spec (required_signatures s) (approvals_count s + 1)).
  - rewrite decide_True by lia. by eexists _, _.
  - rewrite decide_False by lia. eexists _, _. split_and!; try reflexivity. simpl. by rewrite Hst.
Qed.

(** The effect of a payment that the session and the ledger accept. *)
Lemma payment_effect now a amount s p (bal bal' : gmap string Z) :
  find_participant a s = Some p → 0 < amount → state s = AwaitingPayment →
  transfer_value bal a (creator s) amount = Ok bal' →
  ∃ o, record_payment now a amount s bal = Ok o ∧ po_ledger o = bal' ∧
    participants (po_session o) = update_by identity a (add_paid amount) (participants s) ∧
    payments_total (po_session o) = payments_total s + amount ∧
    state (po_session o) = (if decide (total_amount s ≤ payments_total s + amount)
                            then Settled else AwaitingPayment) ∧
    total_amount (po_session o) = total_amount s ∧ creator (po_session o) = creator s ∧
    expires_at (po_session o) = expires_at s.
Proof.
  intros Hf Ha Hst Ht. unfold record_payment. rewrite Hf, decide_False, decide_False, Ht by (lia || congruence).
  cbn [total_amount payments_total].
  destruct (Z.leb_spec (total_amount s) (payments_total s + amount)).
  - rewrite decide_True by lia. by eexists.
  - rewrite decide_False by lia. eexists. split_and!; try reflexivity. simpl. by rewrite Hst.
Qed.

(** A single accepted command as a transaction. *)
Lemma exec_all_one now c (sys : Sys) s s' l' evs r :
  (∀ x d cr q e, c ≠ CreateSession x d cr q e) →
  sessions sys !! command_sid c = Some s → is_expired now s = false →
  apply_op now c s (ledger sys) = Ok (s', l', evs, r) →
  exec_all now [c] sys = Some (store (command_sid c) s' l' evs sys).
Proof. intros Hc Hs He Ha. simpl. rewrite (exec_on now c sys s), Ha by done. done. Qed.

Lemma store_lookup sid s l evs (sys : Sys) : sessions (store sid s l evs sys) !! sid = Some s.
Proof. unfold store. simpl. by rewrite lookup_insert_eq. Qed.

Lemma find_participant_elem a s :
  a ∈ identity <$> participants s → ∃ p, find_participant a s = Some p.
Proof.
  intros Hin. destruct (find_participant a s) as [p|] eqn:Hf; [by eexists|].
  by apply find_by_None in Hf.
Qed.

(** ** Creation and confirmation *)

Lemma sumZ_replicate {A} (f : A → Z) m x : sumZ f (replicate m x) = Z.of_nat m * f x.
Proof. induction m as [|m IH]; [done|]. cbn [replicate]. rewrite sumZ_cons, IH. lia. Qed.

(** The shares of [total] add up to it. *)
Lemma sum_shares total n : (0 < n)%nat → sumZ id (shares total n) = total.
Proof.
  destruct n as [|m]; [lia|]. intros _. cbn [shares]. rewrite sumZ_cons, sumZ_replicate.
  unfold id. pose proof (Z.div_mod total (Z.of_nat (S m)) ltac:(lia)). lia.
Qed.

Lemma shares_length total n : length (shares total n) = n.
Proof. destruct n; [done|]. simpl. by rewrite length_replicate. Qed.

Lemma shares_pos total n : (0 < n)%nat → Z.of_nat n ≤ total → Forall (λ o, 0 < o) (shares total n).
Proof.
  destruct n as [|m]; [lia|]. intros _ Hle.
  assert (0 < total `div` Z.of_nat (S m)) by (apply Z.div_str_pos; lia).
  pose proof (Z.mod_pos_bound total (Z.of_nat (S m)) ltac:(lia)).
  constructor; [lia|]. apply Forall_replicate. lia.
Qed.

Section NewParticipants.
Context (addrs names : list string) (owed : list Z).
Hypothesis Hlen : length addrs = length owed.

Lemma new_participants_ids : identity <$> new_participants addrs names owed = addrs.
Proof.
  revert names owed Hlen. induction addrs as [|a l IH]; intros names [|o os] H; try done.
  simpl. f_equal. apply IH. simpl in H. lia.
Qed.

Lemma new_participants_owed : sumZ owed_amount (new_participants addrs names owed) = sumZ id owed.
Proof.
  revert names owed Hlen. induction addrs as [|a l IH]; intros names [|o os] H; try done.
  cbn [new_participants]. rewrite !sumZ_cons, IH by (simpl in H; lia). done.
Qed.

Lemma new_participants_fresh :
  Forall (λ p, has_approved p = false ∧ paid_amount p = 0) (new_participants addrs names owed).
Proof.
  clear Hlen. revert names owed. induction addrs as [|a l IH]; intros names [|o os]; constructor; done.
Qed.

End NewParticipants.

(** [create_bill_session] creates the session and adds one participant
    per address, owing its share. *)
Lemma create_call cfg (sys : Sys) sid desc signer req addrs names total :
  sessions sys !! sid = None → 0 < cfg_lifetime cfg → NoDup addrs →
  (0 < length addrs ≤ 100)%nat → Z.of_nat (length addrs) ≤ total →
  let s := set_participants (new_participants addrs names (shares total (length addrs)))
             (create_session sid desc signer req (cfg_now cfg) (cfg_now cfg + cfg_lifetime cfg)) in
  ∃ sys', exec_all (cfg_now cfg) (call_commands cfg signer (CallCreate sid total desc addrs names req)) sys
          = Some sys' ∧ ledger sys' = ledger sys ∧ sessions sys' !! sid = Some s ∧ session_wf s.
Proof.
  intros Hnone Hlife Hnd Hn Htot s. cbn [call_commands exec_all exec]. rewrite Hnone.
  edestruct (add_loop (cfg_now cfg) sid (store sid (create_session sid desc signer req (cfg_now cfg)
               (cfg_now cfg + cfg_lifetime cfg)) (ledger sys) [SessionCreated sid (cfg_now cfg)] sys)
               (create_session sid desc signer req (cfg_now cfg) (cfg_now cfg + cfg_lifetime cfg))
               addrs names (shares total (length addrs)))
    as (sys' & Hx & Hl & Hs & Hwf);
    [apply store_lookup|done|simpl; lia|apply create_session_wf|done|by apply shares_pos; lia|
     by rewrite shares_length|simpl; lia|].
  exists sys'. by rewrite Hx, Hl.
Qed.

(** [confirm_participants] on a well-formed draft with at least two
    participants and a threshold within their number. *)
Lemma confirm_call now (sys : Sys) sid s :
  sessions sys !! sid = Some s → session_wf s → state s = Draft → now < expires_at s →
  2 ≤ participant_count s → 1 ≤ required_signatures s ≤ participant_count s →
  ∃ s' evs, exec_all now [ConfirmSession sid] sys = Some (store sid s' (ledger sys) evs sys) ∧
    session_wf s' ∧ state s' = AwaitingApproval ∧ total_amount s' = total_owed s ∧
    participants s' = participants s ∧ approvals_count s' = approvals_count s ∧
    payments_total s' = payments_total s ∧ required_signatures s' = required_signatures s ∧
    creator s' = creator s ∧ expires_at s' = expires_at s.
Proof.
  intros Hs Hwf Hst Hexp Hn Hreq.
  assert (confirm_session now s = Ok (mkSession (session_id s) (description s) (creator s) (total_owed s)
            (participants s) (required_signatures s) AwaitingApproval (created_at s) (expires_at s)
            (approvals_count s) (payments_total s), [SessionConfirmed (session_id s) now (total_owed s)]))
    as Hc.
  { unfold confirm_session. rewrite !decide_False by (lia || congruence). done. }
  do 2 eexists. split.
  - apply (exec_all_one now (ConfirmSession sid) sys s _ _ _ Done);
      [done|done|by apply not_expired; [rewrite Hst|]|]. simpl. by rewrite Hc.
  - split; [by eapply confirm_session_wf|done].
Qed.

Lemma Forall2_zip_Forall {A B} (P : A → B → Prop) l k :
  Forall2 P l k → Forall (λ ab, P ab.1 ab.2) (zip l k).
Proof. induction 1; constructor; done. Qed.

Section Loops.
Context (cfg : ChainConfig) (t : Tester) (dir : list string) (sid : string).

Local Abbreviation now := (cfg_now cfg).
Local Abbreviation step := (λ (sys : Sys) inv, (chain_step cfg sys inv).1).
Local Abbreviation sign_inv k :=
  (move_inv t dir (cfg_module cfg ++ "::" ++ "bill_splitter::sign_bill_agreement")
     ["--args"; "string:" ++ sid] k).
Local Abbreviation pay_inv amount k :=
  (move_inv t dir (cfg_module cfg ++ "::" ++ "bill_splitter::submit_payment")
     ["--args"; "string:" ++ sid; "u64:" ++ py_str_int amount] k).
Local Abbreviation create_call_inv sc addrs names k :=
  (move_inv t dir (cfg_module cfg ++ "::" ++ "bill_splitter::create_bill_session")
     (create_args sc sid (py_join "," addrs) names []) k).
Local Abbreviation confirm_inv k :=
  (move_inv t dir (cfg_module cfg ++ "::" ++ "bill_splitter::confirm_participants")
     ["--args"; "string:" ++ sid] k).

(** The signature loop: each signer approves once, and the last
    signature reaches the quorum. *)
Lemma sign_loop (sys : Sys) s kas :
  sessions sys !! sid = Some s → session_wf s → state s = AwaitingApproval → now < expires_at s →
  Forall (λ ka, signer_of cfg ka.1 = Some ka.2) kas → NoDup kas.*2 →
  (∀ a, a ∈ kas.*2 → ∃ p, find_participant a s = Some p ∧ has_approved p = false) →
  approvals_count s + Z.of_nat (length kas) = required_signatures s → kas ≠ [] →
  ∃ s', sessions (foldl step sys ((λ k, sign_inv k) <$> kas.*1)) !! sid = Some s' ∧
    ledger (foldl step sys ((λ k, sign_inv k) <$> kas.*1)) = ledger sys ∧
    session_wf s' ∧ state s' = AwaitingPayment ∧
    identity <$> participants s' = identity <$> participants s ∧
    aggregate_paid s' = aggregate_paid s ∧ total_amount s' = total_amount s ∧
    creator s' = creator s ∧ expires_at s' = expires_at s.
Proof.
  revert sys s. induction kas as [|[k a] kas IH]; intros sys s Hs Hwf Hst Hexp Hsig Hnd Hfresh Hcount Hne;
    [done|].
  apply Forall_cons in Hsig as [Hka Hsig]. cbn [fst snd] in Hka.
  cbn [fmap list_fmap fst snd] in *. apply NoDup_cons in Hnd as [Ha Hnd].
  destruct (Hfresh a) as (p & Hf & Hp); [by left|].
  destruct (approval_effect now a s p Hf Hp Hst)
    as (s1 & evs & Hrec & Hps & Hcnt & Hst1 & Htot & Hcr & Hex1 & Hreq).
  assert (exec_all now [RecordApproval sid a] sys = Some (store sid s1 (ledger sys) evs sys)) as Hx.
  { apply (exec_all_one now (RecordApproval sid a) sys s s1 (ledger sys) evs Done); [done|done|by apply not_expired; [rewrite Hst|]|].
    simpl. by rewrite Hrec. }
  cbn [foldl]. rewrite (chain_step_call cfg sys _ (CallSign sid) k a (decode_sign cfg t dir sid k) Hka).
  cbn [run_call call_commands]. rewrite Hx. cbn [fst].
  assert (session_wf s1) as Hwf1 by (by eapply record_approval_wf).
  assert (identity <$> participants s1 = identity <$> participants s) as Hid.
  { rewrite Hps. by apply update_by_keys. }
  assert (aggregate_paid s1 = aggregate_paid s) as Hagg.
  { unfold aggregate_paid. rewrite Hps. apply (approve_counters a (participants s) p); [apply Hwf|done|done]. }
  destruct kas as [|ka' kas'].
  - exists s1. cbn [foldl fmap list_fmap]. rewrite store_lookup. simpl in Hcount.
    rewrite decide_True in Hst1 by lia. by split_and!.
  - rewrite decide_False in Hst1 by (simpl in Hcount; lia).
    destruct (IH (store sid s1 (ledger sys) evs sys) s1) as (s' & Hs' & Hl' & Hrest);
      [apply store_lookup|done|done|congruence|done|done| |simpl in *; lia|done|].
    + intros b Hb. destruct (Hfresh b) as (q & Hq & Hq'); [by right|].
      exists q. split; [|done]. unfold find_participant. rewrite Hps.
      rewrite find_by_update_by_ne; [done|done|]. intros ->. by apply Ha.
    + exists s'. rewrite Hs', Hl'. simpl. destruct Hrest as (? & ? & ? & ? & ? & ? & ?).
      split_and!; congruence.
Qed.

(** The payment loop: each payer pays [amount] once, and no payment
    but the last can reach the total.  The payments add up, the session
    is Settled when they reach the total and still awaits payment
    otherwise, and the creator receives every payment. *)
Lemma pay_loop (sys : Sys) s amount kas :
  sessions sys !! sid = Some s → session_wf s → state s = AwaitingPayment → now < expires_at s →
  Forall (λ ka, signer_of cfg ka.1 = Some ka.2) kas → NoDup kas.*2 → creator s ∉ kas.*2 →
  (∀ a, a ∈ kas.*2 → a ∈ identity <$> participants s) →
  (∀ a, a ∈ kas.*2 → amount ≤ default 0 (ledger sys !! a)) → 0 < amount →
  payments_total s + amount * Z.of_nat (length kas) < total_amount s + amount → kas ≠ [] →
  ∃ s', sessions (foldl step sys ((λ k, pay_inv amount k) <$> kas.*1)) !! sid = Some s' ∧
    session_wf s' ∧
    state s' = (if decide (total_amount s ≤ payments_total s + amount * Z.of_nat (length kas))
                then Settled else AwaitingPayment) ∧
    aggregate_paid s' = payments_total s + amount * Z.of_nat (length kas) ∧
    total_amount s' = total_amount s ∧ creator s' = creator s ∧
    default 0 (ledger (foldl step sys ((λ k, pay_inv amount k) <$> kas.*1)) !! creator s) =
      default 0 (ledger sys !! creator s) + amount * Z.of_nat (length kas).
Proof.
  revert sys s. induction kas as [|[k a] kas IH];
    intros sys s Hs Hwf Hst Hexp Hsig Hnd Hcr Hin Hbal Hamt Hsum Hne; [done|].
  apply Forall_cons in Hsig as [Hka Hsig]. cbn [fst snd] in Hka.
  cbn [fmap list_fmap fst snd] in *. apply NoDup_cons in Hnd as [Ha Hnd].
  destruct (find_participant_elem a s) as [p Hf]; [apply Hin; by left|].
  destruct (balance_transfer (ledger sys) a (creator s) amount) as (bal' & Ht & Hto & Hother);
    [intros ->; apply Hcr; by left|apply Hbal; by left|].
  destruct (payment_effect now a amount s p (ledger sys) bal' Hf Hamt Hst Ht)
    as (o & Hrec & Hl & Hps & Hpt & Hst1 & Htot & Hcr1 & Hex1).
  assert (exec_all now [RecordPayment sid a amount] sys =
          Some (store sid (po_session o) bal' (po_events o) sys)) as Hx.
  { rewrite <-Hl. apply (exec_all_one now (RecordPayment sid a amount) sys s _ _ _ (Paid (po_overpaid o)));
      [done|done|by apply not_expired; [rewrite Hst|]|]. simpl. by rewrite Hrec. }
  cbn [foldl]. rewrite (chain_step_call cfg sys _ (CallPay sid amount) k a
                          (decode_pay cfg t dir sid amount k ltac:(lia)) Hka).
  cbn [run_call call_commands]. rewrite Hx. cbn [fst].
  assert (session_wf (po_session o)) as Hwf1 by (by eapply record_payment_wf).
  assert (payments_total s + amount * Z.of_nat (length ((k, a) :: kas)) =
          payments_total (po_session o) + amount * Z.of_nat (length kas)) as Hn by (rewrite Hpt; simpl; lia).
  rewrite Hn in Hsum |- *.
  destruct kas as [|ka' kas'].
  - exists (po_session o). cbn [foldl fmap list_fmap]. rewrite store_lookup, Hpt in *.
    change (Z.of_nat (length [])) with 0 in *. rewrite Z.mul_0_r, Z.add_0_r in *.
    split_and!; try done. 
    + by rewrite <-(wf_payments _ Hwf1), Hpt.
    + simpl. lia.
  - rewrite decide_False in Hst1 by (simpl in Hsum; lia).
    destruct (IH (store sid (po_session o) bal' (po_events o) sys) (po_session o))
      as (s' & Hs' & Hrest); [apply store_lookup|done|done|by rewrite Hex1|done|done| | | | |lia|done|].
    + rewrite Hcr1. intros Hc. apply Hcr. by right.
    + intros b Hb. rewrite Hps, update_by_keys by done. apply Hin. by right.
    + intros b Hb. simpl. rewrite Hother; [apply Hbal; by right|intros ->; by apply Ha|].
      intros ->. apply Hcr. by right.
    + done.
    + exists s'. rewrite Hs'. destruct Hrest as (? & Hst' & Hagg & Htot' & Hcr' & Hled).
      rewrite Hcr1 in Hled. rewrite Htot in Hst'. simpl in Hled |- *. split_and!; try done; try congruence.
      rewrite Hled, Hto. simpl. lia.
Qed.

(** A confirmed session whose participants are exactly the signers,
    none of them approved or paid yet, with a threshold of all of them,
    receives every signature and then one payment of [amount] from each:
    it is Settled exactly when the payments reach the total, and the
    creator receives all of them. *)
Lemma sign_then_pay (sys : Sys) s amount kas :
  sessions sys !! sid = Some s → session_wf s → state s = AwaitingApproval → now < expires_at s →
  Forall (λ ka, signer_of cfg ka.1 = Some ka.2) kas → NoDup kas.*2 → creator s ∉ kas.*2 →
  identity <$> participants s = kas.*2 →
  Forall (λ p, has_approved p = false ∧ paid_amount p = 0) (participants s) →
  approvals_count s = 0 → required_signatures s = Z.of_nat (length kas) →
  (∀ a, a ∈ kas.*2 → amount ≤ default 0 (ledger sys !! a)) → 0 < amount →
  amount * Z.of_nat (length kas) < total_amount s + amount → kas ≠ [] →
  ∃ s', sessions (foldl step sys (((λ k, sign_inv k) <$> kas.*1) ++ ((λ k, pay_inv amount k) <$> kas.*1)))
          !! sid = Some s' ∧
    session_wf s' ∧
    state s' = (if decide (total_amount s ≤ amount * Z.of_nat (length kas)) then Settled else AwaitingPayment) ∧
    aggregate_paid s' = amount * Z.of_nat (length kas) ∧
    total_amount s' = total_amount s ∧ creator s' = creator s ∧
    default 0 (ledger (foldl step sys (((λ k, sign_inv k) <$> kas.*1) ++ ((λ k, pay_inv amount k) <$> kas.*1)))
                 !! creator s) =
      default 0 (ledger sys !! creator s) + amount * Z.of_nat (length kas).
Proof.
  intros Hs Hwf Hst Hexp Hsig Hnd Hcr Hids Hnew Happ Hreq Hbal Hamt Hsum Hne.
  destruct (sign_loop sys s kas) as (s1 & Hs1 & Hl1 & Hwf1 & Hst1 & Hid1 & Hagg1 & Htot1 & Hcr1 & Hex1);
    [done|done|done|done|done|done| |lia|done|].
  { intros a Ha. rewrite <-Hids in Ha. destruct (find_participant_elem a s Ha) as [p Hp].
    exists p. split; [done|]. apply find_by_Some in Hp as [Hin _].
    eapply Forall_forall in Hnew; [apply Hnew|exact Hin]. }
  assert (payments_total s1 = 0) as Hpt1.
  { rewrite (wf_payments _ Hwf1), Hagg1. apply sumZ_zero.
    eapply Forall_impl; [exact Hnew|]. intros p [_ Hp]. exact Hp. }
  rewrite foldl_app.
  destruct (pay_loop (foldl step sys ((λ k, sign_inv k) <$> kas.*1)) s1 amount kas)
    as (s2 & Hs2 & Hwf2 & Hst2 & Hagg2 & Htot2 & Hcr2 & Hled);
    [done|done|done|congruence|done|done|congruence| |by rewrite Hl1|done|lia|done|].
  - intros a Ha. by rewrite Hid1, Hids.
  - rewrite Hpt1, Z.add_0_l, Htot1 in *. rewrite Hcr1 in Hled. rewrite Hled, Hl1.
    exists s2. split_and!; congruence.
Qed.

(** The calls of a scenario, as the registry runs them: the creation
    succeeds, and after the confirmation, every signature and every
    payment of [total / n], the session and the creator have received
    [n * (total / n)], the total less its remainder modulo [n]; the
    session is Settled exactly when that remainder is zero. *)
Lemma scenario_run (sys : Sys) sc mk merchant addrs ks names :
  signer_of cfg mk = Some merchant → Forall2 (λ k a, signer_of cfg k = Some a) ks addrs →
  NoDup addrs → merchant ∉ addrs → Forall (λ a, a ≠ "" ∧ py_in "," a = false) addrs →
  (2 ≤ length addrs ≤ 100)%nat → sc_required_signatures sc = Z.of_nat (length addrs) →
  Z.of_nat (length addrs) ≤ sc_total_amount sc →
  0 < cfg_lifetime cfg →
  sessions sys !! sid = None →
  (∀ a, a ∈ addrs → sc_total_amount sc `div` Z.of_nat (length addrs) ≤ default 0 (ledger sys !! a)) →
  (chain_step cfg sys (create_call_inv sc addrs names mk)).2 = 0 ∧
  ∃ s', sessions (foldl step sys ([create_call_inv sc addrs names mk; confirm_inv mk] ++
           ((λ k, sign_inv k) <$> ks) ++
           ((λ k, pay_inv (sc_total_amount sc `div` Z.of_nat (length addrs)) k) <$> ks))) !! sid = Some s' ∧
    state s' = (if decide (sc_total_amount sc `mod` Z.of_nat (length addrs) = 0)
                then Settled else AwaitingPayment) ∧
    total_amount s' = sc_total_amount sc ∧
    aggregate_paid s' = sc_total_amount sc - sc_total_amount sc `mod` Z.of_nat (length addrs) ∧
    creator s' = merchant ∧
    default 0 (ledger (foldl step sys ([create_call_inv sc addrs names mk; confirm_inv mk] ++
           ((λ k, sign_inv k) <$> ks) ++
           ((λ k, pay_inv (sc_total_amount sc `div` Z.of_nat (length addrs)) k) <$> ks))) !! merchant) =
      default 0 (ledger sys !! merchant) + (sc_total_amount sc - sc_total_amount sc `mod` Z.of_nat (length addrs)).
Proof.
  intros Hm Hks Hnd Hmer Haddr Hn Hreq Htot Hlife Hnone Hbal.
  destruct (create_call cfg sys sid (sc_description sc) merchant (sc_required_signatures sc) addrs
              (parse_list (py_join "," names)) (sc_total_amount sc)) as (sys1 & Hx1 & Hl1 & Hs1 & Hwf1); [done|done|done|lia|done|].
  assert (chain_step cfg sys (create_call_inv sc addrs names mk) = (sys1, 0)) as Hc.
  { rewrite (chain_step_call cfg sys _
      (CallCreate sid (sc_total_amount sc) (sc_description sc) addrs (parse_list (py_join "," names)) (sc_required_signatures sc))
      mk merchant); [by cbn [run_call]; rewrite Hx1|apply decode_create|done];
      [lia|lia|by destruct addrs; [simpl in Hn; lia|]|done]. }
  split; [by rewrite Hc|]. cbn [app foldl]. rewrite Hc. cbn [fst].
  assert (length (new_participants addrs (parse_list (py_join "," names)) (shares (sc_total_amount sc) (length addrs))) = (length addrs)) as Hlnp.
  { rewrite <-(length_fmap identity), new_participants_ids; [done|by rewrite shares_length]. }
  destruct (confirm_call (cfg_now cfg) sys1 sid _ Hs1 Hwf1)
    as (s2 & evs & Hx2 & Hwf2 & Hst2 & Htot2 & Hps2 & Happ2 & _ & Hreq2 & Hcr2 & Hex2);
    [done|simpl; lia|unfold participant_count; simpl; rewrite Hlnp; lia|unfold participant_count; simpl; rewrite Hlnp; lia|].
  rewrite (chain_step_call cfg sys1 _ _ mk merchant (decode_confirm cfg t dir sid mk) Hm). cbn [run_call call_commands].
  rewrite Hx2. cbn [fst].
  assert (length ks = (length addrs)) as Hlks by (by apply Forall2_length in Hks).
  assert (((sc_total_amount sc) `div` Z.of_nat (length addrs)) * Z.of_nat (length (zip ks addrs)) =
          sc_total_amount sc - sc_total_amount sc `mod` Z.of_nat (length addrs)) as HT.
  { rewrite length_zip, Hlks, Nat.min_id. pose proof (Z.div_mod (sc_total_amount sc) (Z.of_nat (length addrs)) ltac:(lia)). lia. }
  pose proof (Z.mod_pos_bound (sc_total_amount sc) (Z.of_nat (length addrs)) ltac:(lia)) as Hmodb.
  assert (total_amount s2 = (sc_total_amount sc)) as HT2.
  { rewrite Htot2. unfold total_owed. simpl. rewrite new_participants_owed by (by rewrite shares_length).
    apply sum_shares. lia. }
  pose proof (fst_zip ks addrs ltac:(lia)) as Hfst. pose proof (snd_zip ks addrs ltac:(lia)) as Hsnd.
  rewrite <-Hfst.
  destruct (sign_then_pay (store sid s2 (ledger sys1) evs sys1) s2 ((sc_total_amount sc) `div` Z.of_nat (length addrs)) (zip ks addrs))
    as (s' & Hs' & _ & Hst' & Hagg' & Htot' & Hcr' & Hled');
    [apply store_lookup|done|done|simpl in *; lia|exact (Forall2_zip_Forall _ ks addrs Hks)|by rewrite Hsnd|
     rewrite Hcr2, Hsnd; exact Hmer|rewrite Hps2, Hsnd; simpl; rewrite new_participants_ids; [done|by rewrite shares_length]|
     rewrite Hps2; simpl; apply new_participants_fresh|by rewrite Happ2|
     by rewrite Hreq2, length_zip; simpl; lia|
     intros a Ha; simpl; rewrite Hl1; apply Hbal; by rewrite <-Hsnd|
     apply Z.div_str_pos; lia|rewrite HT, HT2; pose proof (Z.div_str_pos (sc_total_amount sc) (Z.of_nat (length addrs)) ltac:(lia)); lia|by destruct ks, addrs; simpl in *; try lia|].
  rewrite Hcr2 in Hcr', Hled'. cbn [creator set_participants create_session] in Hcr', Hled'.
  change (ledger (store sid s2 (ledger sys1) evs sys1)) with (ledger sys1) in Hled'.
  rewrite HT, HT2 in *. exists s'. split_and!; try done.
  - rewrite Hst'. destruct (decide (_ = 0)); [rewrite decide_True|rewrite decide_False]; done || lia.
  - by rewrite Hled', Hl1.
Qed.

(** A creation whose session id is taken exits with status 1 and leaves
    the registry as it was, whatever account signs it. *)
Lemma create_existing (sys : Sys) sc addrs names mk s0 :
  0 ≤ sc_total_amount sc → 0 ≤ sc_required_signatures sc →
  addrs ≠ [] → Forall (λ a, a ≠ "" ∧ py_in "," a = false) addrs →
  sessions sys !! sid = Some s0 →
  chain_step cfg sys (create_call_inv sc addrs names mk) = (sys, 1).
Proof.
  intros Ht Hr Hne Ha Hs. unfold chain_step. rewrite decode_create by done.
  destruct (signer_of cfg mk); [|done]. cbn [run_call call_commands exec_all exec]. by rewrite Hs.
Qed.

End Loops.

Section Accounts.
Context (cfg : ChainConfig) (sys0 : Sys) (t : Tester).

Lemma created_create h dir : created (h ++ [account_create_inv t dir]) = S (created h).
Proof. unfold created. rewrite List.filter_app, length_app. simpl. lia. Qed.

Lemma created_faucet h dir a : created (h ++ [faucet_inv t dir a]) = created h.
Proof. unfold created. rewrite List.filter_app, length_app. simpl. lia. Qed.

Lemma create_account_eq w :
  create_account t w = (oracle w (trace w) (account_create_inv t (cwd w)), after_run w (account_create_inv t (cwd w))).
Proof. reflexivity. Qed.

(** A faucet call runs, changes nothing and exits with status 0. *)
Lemma fund_eq a w :
  oracle w = chain_oracle cfg sys0 →
  _fund_from_faucet t (Some a) w = (Ok tt, after_run w (faucet_inv t (cwd w) a)).
Proof.
  intros Ho.
  assert (oracle w (trace w) (faucet_inv t (cwd w) a) = Ok (mkCompleted 0 "" "")) as Hans.
  { rewrite Ho, chain_oracle_run by reflexivity. unfold chain_step.
    by change (decode_inv cfg _) with (@None (Call * string)). }
  unfold _fund_from_faucet, run_args. simpl. cbv [mbind py_bind subprocess_run].
  change (oracle w (trace w) _) with (oracle w (trace w) (faucet_inv t (cwd w) a)). by rewrite Hans.
Qed.

(** The creation loop receives the accounts of [cfg_keys] not yet
    handed out, in order, parses each back, funds it and appends it;
    once they are all handed out each creation fails and is skipped. *)
Lemma create_loop_chain n acc w :
  oracle w = chain_oracle cfg sys0 →
  Forall (λ ka, readable_account ka.2 ka.1) (drop (created (trace w)) (cfg_keys cfg)) →
  create_loop t n acc w =
  (Ok (acc ++ (account_of <$> take n (drop (created (trace w)) (cfg_keys cfg))))%list,
   after_runs w (creation_calls t (cwd w) (take n (drop (created (trace w)) (cfg_keys cfg))) n)).
Proof.
  revert acc w. induction n as [|n IH]; intros acc w Ho Hr.
  { cbn. by rewrite app_nil_r, after_runs_nil. }
  cbn [create_loop]. cbv [mbind py_bind]. rewrite create_account_eq, Ho.
  unfold chain_oracle at 1. change (is_account_create (account_create_inv t (cwd w))) with true. cbv iota.
  set (w1 := after_run w (account_create_inv t (cwd w))).
  assert (oracle w1 = chain_oracle cfg sys0) as Ho1 by exact Ho.
  assert (created (trace w1) = S (created (trace w))) as Hc1 by apply created_create.
  destruct (cfg_keys cfg !! created (trace w)) as [[k a]|] eqn:Hk.
  - rewrite (drop_S _ _ _ Hk) in Hr |- *. apply Forall_cons in Hr as [Hka Hr]. cbn [fst snd] in Hka.
    change (succeeded {| returncode := 0; stdout := account_output a k; stderr := "" |}) with true.
    cbv iota beta. cbn [stdout]. rewrite parse_account_output_eq by exact Hka. cbn [address].
    rewrite (fund_eq a w1 Ho1). cbn [slice10]. cbv [mret py_ret].
    set (w2 := after_run w1 (faucet_inv t (cwd w1) a)).
    assert (created (trace w2) = S (created (trace w))) as Hc2 by (unfold w2, after_run; cbn [trace]; rewrite created_faucet; exact Hc1).
    rewrite IH by (try exact Ho1; by rewrite Hc2).
    rewrite Hc2. cbn [take fmap list_fmap]. rewrite <-app_assoc.
    unfold w2, w1. rewrite !after_run_runs, !after_runs_app. done.
  - pose proof (lookup_ge_None_1 _ _ Hk) as Hge. rewrite drop_ge in Hr |- * by done.
    change (succeeded {| returncode := 1; stdout := ""; stderr := "" |}) with false. cbv iota.
    rewrite IH by (try exact Ho1; rewrite Hc1, drop_ge by lia; constructor).
    rewrite Hc1, drop_ge, !take_nil by lia. unfold creation_calls.
    cbn [fmap list_fmap List.concat app length cwd after_run]. rewrite app_nil_r, !Nat.sub_0_r.
    unfold w1. by rewrite after_runs_cons.
Qed.

(** Calls the bill model does not read leave the registry as it is. *)
Lemma chain_state_inert (sys : Sys) l :
  Forall (λ inv, decode_inv cfg inv = None) l → foldl (λ sys inv, (chain_step cfg sys inv).1) sys l = sys.
Proof. induction 1 as [|inv l Hinv _ IH]; [done|]. cbn [foldl]. unfold chain_step at 2. by rewrite Hinv. Qed.

Lemma creation_calls_inert dir kas n :
  Forall (λ inv, decode_inv cfg inv = None) (creation_calls t dir kas n).
Proof.
  unfold creation_calls. apply Forall_app. split.
  - induction kas as [|ka kas IH]; [constructor|]. cbn [fmap list_fmap List.concat].
    repeat constructor. exact IH.
  - apply Forall_replicate. reflexivity.
Qed.

(** C25 create_test_accounts_chain: against the modelled CLI,
    [create_test_accounts(count)] makes [count] creation calls; the
    accounts not yet handed out come back in order, each parsed from the
    CLI's output into its address and key and funded right after its
    creation; the creations past the last configured account fail and
    are skipped; the list returned is the one stored in
    [self.test_accounts]. *)
Theorem create_test_accounts_chain count w :
  oracle w = chain_oracle cfg sys0 →
  Forall (λ ka, readable_account ka.2 ka.1) (drop (created (trace w)) (cfg_keys cfg)) →
  create_test_accounts count t w =
  (Ok (account_of <$> take (Z.to_nat count) (drop (created (trace w)) (cfg_keys cfg)),
       mkTester (network t) (base_url t) (admin_account t) (merchant_account t)
         (account_of <$> take (Z.to_nat count) (drop (created (trace w)) (cfg_keys cfg)))),
   after_runs w (creation_calls t (cwd w) (take (Z.to_nat count) (drop (created (trace w)) (cfg_keys cfg)))
                   (Z.to_nat count))).
Proof. intros Ho Hr. unfold create_test_accounts. cbv [mbind py_bind]. by rewrite create_loop_chain. Qed.

End Accounts.

Section Main.
Context (cfg : ChainConfig) (sys0 : Sys).

Lemma create_answer t dir w k a :
  oracle w = chain_oracle cfg sys0 → cfg_keys cfg !! created (trace w) = Some (k, a) →
  oracle w (trace w) (account_create_inv t dir) = Ok (mkCompleted 0 (account_output a k) "").
Proof. intros Ho Hk. rewrite Ho. unfold chain_oracle. by rewrite Hk. Qed.

Lemma run_answer w inv :
  oracle w = chain_oracle cfg sys0 → is_account_create inv = false →
  oracle w (trace w) inv = Ok (mkCompleted (chain_step cfg (chain_state cfg sys0 (trace w)) inv).2 "" "").
Proof. intros Ho Hc. by rewrite Ho, chain_oracle_run. Qed.

(** [setup_test_environment] receives the next two accounts, the admin
    and the merchant, and funds them. *)
Lemma setup_chain t w ka aa km am :
  oracle w = chain_oracle cfg sys0 →
  cfg_keys cfg !! created (trace w) = Some (ka, aa) → cfg_keys cfg !! S (created (trace w)) = Some (km, am) →
  readable_account aa ka → readable_account am km →
  setup_test_environment t w =
  (Ok (mkTester (network t) (base_url t) (Some (account_of (ka, aa))) (Some (account_of (km, am))) (test_accounts t)),
   after_runs w [account_create_inv t (cwd w); account_create_inv t (cwd w); faucet_inv t (cwd w) aa;
                 faucet_inv t (cwd w) am]).
Proof.
  intros Ho Ha Hm Hra Hrm. unfold setup_test_environment. cbv [mbind py_bind].
  rewrite create_account_eq, (create_answer t _ w ka aa Ho Ha).
  change (succeeded {| returncode := 0; stdout := account_output aa ka; stderr := "" |}) with true.
  cbv iota beta. cbn [stdout]. rewrite parse_account_output_eq by exact Hra.
  set (w1 := after_run w (account_create_inv t (cwd w))).
  rewrite create_account_eq, (create_answer _ _ w1 km am Ho); [|by unfold w1, after_run; cbn [trace]; rewrite created_create].
  change (succeeded {| returncode := 0; stdout := account_output am km; stderr := "" |}) with true.
  cbv iota beta. cbn [stdout]. rewrite parse_account_output_eq by exact Hrm.
  cbv [get_attr mret py_ret]. cbn [admin_account merchant_account address].
  rewrite (fund_eq cfg sys0 _ aa) by exact Ho. rewrite (fund_eq cfg sys0 _ am) by exact Ho.
  unfold w1. by rewrite !after_run_runs, !after_runs_app.
Qed.

(** [deploy_contracts] publishes with the admin's key and reports
    success. *)
Lemma deploy_chain t w adm ak :
  oracle w = chain_oracle cfg sys0 → admin_account t = Some adm → private_key adm = Some ak →
  deploy_contracts t w = (Ok true, after_run w (publish_inv t (cwd w) ak)).
Proof.
  intros Ho Ha Hk.
  assert (oracle w (trace w) (publish_inv t (cwd w) ak) = Ok (mkCompleted 0 "" "")) as Hans.
  { rewrite run_answer by done. unfold chain_step. by change (decode_inv cfg _) with (@None (Call * string)). }
  unfold deploy_contracts, get_attr, run_args. rewrite Ha. cbv [mbind py_bind mret py_ret subprocess_run].
  rewrite Hk. simpl. change (oracle w (trace w) _) with (oracle w (trace w) (publish_inv t (cwd w) ak)).
  by rewrite Hans.
Qed.

(** [initialize_system] makes its two calls; the model reads neither. *)
Lemma initialize_chain t w adm ak :
  oracle w = chain_oracle cfg sys0 → admin_account t = Some adm → private_key adm = Some ak →
  initialize_system t w =
  (Ok tt, after_runs w [move_inv t (cwd w) (fstr (address adm) ++ "::" ++ "bill_splitter::initialize") [] ak;
                        move_inv t (cwd w) (fstr (address adm) ++ "::" ++ "usdc_utils::initialize_usdc") [] ak]).
Proof.
  intros Ho Ha Hk. unfold initialize_system. cbv [mbind py_bind].
  rewrite (function_id_eq t adm) by done. cbv [get_attr]. rewrite Ha, Hk. cbv [mret py_ret].
  rewrite move_run_eq. pose proof (chain_oracle_ok cfg sys0 (trace w)
    (move_inv t (cwd w) (fstr (address adm) ++ "::" ++ "bill_splitter::initialize") [] ak)) as H1.
  rewrite <-Ho in H1. destruct (oracle w (trace w) _); [|done]. cbv iota.
  rewrite (function_id_eq t adm) by done. rewrite move_run_eq.
  pose proof (chain_oracle_ok cfg sys0 (trace (after_run w (move_inv t (cwd w) (fstr (address adm) ++ "::" ++ "bill_splitter::initialize") [] ak)))
    (move_inv t (cwd w) (fstr (address adm) ++ "::" ++ "usdc_utils::initialize_usdc") [] ak)) as H2.
  rewrite <-Ho in H2. destruct (oracle _ _ _); [|done]. cbv iota.
  by rewrite !after_run_runs, after_runs_app.
Qed.

(** A mint signed by the publisher credits the account. *)
Lemma mint_step t dir (sys : Sys) amount key a :
  signer_of cfg key = Some (cfg_module cfg) → 0 ≤ amount →
  chain_step cfg sys (mint_inv t dir (cfg_module cfg) amount key a) = (credit (fstr (address a)) amount sys, 0).
Proof.
  intros Hs Ha. rewrite (chain_step_call cfg sys _ _ key _ (decode_mint cfg t dir amount key a Ha) Hs).
  cbn [run_call]. by rewrite decide_True.
Qed.

Lemma mint_calls_state t dir (sys : Sys) amount key accs :
  signer_of cfg key = Some (cfg_module cfg) → 0 ≤ amount →
  foldl (λ sys inv, (chain_step cfg sys inv).1) sys (mint_inv t dir (cfg_module cfg) amount key <$> accs) =
  foldl (λ sys a, credit (fstr (address a)) amount sys) sys accs.
Proof.
  intros Hs Ha. revert sys. induction accs as [|a accs IH]; intros sys; [done|].
  cbn [fmap list_fmap foldl]. by rewrite mint_step.
Qed.

Lemma credits_sessions (sys : Sys) amount accs :
  sessions (foldl (λ sys a, credit (fstr (address a)) amount sys) sys accs) = sessions sys.
Proof. revert sys. induction accs as [|a accs IH]; intros sys; [done|]. cbn [foldl]. by rewrite IH. Qed.

(** Credits only add to the balances, and each credited account
    receives at least [amount]. *)
Lemma credits_balance (sys : Sys) amount accs x :
  0 ≤ amount →
  default 0 (ledger sys !! x) ≤ default 0 (ledger (foldl (λ sys a, credit (fstr (address a)) amount sys) sys accs) !! x) ∧
  (x ∈ (λ a, fstr (address a)) <$> accs → 0 ≤ default 0 (ledger sys !! x) →
   amount ≤ default 0 (ledger (foldl (λ sys a, credit (fstr (address a)) amount sys) sys accs) !! x)).
Proof.
  intros Ha. revert sys. induction accs as [|a accs IH]; intros sys; cbn [foldl fmap list_fmap].
  { split; [lia|]. intros Hx%elem_of_nil. done. }
  destruct (IH (credit (fstr (address a)) amount sys)) as [Hmono Hin].
  assert (default 0 (ledger sys !! x) ≤ default 0 (ledger (credit (fstr (address a)) amount sys) !! x) ∧
          (x = fstr (address a) → default 0 (ledger sys !! x) + amount ≤
             default 0 (ledger (credit (fstr (address a)) amount sys) !! x))) as [H1 H2].
  { unfold credit. cbn [ledger]. destruct (decide (x = fstr (address a))) as [->|Hne].
    - rewrite lookup_insert_eq. simpl. lia.
    - rewrite lookup_insert_ne by done. split; [lia|done]. }
  split; [lia|]. intros Hx%elem_of_cons H0. destruct Hx as [->|Hx].
  - specialize (H2 eq_refl). lia.
  - apply Hin; [done|lia].
Qed.

(** [mint_test_tokens] signed by the publisher: every mint succeeds. *)
Lemma mint_chain t w adm ak accs amount :
  oracle w = chain_oracle cfg sys0 → admin_account t = Some adm → private_key adm = Some ak →
  fstr (address adm) = cfg_module cfg → signer_of cfg ak = Some (cfg_module cfg) →
  Forall (λ a, is_Some (address a)) accs → 0 ≤ amount →
  mint_test_tokens t accs amount w =
  (Ok (minted amount <$> accs), after_runs w (mint_inv t (cwd w) (cfg_module cfg) amount ak <$> accs)).
Proof.
  intros Ho Hadm Hak Hmod Hs Haddr Hamt. revert w Ho. induction accs as [|a accs IH]; intros w Ho.
  { by rewrite after_runs_nil. }
  apply Forall_cons in Haddr as [[addr Haddr] Hrest].
  cbn [mint_test_tokens]. cbv [mbind py_bind]. rewrite (function_id_eq t adm) by done.
  cbv [get_attr]. rewrite Hadm, Hak. cbv [mret py_ret]. rewrite move_run_eq, Hmod.
  fold (mint_inv t (cwd w) (cfg_module cfg) amount ak a).
  rewrite (run_answer w _ Ho) by reflexivity. rewrite mint_step by done. cbn [snd returncode].
  change (succeeded {| returncode := 0; stdout := ""; stderr := "" |}) with true. cbv iota beta.
  cbn [address]. rewrite Haddr. cbn [slice10]. cbv [mret py_ret].
  rewrite (IH Hrest) by exact Ho. rewrite <-Haddr. cbn [fmap list_fmap]. by rewrite after_runs_cons.
Qed.

(** A call the model does not read runs and exits with status 0. *)
Lemma inert_answer w inv :
  oracle w = chain_oracle cfg sys0 → is_account_create inv = false → decode_inv cfg inv = None →
  oracle w (trace w) inv = Ok (mkCompleted 0 "" "").
Proof. intros Ho Hc Hd. rewrite run_answer by done. unfold chain_step. by rewrite Hd. Qed.

(** [_execute_enhanced_test_scenario] calls a module the model does not
    hold: the call runs, changes nothing, and the method reports
    success. *)
Lemma enhanced_chain t sc w adm m mk addrs :
  oracle w = chain_oracle cfg sys0 → admin_account t = Some adm → fstr (address adm) = cfg_module cfg →
  merchant_account t = Some m → private_key m = Some mk →
  address <$> sc_participants sc = Some <$> addrs →
  ∃ inv, _execute_enhanced_test_scenario t sc w = (Ok true, after_run w inv) ∧ decode_inv cfg inv = None.
Proof.
  intros Ho Hadm Hmod Hm Hmk Haddr. unfold _execute_enhanced_test_scenario. cbv [mbind py_bind time_time].
  rewrite (function_id_eq t adm) by done. unfold join_opt. rewrite Haddr, mapM_Some.
  cbv [mret py_ret get_attr]. rewrite Hm, Hmk, move_run_eq, Hmod.
  set (inv := move_inv _ _ _ _ mk).
  assert (decode_inv cfg inv = None) as Hd.
  { unfold inv, create_args. cbn [app]. by rewrite decode_move_inv, bill_function_app. }
  rewrite (inert_answer w inv Ho) by done. by exists inv.
Qed.

(** [run_large_group_stress_test] calls the test suite module, which the
    model does not hold. *)
Lemma large_chain t n w adm ak :
  oracle w = chain_oracle cfg sys0 → admin_account t = Some adm → fstr (address adm) = cfg_module cfg →
  private_key adm = Some ak →
  ∃ inv, run_large_group_stress_test t n w = (Ok true, after_run w inv) ∧ decode_inv cfg inv = None.
Proof.
  intros Ho Hadm Hmod Hak. unfold run_large_group_stress_test. cbv [mbind py_bind].
  rewrite (function_id_eq t adm) by done. cbv [mret py_ret get_attr]. rewrite Hadm, Hak, move_run_eq, Hmod.
  set (inv := move_inv _ _ _ _ ak).
  assert (decode_inv cfg inv = None) as Hd by (unfold inv; by rewrite decode_move_inv, bill_function_app).
  rewrite (inert_answer w inv Ho) by done. by exists inv.
Qed.

(** The account of a key, when keys are unique. *)
Lemma signer_of_elem k a :
  NoDup (cfg_keys cfg).*1 → (k, a) ∈ cfg_keys cfg → signer_of cfg k = Some a.
Proof.
  unfold signer_of. induction (cfg_keys cfg) as [|[k' a'] l IH]; intros Hnd Hin; [by apply elem_of_nil in Hin|].
  cbn [fmap list_fmap fst] in Hnd. apply NoDup_cons in Hnd as [Hk' Hnd]. cbn [List.find fst].
  apply elem_of_cons in Hin as [Heq|Hin].
  - injection Heq as <- <-. by rewrite bool_decide_eq_true_2.
  - rewrite bool_decide_eq_false_2; [by apply IH|]. intros ->. apply Hk'.
    apply list_elem_of_fmap. by exists (k, a).
Qed.

Lemma signers_Forall2 (l : list (string * string)) :
  Forall (λ ka, signer_of cfg ka.1 = Some ka.2) l → Forall2 (λ k a, signer_of cfg k = Some a) l.*1 l.*2.
Proof. induction 1; constructor; done. Qed.

Lemma accounts_addresses amount (l : list (string * string)) :
  address <$> (minted amount <$> (account_of <$> l)) = Some <$> l.*2.
Proof. induction l as [|[k a] l IH]; [done|]. cbn. by rewrite IH. Qed.

Lemma accounts_keys amount (l : list (string * string)) :
  private_key <$> (minted amount <$> (account_of <$> l)) = Some <$> l.*1.
Proof. induction l as [|[k a] l IH]; [done|]. cbn. by rewrite IH. Qed.

Lemma chain_state_inert_app h l :
  Forall (λ inv, decode_inv cfg inv = None) l → chain_state cfg sys0 (h ++ l) = chain_state cfg sys0 h.
Proof. intros Hl. by rewrite chain_state_app, chain_state_inert. Qed.

(** The accounts after the admin's and the merchant's sign for
    themselves, have distinct plain addresses, and none of them is the
    merchant. *)
Lemma participants_facts ka aa km am rest l :
  cfg_keys cfg = (ka, aa) :: (km, am) :: rest →
  NoDup (cfg_keys cfg).*1 → NoDup (cfg_keys cfg).*2 →
  Forall (λ ka, readable_account ka.2 ka.1 ∧ ka.2 ≠ "" ∧ py_in "," ka.2 = false) (cfg_keys cfg) →
  l `sublist_of` rest →
  Forall2 (λ k a, signer_of cfg k = Some a) l.*1 l.*2 ∧ NoDup l.*2 ∧ am ∉ l.*2 ∧
  Forall (λ a, a ≠ "" ∧ py_in "," a = false) l.*2.
Proof.
  intros Hkeys Hk1 Hk2 Hplain Hl.
  assert (∀ x, x ∈ l → x ∈ cfg_keys cfg) as Hin.
  { intros x Hx. rewrite Hkeys. do 2 right. by eapply elem_of_sublist. }
  pose proof Hk2 as Hk2'. rewrite Hkeys in Hk2'. cbn [fmap list_fmap snd] in Hk2'.
  apply NoDup_cons in Hk2' as [_ Hk2']. apply NoDup_cons in Hk2' as [Ham Hrest].
  split_and!.
  - apply signers_Forall2, Forall_forall. intros [k a] Hx. by apply signer_of_elem, Hin.
  - eapply sublist_NoDup; [exact Hrest|]. by apply fmap_sublist.
  - intros Hx. apply Ham. eapply elem_of_sublist; [exact Hx|]. by apply fmap_sublist.
  - apply Forall_fmap, Forall_forall. intros x Hx. eapply Forall_forall in Hplain; [|by apply Hin].
    apply Hplain.
Qed.

Lemma accounts_fstr (l : list (string * string)) :
  (λ a, fstr (address a)) <$> (account_of <$> l) = l.*2.
Proof. induction l as [|[k a] l IH]; [done|]. cbn. by rewrite IH. Qed.

(** After the mint loop over [account_of <$> l], every address of [l]
    holds at least the minted amount. *)
Lemma credits_cover (sys : Sys) amount (l : list (string * string)) a :
  0 ≤ amount → (∀ x, 0 ≤ default 0 (ledger sys !! x)) → a ∈ l.*2 →
  amount ≤ default 0 (ledger (foldl (λ sys a, credit (fstr (address a)) amount sys) sys (account_of <$> l)) !! a).
Proof.
  intros Hamt Hnonneg Ha. destruct (credits_balance sys amount (account_of <$> l) a) as [_ Hin]; [done|].
  apply Hin; [|apply Hnonneg]. by rewrite accounts_fstr.
Qed.


End Main.

(** The run of a scenario against the modelled CLI. *)
Lemma execute_scenario_chain cfg sys0 t sc w adm m mk merchant addrs ks :
  admin_account t = Some adm → merchant_account t = Some m → private_key m = Some mk →
  address <$> sc_participants sc = Some <$> addrs → private_key <$> sc_participants sc = Some <$> ks →
  oracle w = chain_oracle cfg sys0 → cfg_module cfg = fstr (address adm) →
  signer_of cfg mk = Some merchant → Forall2 (λ k a, signer_of cfg k = Some a) ks addrs →
  NoDup addrs → merchant ∉ addrs → Forall (λ a, a ≠ "" ∧ py_in "," a = false) addrs →
  (2 ≤ length addrs ≤ 100)%nat → sc_required_signatures sc = Z.of_nat (length addrs) →
  Z.of_nat (length addrs) ≤ sc_total_amount sc → 0 < cfg_lifetime cfg →
  let sid := "TEST_" ++ py_upper (sc_name sc) ++ "_" ++ py_str_int (clock w) in
  let T := sc_total_amount sc in
  let n := Z.of_nat (length addrs) in
  sessions (chain_state cfg sys0 (trace w)) !! sid = None →
  (∀ a, a ∈ addrs → T `div` n ≤ default 0 (ledger (chain_state cfg sys0 (trace w)) !! a)) →
  (_execute_test_scenario t sc w).1 = Ok true ∧
  ∃ s, sessions (chain_state cfg sys0 (trace (_execute_test_scenario t sc w).2)) !! sid = Some s ∧
    state s = (if decide (T `mod` n = 0) then Settled else AwaitingPayment) ∧
    total_amount s = T ∧ aggregate_paid s = T - T `mod` n ∧ creator s = merchant ∧
    default 0 (ledger (chain_state cfg sys0 (trace (_execute_test_scenario t sc w).2)) !! merchant) =
      default 0 (ledger (chain_state cfg sys0 (trace w)) !! merchant) + (T - T `mod` n).
Proof.
  intros Hadm Hm Hmk Haddr Hks Horc Hmod Hsm Hsig Hnd Hmer Hplain Hn Hreq Htot Hlife sid T n Hnone Hbal.
  assert (length (sc_participants sc) = length addrs) as Hlen
    by (by rewrite <-(length_fmap address), Haddr, length_fmap).
  pose proof (execute_scenario_eq t sc w adm m mk addrs ks Hadm Hm Hmk Haddr Hks
                ltac:(intros; rewrite Horc; apply chain_oracle_ok)) as He.
  cbv zeta in He. rewrite Hlen, <-Hmod in He. rewrite He. clear He.
  destruct (scenario_run cfg t (cwd w) sid (chain_state cfg sys0 (trace w)) sc mk merchant addrs ks
              (numbered "Participant_" (length addrs))) as [Hc (s' & Hs')]; try done.
  unfold sid in Hc, Hs'.
  rewrite Horc, chain_oracle_run by apply move_inv_not_create. unfold exit_ok. cbn [returncode]. rewrite Hc, bool_decide_eq_true_2, decide_False by lia.
  cbn [fst snd]. unfold after_runs. cbn [trace]. rewrite chain_state_app.
  split; [done|]. by exists s'.
Qed.

(** C5 scenario_outcome: when the CLI answers every [aptos move run]
    with the bill registry of the specification ([chain_oracle]), the
    module is published at the admin's address, the merchant's and the
    participants' keys sign for their accounts, the participants (at
    least two, at most the capacity) have distinct plain addresses other
    than the merchant's and each holds [total // n], the threshold is
    every participant, the total is at least one unit per participant,
    and the session id is new, then [_execute_test_scenario] returns
    True; the session it created has the scenario's total, the merchant
    as creator, and an aggregate paid of [total - total mod n], which
    the merchant has received; it is Settled exactly when [n] divides
    the total, and otherwise is left awaiting payment. *)
Theorem scenario_outcome cfg sys0 t sc w adm m mk merchant addrs ks :
  admin_account t = Some adm → merchant_account t = Some m → private_key m = Some mk →
  address <$> sc_participants sc = Some <$> addrs → private_key <$> sc_participants sc = Some <$> ks →
  oracle w = chain_oracle cfg sys0 → cfg_module cfg = fstr (address adm) →
  signer_of cfg mk = Some merchant → Forall2 (λ k a, signer_of cfg k = Some a) ks addrs →
  NoDup addrs → merchant ∉ addrs → Forall (λ a, a ≠ "" ∧ py_in "," a = false) addrs →
  (2 ≤ length addrs ≤ 100)%nat → sc_required_signatures sc = Z.of_nat (length addrs) →
  Z.of_nat (length addrs) ≤ sc_total_amount sc → 0 < cfg_lifetime cfg →
  let sid := "TEST_" ++ py_upper (sc_name sc) ++ "_" ++ py_str_int (clock w) in
  let T := sc_total_amount sc in
  let n := Z.of_nat (length addrs) in
  sessions (chain_state cfg sys0 (trace w)) !! sid = None →
  (∀ a, a ∈ addrs → T `div` n ≤ default 0 (ledger (chain_state cfg sys0 (trace w)) !! a)) →
  (_execute_test_scenario t sc w).1 = Ok true ∧
  ∃ s, sessions (chain_state cfg sys0 (trace (_execute_test_scenario t sc w).2)) !! sid = Some s ∧
    state s = (if decide (T `mod` n = 0) then Settled else AwaitingPayment) ∧
    total_amount s = T ∧ aggregate_paid s = T - T `mod` n ∧ creator s = merchant ∧
    default 0 (ledger (chain_state cfg sys0 (trace (_execute_test_scenario t sc w).2)) !! merchant) =
      default 0 (ledger (chain_state cfg sys0 (trace w)) !! merchant) + (T - T `mod` n).
Proof. exact (execute_scenario_chain cfg sys0 t sc w adm m mk merchant addrs ks). Qed.

(** C18 scenario_duplicate_id: when the CLI answers with the bill
    registry and the registry already holds a session under the id
    [TEST_<NAME>_<time>] (the same scenario run earlier within the same
    second), [_execute_test_scenario] makes the one creation call, which
    the registry rejects, and returns False; the registry, the existing
    session included, is left as it was. *)
Theorem scenario_duplicate_id cfg sys0 t sc w adm m mk addrs ks :
  admin_account t = Some adm → merchant_account t = Some m → private_key m = Some mk →
  address <$> sc_participants sc = Some <$> addrs → private_key <$> sc_participants sc = Some <$> ks →
  oracle w = chain_oracle cfg sys0 → cfg_module cfg = fstr (address adm) →
  addrs ≠ [] → Forall (λ a, a ≠ "" ∧ py_in "," a = false) addrs →
  0 ≤ sc_total_amount sc → 0 ≤ sc_required_signatures sc →
  is_Some (sessions (chain_state cfg sys0 (trace w)) !! ("TEST_" ++ py_upper (sc_name sc) ++ "_" ++ py_str_int (clock w))) →
  (_execute_test_scenario t sc w).1 = Ok false ∧
  length (trace (_execute_test_scenario t sc w).2) = S (length (trace w)) ∧
  chain_state cfg sys0 (trace (_execute_test_scenario t sc w).2) = chain_state cfg sys0 (trace w).
Proof.
  intros Hadm Hm Hmk Haddr Hks Horc Hmod Hne Hplain Htot Hreq [s0 Hs].
  assert (length (sc_participants sc) = length addrs) as Hlen
    by (by rewrite <-(length_fmap address), Haddr, length_fmap).
  pose proof (execute_scenario_eq t sc w adm m mk addrs ks Hadm Hm Hmk Haddr Hks
                ltac:(intros; rewrite Horc; apply chain_oracle_ok)) as He.
  cbv zeta in He. rewrite Hlen, <-Hmod in He. rewrite He. clear He.
  rewrite Horc, chain_oracle_run by apply move_inv_not_create. unfold exit_ok.
  rewrite (create_existing cfg t (cwd w) _ (chain_state cfg sys0 (trace w)) sc addrs _ mk s0) by done.
  cbn [snd returncode]. rewrite bool_decide_eq_false_2 by done. cbn [fst snd].
  unfold after_runs. cbn [trace]. rewrite length_app, chain_state_app. cbn [foldl length].
  split; [done|]. split; [lia|]. by rewrite (create_existing cfg t (cwd w) _ _ sc addrs _ mk s0).
Qed.

(** The prefix of [main] up to [mint_test_tokens]: from an empty
    history it leaves a tester holding the admin and the merchant, a
    world whose registry has credited 1000 USDC to each created
    participant, and the three scenarios still to run. *)
Lemma main_prefix cfg sys0 w ka aa km am rest :
  oracle w = chain_oracle cfg sys0 → trace w = [] →
  cfg_keys cfg = (ka, aa) :: (km, am) :: rest → cfg_module cfg = aa →
  NoDup (cfg_keys cfg).*1 → Forall (λ ka, readable_account ka.2 ka.1) (cfg_keys cfg) →
  let accs := account_of <$> take 20 rest in
  let ps := minted 1000000000 <$> accs in
  ∃ t w5, admin_account t = Some (account_of (ka, aa)) ∧ merchant_account t = Some (account_of (km, am)) ∧
    oracle w5 = oracle w ∧ clock w5 = clock w ∧
    chain_state cfg sys0 (trace w5) = foldl (λ sys a, credit (fstr (address a)) 1000000000 sys) sys0 accs ∧
    main w = (run_small_group_test t ps ≫= λ _, run_medium_group_test t ps ≫= λ _,
              run_large_group_stress_test t 100 ≫= λ _, mret tt) w5.
Proof.
  intros Ho Htr Hkeys Hmod Hk1 Hread accs ps.
  pose proof Hread as Hread'. rewrite Hkeys in Hread'.
  apply Forall_cons in Hread' as [Hra Hread']. apply Forall_cons in Hread' as [Hrm Hread'].
  (* setup_test_environment *)
  set (t0 := new_tester "testnet").
  set (w1 := after_runs w [account_create_inv t0 (cwd w); account_create_inv t0 (cwd w);
                           faucet_inv t0 (cwd w) aa; faucet_inv t0 (cwd w) am]).
  set (t1 := mkTester (network t0) (base_url t0) (Some (account_of (ka, aa))) (Some (account_of (km, am)))
               (test_accounts t0)).
  assert (setup_test_environment t0 w = (Ok t1, w1)) as Hs1.
  { apply (setup_chain cfg sys0 t0 w ka aa km am Ho); [by rewrite Htr, Hkeys..|done|done]. }
  (* create_test_accounts 20 *)
  set (t2 := mkTester (network t1) (base_url t1) (admin_account t1) (merchant_account t1) accs).
  set (w2 := after_runs w1 (creation_calls t1 (cwd w1) (take 20 rest) 20)).
  assert (created (trace w1) = 2%nat) as Hc1 by (unfold w1, after_runs; cbn [trace]; by rewrite Htr).
  assert (create_test_accounts 20 t1 w1 = (Ok (accs, t2), w2)) as Hs2.
  { unfold create_test_accounts. cbv [mbind py_bind]. rewrite (create_loop_chain cfg sys0).
    - by rewrite Hc1, Hkeys.
    - exact Ho.
    - by rewrite Hc1, Hkeys. }
  (* deploy_contracts, initialize_system *)
  set (w3 := after_run w2 (publish_inv t2 (cwd w2) ka)).
  assert (deploy_contracts t2 w2 = (Ok true, w3)) as Hs3 by (by apply (deploy_chain cfg sys0 t2 w2 (account_of (ka, aa)))).
  set (w4 := after_runs w3 [move_inv t2 (cwd w3) (aa ++ "::" ++ "bill_splitter::initialize") [] ka;
                            move_inv t2 (cwd w3) (aa ++ "::" ++ "usdc_utils::initialize_usdc") [] ka]).
  assert (initialize_system t2 w3 = (Ok tt, w4)) as Hs4 by (by apply (initialize_chain cfg sys0 t2 w3 (account_of (ka, aa)))).
  (* mint_test_tokens *)
  assert (signer_of cfg ka = Some (cfg_module cfg)) as Hsa by (rewrite Hmod; apply signer_of_elem; [done|rewrite Hkeys; by left]).
  set (w5 := after_runs w4 (mint_inv t2 (cwd w4) (cfg_module cfg) 1000000000 ka <$> accs)).
  assert (mint_test_tokens t2 accs 1000000000 w4 = (Ok ps, w5)) as Hs5.
  { apply (mint_chain cfg sys0 t2 w4 (account_of (ka, aa))); try done.
    apply Forall_fmap, Forall_forall. intros [] _. by eexists. }
  (* the registry before the small group: the minted balances *)
  assert (chain_state cfg sys0 (trace w5) = foldl (λ sys a, credit (fstr (address a)) 1000000000 sys) sys0 accs)
    as HR5.
  { change (trace w5) with (trace w4 ++ (mint_inv t2 (cwd w4) (cfg_module cfg) 1000000000 ka <$> accs))%list.
    rewrite chain_state_app, (mint_calls_state cfg) by done. f_equal.
    change (trace w4) with ((((trace w ++ [account_create_inv t0 (cwd w); account_create_inv t0 (cwd w);
      faucet_inv t0 (cwd w) aa; faucet_inv t0 (cwd w) am]) ++ creation_calls t1 (cwd w1) (take 20 rest) 20) ++
      [publish_inv t2 (cwd w2) ka]) ++ [move_inv t2 (cwd w3) (aa ++ "::" ++ "bill_splitter::initialize") [] ka;
      move_inv t2 (cwd w3) (aa ++ "::" ++ "usdc_utils::initialize_usdc") [] ka])%list.
    rewrite Htr, app_nil_l, !(chain_state_inert_app cfg sys0);
      [unfold chain_state; apply chain_state_inert; repeat constructor|apply creation_calls_inert|repeat constructor..]. }
  exists t2, w5. split_and!; try done.
  unfold main. cbv zeta.
  rewrite (py_bind_ok _ _ _ _ _ Hs1). cbv beta. rewrite (py_bind_ok _ _ _ _ _ Hs2). cbv beta iota.
  rewrite (py_bind_ok _ _ _ _ _ Hs3). cbv beta iota delta [negb].
  by rewrite (py_bind_ok _ _ _ _ _ Hs4), (py_bind_ok _ _ _ _ _ Hs5).
Qed.

(** The small group of [main]: with the registry of [main_prefix], its
    session is created, signed by every participant and paid in full. *)
Lemma small_group_chain cfg sys0 t w ka aa km am rest :
  oracle w = chain_oracle cfg sys0 →
  cfg_keys cfg = (ka, aa) :: (km, am) :: rest → cfg_module cfg = aa →
  NoDup (cfg_keys cfg).*1 → NoDup (cfg_keys cfg).*2 →
  Forall (λ ka, readable_account ka.2 ka.1 ∧ ka.2 ≠ "" ∧ py_in "," ka.2 = false) (cfg_keys cfg) →
  (2 ≤ length rest)%nat → 0 < cfg_lifetime cfg →
  admin_account t = Some (account_of (ka, aa)) → merchant_account t = Some (account_of (km, am)) →
  let accs := account_of <$> take 20 rest in
  let ps := minted 1000000000 <$> accs in
  chain_state cfg sys0 (trace w) = foldl (λ sys a, credit (fstr (address a)) 1000000000 sys) sys0 accs →
  sessions sys0 !! ("TEST_SMALL_GROUP_TEST_" ++ py_str_int (clock w)) = None →
  (∀ x, 0 ≤ default 0 (ledger sys0 !! x)) →
  (run_small_group_test t ps w).1 = Ok true ∧ oracle (run_small_group_test t ps w).2 = oracle w ∧
  ∃ s, sessions (chain_state cfg sys0 (trace (run_small_group_test t ps w).2))
         !! ("TEST_SMALL_GROUP_TEST_" ++ py_str_int (clock w)) = Some s ∧
    state s = Settled ∧ total_amount s = 150000000 ∧ aggregate_paid s = 150000000 ∧ creator s = am.
Proof.
  intros Ho Hkeys Hmod Hk1 Hk2 Hplain Hrest Hlife Hadm Hmer accs ps HR5 Hfresh Hnonneg.
  set (sc := small_group_scenario ps).
  set (sub := take 5 (take 20 rest)).
  assert (address <$> sc_participants sc = Some <$> sub.*2) as Haddr6.
  { unfold sc, small_group_scenario, ps, accs. cbn [sc_participants]. rewrite <-!fmap_take. apply accounts_addresses. }
  assert (private_key <$> sc_participants sc = Some <$> sub.*1) as Hks6.
  { unfold sc, small_group_scenario, ps, accs. cbn [sc_participants]. rewrite <-!fmap_take. apply accounts_keys. }
  assert (sub `sublist_of` take 20 rest) as Hsub by apply sublist_take.
  destruct (participants_facts cfg ka aa km am rest sub Hkeys Hk1 Hk2 Hplain) as (Hsig6 & Hnd6 & Hmer6 & Hpl6);
    [etrans; [exact Hsub|apply sublist_take]|].
  assert (length sub.*2 = Nat.min 5 (Nat.min 20 (length rest))) as Hlen6 by (unfold sub; by rewrite length_fmap, !length_take).
  assert (length (take 5 ps) = length sub.*2) as Hlen6'.
  { rewrite <-(length_fmap address (take 5 ps)). change (take 5 ps) with (sc_participants sc).
    by rewrite Haddr6, length_fmap. }
  assert (∀ h i, is_ok (oracle w h i) = true) as Hok by (intros; rewrite Ho; apply chain_oracle_ok).
  destruct (execute_scenario_chain cfg sys0 t sc w (account_of (ka, aa)) (account_of (km, am)) km am sub.*2 sub.*1)
    as [Hr6 (s & Hs & Hst & Htot & Hagg & Hcr & _)]; try done.
  { apply signer_of_elem; [done|rewrite Hkeys; right; by left]. }
  { lia. }
  { cbn [sc sc_required_signatures small_group_scenario]. by rewrite Hlen6'. }
  { cbn [sc sc_total_amount small_group_scenario]. lia. }
  { rewrite HR5, credits_sessions. exact Hfresh. }
  { intros a Ha. rewrite HR5. cbn [sc sc_total_amount small_group_scenario].
    trans 1000000000; [apply Z.div_le_upper_bound; lia|].
    apply credits_cover; [lia|done|]. eapply elem_of_sublist; [exact Ha|]. by apply fmap_sublist. }
  destruct (execute_scenario_world t sc w (account_of (ka, aa)) (account_of (km, am)) km sub.*2 sub.*1)
    as [invs6 Hw6]; try done.
  unfold run_small_group_test. fold sc. split_and!; [done|by rewrite Hw6|]. exists s. split; [exact Hs|].
  assert (150000000 `mod` Z.of_nat (length sub.*2) = 0) as Hmod0.
  { rewrite Hlen6. destruct rest as [|? [|? [|? [|? [|? ?]]]]]; cbn in Hrest |- *; lia || reflexivity. }
  rewrite Hst, Htot, Hagg, Hcr. cbn [sc sc_total_amount small_group_scenario] in *. rewrite Hmod0, decide_True by done.
  split_and!; done || lia.
Qed.

(** C26 main_settles_small_group: [main] of
    scripts/test_multiple_signers.py run against the modelled CLI, from
    an empty history, with the package published at the first account's
    address and at least four readable accounts whose keys and addresses
    are distinct: it creates the admin and the merchant (the first two
    accounts) and up to twenty participants (the others), publishes,
    initialises, mints 1000 USDC to each participant and runs the three
    scenarios to the end without raising; the small group's session is
    Settled with its 150 USDC total paid, and the merchant is its
    creator. *)
Theorem main_settles_small_group cfg sys0 w ka aa km am rest :
  oracle w = chain_oracle cfg sys0 → trace w = [] →
  cfg_keys cfg = (ka, aa) :: (km, am) :: rest → cfg_module cfg = aa →
  NoDup (cfg_keys cfg).*1 → NoDup (cfg_keys cfg).*2 →
  Forall (λ ka, readable_account ka.2 ka.1 ∧ ka.2 ≠ "" ∧ py_in "," ka.2 = false) (cfg_keys cfg) →
  (2 ≤ length rest)%nat → 0 < cfg_lifetime cfg →
  sessions sys0 !! ("TEST_SMALL_GROUP_TEST_" ++ py_str_int (clock w)) = None →
  (∀ x, 0 ≤ default 0 (ledger sys0 !! x)) →
  (main w).1 = Ok tt ∧
  ∃ s, sessions (chain_state cfg sys0 (trace (main w).2)) !! ("TEST_SMALL_GROUP_TEST_" ++ py_str_int (clock w))
         = Some s ∧
    state s = Settled ∧ total_amount s = 150000000 ∧ aggregate_paid s = 150000000 ∧ creator s = am.
Proof.
  intros Ho Htr Hkeys Hmod Hk1 Hk2 Hplain Hrest Hlife Hfresh Hnonneg.
  assert (Forall (λ ka, readable_account ka.2 ka.1) (cfg_keys cfg)) as Hread
    by (eapply Forall_impl; [exact Hplain|]; by intros ? []).
  destruct (main_prefix cfg sys0 w ka aa km am rest) as (t & w5 & Hadm & Hmer & Ho5 & Hc5 & HR5 & Hmain); try done.
  set (ps := minted 1000000000 <$> (account_of <$> take 20 rest)).
  destruct (small_group_chain cfg sys0 t w5 ka aa km am rest) as (Hr6 & Ho6 & s & Hs & Hsettled);
    rewrite ?Ho5, ?Hc5; try done.
  set (w6 := (run_small_group_test t ps w5).2).
  assert (oracle w6 = chain_oracle cfg sys0) as Ho6' by (rewrite <-Ho, <-Ho5; exact Ho6).
  destruct (enhanced_chain cfg sys0 t (medium_group_scenario ps) w6 (account_of (ka, aa)) (account_of (km, am)) km
              (take (Nat.min 15 (length ps)) (take 20 rest)).*2) as (inv7 & Hs7 & Hd7); try done.
  { unfold medium_group_scenario, ps. cbn [sc_participants]. rewrite <-!fmap_take. apply accounts_addresses. }
  destruct (large_chain cfg sys0 t 100 (after_run w6 inv7) (account_of (ka, aa)) ka) as (inv8 & Hs8 & Hd8); try done.
  rewrite Hmain, (py_bind_ok _ _ _ _ _ (py_run_ok _ _ _ Hr6)), (py_bind_ok _ _ _ _ _ Hs7),
    (py_bind_ok _ _ _ _ _ Hs8).
  split; [done|].
  change (trace ((mret tt : Py unit) (after_run (after_run w6 inv7) inv8)).2) with ((trace w6 ++ [inv7]) ++ [inv8])%list.
  rewrite !(chain_state_inert_app cfg sys0) by (constructor; [assumption|constructor]).
  rewrite <-Hc5. by exists s.
Qed.

(** The uneven case, evaluated: three participants splitting 100000000
    pay 33333333 each, and the session stays awaiting payment one unit
    short of its total. *)
Example scenario_uneven_short :
  let ps := [mkTestAccount (Some "0x1") (Some "k1") 0; mkTestAccount (Some "0x2") (Some "k2") 0;
             mkTestAccount (Some "0x3") (Some "k3") 0] in
  let t := mkTester "testnet" "" (Some (mkTestAccount (Some "0xa") (Some "ka") 0))
             (Some (mkTestAccount (Some "0xm") (Some "km") 0)) ps in
  let cfg := mkChainConfig "0xa" [("km", "0xm"); ("k1", "0x1"); ("k2", "0x2"); ("k3", "0x3")] 1700000000 86400 in
  let sys0 : Sys := init_system {[ "0x1" := 60000000; "0x2" := 60000000; "0x3" := 60000000 ]} in
  let w := mkWorld [] [] 1700000000 [] (chain_oracle cfg sys0) in
  let r := _execute_test_scenario t (mkTestScenario "odd_bill" ps 100000000 3 "Odd bill") w in
  r.1 = Ok true ∧
  (λ s, (state s, total_amount s, aggregate_paid s)) <$>
    sessions (chain_state cfg sys0 (trace r.2)) !! "TEST_ODD_BILL_1700000000" =
  Some (AwaitingPayment, 100000000, 99999999).
Proof. vm_compute. split; reflexivity. Qed.

(** A participant who cannot pay, evaluated: the third participant has
    no funds, its payment aborts with exit status 1, and
    [_execute_test_scenario] still returns True while the session stays
    awaiting payment with two of its three shares paid. *)
Example scenario_underfunded_reports_success :
  let ps := [mkTestAccount (Some "0x1") (Some "k1") 0; mkTestAccount (Some "0x2") (Some "k2") 0;
             mkTestAccount (Some "0x3") (Some "k3") 0] in
  let t := mkTester "testnet" "" (Some (mkTestAccount (Some "0xa") (Some "ka") 0))
             (Some (mkTestAccount (Some "0xm") (Some "km") 0)) ps in
  let cfg := mkChainConfig "0xa" [("km", "0xm"); ("k1", "0x1"); ("k2", "0x2"); ("k3", "0x3")] 1700000000 86400 in
  let sys0 : Sys := init_system {[ "0x1" := 60000000; "0x2" := 60000000 ]} in
  let w := mkWorld [] [] 1700000000 [] (chain_oracle cfg sys0) in
  let r := run_small_group_test t ps w in
  r.1 = Ok true ∧
  (λ s, (state s, aggregate_paid s)) <$>
    sessions (chain_state cfg sys0 (trace r.2)) !! "TEST_SMALL_GROUP_TEST_1700000000" =
  Some (AwaitingPayment, 100000000).
Proof. vm_compute. split; reflexivity. Qed.

Lemma scenario_duplicate_id_witness :
  let ps := [mkTestAccount (Some "0x1") (Some "k1") 0; mkTestAccount (Some "0x2") (Some "k2") 0;
             mkTestAccount (Some "0x3") (Some "k3") 0] in
  let adm := mkTestAccount (Some "0xa") (Some "ka") 0 in
  let t := mkTester "testnet" "" (Some adm) (Some (mkTestAccount (Some "0xm") (Some "km") 0)) ps in
  let cfg := mkChainConfig "0xa" [("km", "0xm"); ("k1", "0x1"); ("k2", "0x2"); ("k3", "0x3")] 1700000000 86400 in
  let sys0 : Sys := init_system {[ "0x1" := 60000000; "0x2" := 60000000; "0x3" := 60000000 ]} in
  let w := (run_small_group_test t ps (mkWorld [] [] 1700000000 [] (chain_oracle cfg sys0))).2 in
  (run_small_group_test t ps w).1 = Ok false.
Proof.
  intros ps adm t cfg sys0 w. unfold run_small_group_test.
  destruct (scenario_duplicate_id cfg sys0 t (small_group_scenario ps) w adm
              (mkTestAccount (Some "0xm") (Some "km") 0) "km" ["0x1"; "0x2"; "0x3"] ["k1"; "k2"; "k3"])
    as [Hr _];
    [reflexivity..|discriminate|repeat constructor; discriminate|vm_compute; congruence|vm_compute; congruence|
     apply (bool_decide_unpack _); vm_compute; exact I|].
  exact Hr.
Defined.

Lemma main_settles_small_group_witness :
  let cfg := mkChainConfig "0xa" [("ka", "0xa"); ("km", "0xm"); ("k1", "0x1"); ("k2", "0x2")] 1700000000 86400 in
  let sys0 : Sys := init_system ∅ in
  let w := mkWorld [] [] 1700000000 [] (chain_oracle cfg sys0) in
  (main w).1 = Ok tt ∧
  ∃ s, sessions (chain_state cfg sys0 (trace (main w).2)) !! "TEST_SMALL_GROUP_TEST_1700000000" = Some s ∧
    state s = Settled ∧ total_amount s = 150000000 ∧ aggregate_paid s = 150000000 ∧ creator s = "0xm".
Proof.
  intros cfg sys0 w.
  apply (main_settles_small_group cfg sys0 w "ka" "0xa" "km" "0xm" [("k1", "0x1"); ("k2", "0x2")]);
    try reflexivity; try (simpl; lia).
  1,2: apply (bool_decide_unpack _); vm_compute; exact I.
  repeat constructor; discriminate || reflexivity.
Defined.

Lemma create_test_accounts_chain_witness :
  let cfg := mkChainConfig "0xa" [("ka", "0xa"); ("km", "0xm"); ("k1", "0x1")] 1700000000 86400 in
  let sys0 : Sys := init_system ∅ in
  let t := mkTester "testnet" "" None None [] in
  (create_test_accounts 3 t (mkWorld [] [] 1700000000 [] (chain_oracle cfg sys0))).1 =
  Ok ([mkTestAccount (Some "0xa") (Some "ka") 0; mkTestAccount (Some "0xm") (Some "km") 0;
       mkTestAccount (Some "0x1") (Some "k1") 0],
      mkTester "testnet" "" None None [mkTestAccount (Some "0xa") (Some "ka") 0;
        mkTestAccount (Some "0xm") (Some "km") 0; mkTestAccount (Some "0x1") (Some "k1") 0]).
Proof.
  intros cfg sys0 t.
  assert (Forall (λ ka, readable_account ka.2 ka.1) (cfg_keys cfg)) as Hr
    by (repeat constructor; discriminate || reflexivity).
  rewrite (create_test_accounts_chain cfg sys0 t 3 (mkWorld [] [] 1700000000 [] (chain_oracle cfg sys0)) eq_refl Hr). reflexivity.
Defined.

Lemma scenario_outcome_witness :
  let adm := mkTestAccount (Some "0xa") (Some "ka") 0 in
  let ps := [mkTestAccount (Some "0x1") (Some "k1") 0; mkTestAccount (Some "0x2") (Some "k2") 0;
             mkTestAccount (Some "0x3") (Some "k3") 0] in
  let t := mkTester "testnet" "" (Some adm) (Some (mkTestAccount (Some "0xm") (Some "km") 0)) ps in
  let cfg := mkChainConfig "0xa" [("km", "0xm"); ("k1", "0x1"); ("k2", "0x2"); ("k3", "0x3")] 1700000000 86400 in
  let sys0 : Sys := init_system {[ "0x1" := 60000000; "0x2" := 60000000; "0x3" := 60000000 ]} in
  let w := mkWorld [] [] 1700000000 [] (chain_oracle cfg sys0) in
  (run_small_group_test t ps w).1 = Ok true ∧
  ∃ s, sessions (chain_state cfg sys0 (trace (run_small_group_test t ps w).2))
         !! "TEST_SMALL_GROUP_TEST_1700000000" = Some s ∧ state s = Settled.
Proof.
  intros adm ps t cfg sys0 w. unfold run_small_group_test.
  destruct (scenario_outcome cfg sys0 t (small_group_scenario ps) w adm
              (mkTestAccount (Some "0xm") (Some "km") 0) "km" "0xm" ["0x1"; "0x2"; "0x3"] ["k1"; "k2"; "k3"])
    as [Hr (s & Hs & Hst & _)];
    [reflexivity..|repeat constructor|apply (bool_decide_unpack _); vm_compute; exact I|apply (bool_decide_unpack _); vm_compute; exact I|repeat constructor; discriminate|
     simpl; lia|reflexivity|vm_compute; congruence|reflexivity|reflexivity|
     intros a Ha; repeat (apply elem_of_cons in Ha as [->|Ha]); [vm_compute; congruence..|
       by apply elem_of_nil in Ha]|].
  split; [exact Hr|]. exists s. split; [exact Hs|rewrite Hst; vm_compute; reflexivity].
Defined.

End Chain.
